(** * Cross-reference resolution between FXML markup and Java controllers

    A shallow embedding of the lexical navigation logic of the JavaFX
    support extension: the markup-to-source provider
    ([FxmlDefinitionProvider]), the source-to-markup provider
    ([ControllerDefinitionProvider]), the CodeLens index
    ([FxmlCodeLensProvider], [goToFxmlCommand]) and the markup formatter
    ([FxmlFormattingEditProvider]).

    Text is a list of code units (restricted to the range 0..255, which is
    what [ascii] offers); documents are lists of lines; the workspace
    (file discovery and document opening) is an explicit value passed to
    the resolvers.  Regular expressions of the source are written in a
    small abstract syntax and run by a greedy backtracking matcher with the
    semantics of the JavaScript engine for the constructs that occur. *)

From Stdlib Require Import Ascii String List Arith Bool Lia.
Import ListNotations.

Local Open Scope list_scope.
Local Open Scope nat_scope.

Arguments ascii_dec : simpl never.

(** ** Text *)

Module Text.

Definition text := list ascii.

(** A string literal of the source. *)
Definition T (s : string) : text := list_ascii_of_string s.

Definition dq : ascii := ascii_of_nat 34.
Definition LFc : ascii := ascii_of_nat 10.
Definition CRc : ascii := ascii_of_nat 13.
Definition TABc : ascii := ascii_of_nat 9.

Definition text_eqb (a b : text) : bool :=
  if list_eq_dec ascii_dec a b then true else false.

(** Character classes, by code unit. *)
Definition between (lo hi : nat) (c : ascii) : bool :=
  (lo <=? nat_of_ascii c) && (nat_of_ascii c <=? hi).

Definition is_lower := between 97 122.
Definition is_upper := between 65 90.
Definition is_digit := between 48 57.
Definition is_char (k : ascii) (c : ascii) : bool :=
  if ascii_dec k c then true else false.

(** [\w] *)
Definition is_word (c : ascii) : bool :=
  is_lower c || is_upper c || is_digit c || is_char "_" c.

(** [\s], and the characters removed by [trim]: tab, line feed, vertical
    tab, form feed, carriage return, space and the no-break space. *)
Definition is_space (c : ascii) : bool :=
  let n := nat_of_ascii c in
  ((9 <=? n) && (n <=? 13)) || (n =? 32) || (n =? 160).

(** [s.startsWith(p)] *)
Fixpoint startsWith (p s : text) : bool :=
  match p, s with
  | [], _ => true
  | _ :: _, [] => false
  | a :: p', b :: s' => if ascii_dec a b then startsWith p' s' else false
  end.

(** [s.endsWith(p)] *)
Definition endsWith (p s : text) : bool := startsWith (rev p) (rev s).

(** [s.indexOf(p)] on the suffix that starts at index [i]; [None] is -1. *)
Fixpoint indexOf_from (p s : text) (i : nat) : option nat :=
  if startsWith p s then Some i
  else match s with
       | [] => None
       | _ :: s' => indexOf_from p s' (S i)
       end.

Definition indexOf (p s : text) : option nat := indexOf_from p s 0.

(** [s.indexOf(p, from)] *)
Definition indexOfAt (p s : text) (from : nat) : option nat :=
  indexOf_from p (skipn from s) (Nat.min from (length s)).

(** [s.includes(p)] *)
Definition includes (p s : text) : bool :=
  match indexOf p s with Some _ => true | None => false end.

(** [s.substring(i, j)] for [i <= j]. *)
Definition substring (i j : nat) (s : text) : text := firstn (j - i) (skipn i s).

Fixpoint trimStart (s : text) : text :=
  match s with
  | c :: s' => if is_space c then trimStart s' else s
  | [] => []
  end.

Definition trimEnd (s : text) : text := rev (trimStart (rev s)).

(** [s.trim()] *)
Definition trim (s : text) : text := trimEnd (trimStart s).

(** [s.repeat(n)] *)
Fixpoint repeat_text (s : text) (n : nat) : text :=
  match n with
  | 0 => []
  | S n' => s ++ repeat_text s n'
  end.

(** [parts.join(sep)] *)
Fixpoint join (sep : text) (parts : list text) : text :=
  match parts with
  | [] => []
  | [p] => p
  | p :: rest => p ++ sep ++ join sep rest
  end.

(** [s.split(sep).pop()] for a one-character separator: the part after the
    last separator. *)
Fixpoint lastPart (sep : ascii) (s : text) : text :=
  match s with
  | [] => []
  | c :: s' =>
      if existsb (is_char sep) s' then lastPart sep s'
      else if is_char sep c then s' else s
  end.

(** [s.replace(/\./g, '/')] and the like: every [a] becomes [b]. *)
Definition replaceChar (a b : ascii) (s : text) : text :=
  map (fun c => if ascii_dec a c then b else c) s.

Definition mem (w : text) (ws : list text) : bool := existsb (text_eqb w) ws.

End Text.
Import Text.

(** ** Regular expressions

    The patterns of the source use literals, single character classes,
    greedy [*] and [+] over a character class, one capturing group around
    a [+], and the word boundary [\b].  [new RegExp(escapeRegex(name))]
    matches [name] literally, so an interpolated, escaped name is a
    [Lit]. *)

Module Regex.

Inductive atom : Type :=
| Lit (s : text)
| Cls (c : ascii -> bool)
| Star (c : ascii -> bool)
| Plus (c : ascii -> bool)
| CapPlus (c : ascii -> bool)
| WordB.

Definition regex := list atom.

(** Length of the longest prefix of [s] in class [c]. *)
Fixpoint run (c : ascii -> bool) (s : text) : nat :=
  match s with
  | x :: s' => if c x then S (run c s') else 0
  | [] => 0
  end.

(** Greedy choice with backtracking: try [hi], [hi - 1], ..., [lo]. *)
Fixpoint backtrack {R : Type} (lo hi : nat) (f : nat -> option R) : option R :=
  if hi <? lo then None
  else match f hi with
       | Some r => Some r
       | None => match hi with
                 | 0 => None
                 | S h => backtrack lo h f
                 end
       end.

(** Whether the character before the position reached after [k] more
    characters of [s] is a word character; [p] answers for [k = 0]. *)
Definition prevWord (p : bool) (s : text) (k : nat) : bool :=
  match k with
  | 0 => p
  | S k' => match nth_error s k' with Some c => is_word c | None => false end
  end.

Definition nextWord (s : text) : bool :=
  match s with c :: _ => is_word c | [] => false end.

Definition advance (k : nat) (r : option (nat * option text)) : option (nat * option text) :=
  match r with
  | Some (n, cap) => Some (k + n, cap)
  | None => None
  end.

(** Match [re] at the head of [s]; [p] tells whether the previous
    character is a word character.  The result is the length of the match
    and the text of the capturing group. *)
Fixpoint matchAt (re : regex) (p : bool) (s : text) (cap : option text)
  : option (nat * option text) :=
  match re with
  | [] => Some (0, cap)
  | Lit l :: re' =>
      if startsWith l s
      then advance (length l)
             (matchAt re' (prevWord p s (length l)) (skipn (length l) s) cap)
      else None
  | Cls c :: re' =>
      match s with
      | x :: s' => if c x then advance 1 (matchAt re' (is_word x) s' cap) else None
      | [] => None
      end
  | Star c :: re' =>
      backtrack 0 (run c s)
        (fun k => advance k (matchAt re' (prevWord p s k) (skipn k s) cap))
  | Plus c :: re' =>
      backtrack 1 (run c s)
        (fun k => advance k (matchAt re' (prevWord p s k) (skipn k s) cap))
  | CapPlus c :: re' =>
      backtrack 1 (run c s)
        (fun k => advance k (matchAt re' (prevWord p s k) (skipn k s) (Some (firstn k s))))
  | WordB :: re' =>
      if xorb p (nextWord s) then matchAt re' p s cap else None
  end.

Record rmatch : Type := mkMatch {
  index : nat;          (* match.index *)
  mlen : nat;           (* match[0].length *)
  group1 : option text  (* match[1] *)
}.

(** Leftmost match in [s], whose first character has index [i]. *)
Fixpoint search (re : regex) (p : bool) (s : text) (i : nat) : option rmatch :=
  match matchAt re p s None with
  | Some (n, cap) => Some (mkMatch i n cap)
  | None => match s with
            | [] => None
            | c :: s' => search re (is_word c) s' (S i)
            end
  end.

(** [re.exec(line)] with [re.lastIndex = from] (for a global pattern; a
    pattern without the [g] flag always starts at 0). *)
Definition execFrom (re : regex) (line : text) (from : nat) : option rmatch :=
  if length line <? from then None
  else search re (prevWord false line from) (skipn from line) from.

Definition exec (re : regex) (line : text) : option rmatch := execFrom re line 0.

(** [re.test(line)] *)
Definition test (re : regex) (line : text) : bool :=
  match exec re line with Some _ => true | None => false end.

End Regex.
Import Regex.

(** ** Documents, positions and the workspace *)

Inductive failure : Type :=
| IllegalLine   (* [lineAt] outside the document throws *)
| Diverged.     (* a loop that never ends *)

Inductive result (A : Type) : Type :=
| Ok (a : A)
| Err (e : failure).
Arguments Ok {A} a.
Arguments Err {A} e.

Definition bind {A B : Type} (r : result A) (k : A -> result B) : result B :=
  match r with
  | Ok a => k a
  | Err e => Err e
  end.

Notation "x <- r ;; k" := (bind r (fun x => k))
  (at level 61, r at next level, right associativity).

Inductive EndOfLine : Type := LF | CRLF.

Record Document : Type := mkDocument {
  lines : list text;
  eol : EndOfLine
}.

Record Position : Type := mkPosition {
  line : nat;
  character : nat
}.

Definition Uri := text.

Record Location : Type := mkLocation {
  uri : Uri;
  position : Position
}.

Definition lineCount (d : Document) : nat := length (lines d).

(** [document.lineAt(n).text] *)
Definition lineAt (d : Document) (n : nat) : result text :=
  match nth_error (lines d) n with
  | Some l => Ok l
  | None => Err IllegalLine
  end.

Definition eolText (e : EndOfLine) : text :=
  match e with
  | LF => [LFc]
  | CRLF => [CRc; LFc]
  end.

(** [document.getText()] *)
Definition getText (d : Document) : text := join (eolText (eol d)) (lines d).

(** The injected discovery capability: [vscode.workspace.findFiles] and
    [vscode.workspace.openTextDocument]. *)
Record Workspace : Type := mkWorkspace {
  findFiles : text -> text -> list Uri;
  openTextDocument : Uri -> Document
}.

(** First index [i], counted from [i0], at which [f i line] answers. *)
Fixpoint scanLines {A : Type} (f : nat -> text -> option A) (ls : list text) (i0 : nat)
  : option A :=
  match ls with
  | [] => None
  | l :: ls' =>
      match f i0 l with
      | Some a => Some a
      | None => scanLines f ls' (S i0)
      end
  end.

(** A string or [undefined] used as a condition: the empty string is
    falsy too. *)
Definition truthy (v : option text) : option text :=
  match v with
  | Some (c :: s) => Some (c :: s)
  | _ => None
  end.

Definition FXML_marker : text := T "@FXML".
Definition fxmlGlob : text := T "**/*.fxml".
Definition excludeGlob : text := T "**/node_modules/**".

(** [`fx:controller=\x22${controllerClassName}\x22`], writing [\x22] for
    the double quote. *)
Definition controllerAttr (controllerClassName : text) : text :=
  T "fx:controller=" ++ [dq] ++ controllerClassName ++ [dq].

(** ** Source to markup: [ControllerDefinitionProvider] *)

Module ControllerDefinitionProvider.

Definition javaKeywords : list text :=
  map T [ "public"; "private"; "protected"; "static"; "final"; "void";
          "class"; "interface"; "extends"; "implements"; "import";
          "package"; "return"; "new"; "this"; "super"; "if"; "else";
          "for"; "while"; "do"; "switch"; "case"; "break"; "continue";
          "try"; "catch"; "finally"; "throw"; "throws"; "synchronized";
          "abstract"; "native"; "transient"; "volatile"; "strictfp";
          "FXML"; "Override" ]%string.

(** [[a-zA-Z_$]] and [[a-zA-Z0-9_$]] *)
Definition identStart (c : ascii) : bool :=
  is_lower c || is_upper c || is_char "_" c || is_char "$" c.
Definition identPart (c : ascii) : bool :=
  is_lower c || is_upper c || is_digit c || is_char "_" c || is_char "$" c.

(** [/\b[a-zA-Z_$][a-zA-Z0-9_$]*\b/g] *)
Definition wordPattern : regex := [WordB; Cls identStart; Star identPart; WordB].

(** The [while ((match = wordPattern.exec(line)) !== null)] loop, entered
    with [wordPattern.lastIndex = lastIndex]. *)
Fixpoint memberNameLoop (fuel : nat) (line : text) (charPos lastIndex : nat)
  : result (option text) :=
  match execFrom wordPattern line lastIndex with
  | None => Ok None
  | Some m =>
      let start := index m in
      let end_ := start + mlen m in
      if (start <=? charPos) && (charPos <? end_) then
        let w := substring start end_ line in
        if mem w javaKeywords then Ok None else Ok (Some w)
      else
        match fuel with
        | 0 => Err Diverged
        | S fuel' => memberNameLoop fuel' line charPos end_
        end
  end.

Definition getMemberNameAtPosition (line : text) (charPos : nat) : result (option text) :=
  memberNameLoop (length line) line charPos 0.

(** One round of the backward loop of [isFxmlAnnotated], for offset [i];
    [next] is the rest of the loop. *)
Definition annotatedStep (document : Document) (lineNumber i : nat)
    (next : result bool) : result bool :=
  if (i <=? 2) && (i <=? lineNumber) then
    prevLine <- lineAt document (lineNumber - i) ;;
    if startsWith FXML_marker (trim prevLine) then Ok true
    else if negb (text_eqb (trim prevLine) []) && negb (startsWith (T "@") (trim prevLine))
         then Ok false
         else next
  else Ok false.

Definition isFxmlAnnotated (document : Document) (lineNumber : nat) : result bool :=
  currentLine <- lineAt document lineNumber ;;
  if includes FXML_marker currentLine then Ok true
  else annotatedStep document lineNumber 1
         (annotatedStep document lineNumber 2 (Ok false)).

(** [new RegExp(`\\b${escapeRegex(name)}\\s*\\(`)] *)
Definition methodPattern (name : text) : regex :=
  [WordB; Lit name; Star is_space; Lit (T "(")].

Definition isMethodDeclaration (line name : text) : bool :=
  test (methodPattern name) line.

(** [/package\s+([\w.]+)\s*;/] and [/class\s+(\w+)/] *)
Definition packagePattern : regex :=
  [Lit (T "package"); Plus is_space;
   CapPlus (fun c => is_word c || is_char "." c); Star is_space; Lit (T ";")].
Definition classPattern : regex :=
  [Lit (T "class"); Plus is_space; CapPlus is_word].

Definition capture (m : option rmatch) : option text :=
  match m with
  | Some r => group1 r
  | None => None
  end.

Definition getFullyQualifiedClassName (document : Document) : option text :=
  let txt := getText document in
  let packageName :=
    match capture (exec packagePattern txt) with
    | Some p => p
    | None => []
    end in
  match capture (exec classPattern txt) with
  | None => None
  | Some cls =>
      match packageName with
      | [] => Some cls
      | _ => Some (packageName ++ T "." ++ cls)
      end
  end.

(** [new RegExp(`=\x22#${escapeRegex(methodName)}\x22`)], writing [\x22]
    for the double quote. *)
Definition eventHandlerPattern (methodName : text) : regex :=
  [Lit (T "=" ++ [dq] ++ T "#" ++ methodName ++ [dq])].

(** [new RegExp(`fx:id=\x22${escapeRegex(fieldName)}\x22`)] *)
Definition fxIdPattern (fieldName : text) : regex :=
  [Lit (T "fx:id=" ++ [dq] ++ fieldName ++ [dq])].

Definition findEventHandlerInFxml (document : Document) (u : Uri) (methodName : text)
  : option Location :=
  scanLines (fun i lineText =>
               match exec (eventHandlerPattern methodName) lineText with
               | Some m => Some (mkLocation u (mkPosition i (index m + 2)))
               | None => None
               end)
            (lines document) 0.

Definition findFxIdInFxml (document : Document) (u : Uri) (fieldName : text)
  : option Location :=
  scanLines (fun i lineText =>
               match exec (fxIdPattern fieldName) lineText with
               | Some m => Some (mkLocation u (mkPosition i (index m)))
               | None => None
               end)
            (lines document) 0.

(** The [for (const fxmlUri of fxmlFiles)] loop of [findInFxmlFiles]. *)
Fixpoint findInFxmlLoop (ws : Workspace) (fxmlFiles : list Uri)
    (controllerClassName memberName : text) (isMethod : bool) : option Location :=
  match fxmlFiles with
  | [] => None
  | fxmlUri :: rest =>
      let document := openTextDocument ws fxmlUri in
      let txt := getText document in
      if negb (includes (controllerAttr controllerClassName) txt)
      then findInFxmlLoop ws rest controllerClassName memberName isMethod
      else
        let location :=
          if isMethod then findEventHandlerInFxml document fxmlUri memberName
          else findFxIdInFxml document fxmlUri memberName in
        match location with
        | Some loc => Some loc
        | None => findInFxmlLoop ws rest controllerClassName memberName isMethod
        end
  end.

Definition findInFxmlFiles (ws : Workspace) (controllerClassName memberName : text)
    (isMethod : bool) : option Location :=
  findInFxmlLoop ws (findFiles ws fxmlGlob excludeGlob)
    controllerClassName memberName isMethod.

Definition provideDefinition (ws : Workspace) (document : Document) (pos : Position)
  : result (option Location) :=
  currentLine <- lineAt document (line pos) ;;
  memberName <- getMemberNameAtPosition currentLine (character pos) ;;
  match truthy memberName with
  | None => Ok None
  | Some name =>
      annotated <- isFxmlAnnotated document (line pos) ;;
      if negb annotated then Ok None
      else
        let isMethod := isMethodDeclaration currentLine name in
        match truthy (getFullyQualifiedClassName document) with
        | None => Ok None
        | Some controllerClassName =>
            Ok (findInFxmlFiles ws controllerClassName name isMethod)
        end
  end.

End ControllerDefinitionProvider.

(** ** Markup to source: [FxmlDefinitionProvider] *)

Module FxmlDefinitionProvider.

(** [/fx:controller\s*=\s*\x22([^\x22]+)\x22/g], writing [\x22] for the
    double quote. *)
Definition controllerPattern : regex :=
  [Lit (T "fx:controller"); Star is_space; Lit (T "="); Star is_space; Lit [dq];
   CapPlus (fun c => negb (is_char dq c)); Lit [dq]].

(** [/on\w+\s*=\s*\x22#(\w+)\x22/g] *)
Definition eventHandlerPattern : regex :=
  [Lit (T "on"); Plus is_word; Star is_space; Lit (T "="); Star is_space;
   Lit ([dq] ++ T "#"); CapPlus is_word; Lit [dq]].

(** [/fx:id\s*=\s*\x22(\w+)\x22/g] *)
Definition fxIdPattern : regex :=
  [Lit (T "fx:id"); Star is_space; Lit (T "="); Star is_space; Lit [dq];
   CapPlus is_word; Lit [dq]].

(** The [while ((match = pattern.exec(line)) !== null)] loop, entered with
    [pattern.lastIndex = lastIndex]. *)
Fixpoint attributeLoop (fuel : nat) (pattern : regex) (line : text)
    (charPos lastIndex : nat) : result (option text) :=
  match execFrom pattern line lastIndex with
  | None => Ok None
  | Some m =>
      let start := index m in
      let end_ := start + mlen m in
      if (start <=? charPos) && (charPos <=? end_) then Ok (group1 m)
      else
        match fuel with
        | 0 => Err Diverged
        | S fuel' => attributeLoop fuel' pattern line charPos end_
        end
  end.

Definition getAttributeValueAtPosition (line : text) (charPos : nat) (pattern : regex)
  : result (option text) :=
  attributeLoop (length line) pattern line charPos 0.

Definition findControllerInDocument (document : Document) : option text :=
  ControllerDefinitionProvider.capture (exec controllerPattern (getText document)).

(** [className.replace(/\./g, '/') + '.java'] under [`**/${...}`] *)
Definition javaGlob (className : text) : text :=
  T "**/" ++ replaceChar "." "/" className ++ T ".java".

(** [className.split('.').pop() || className] *)
Definition simpleClassName (className : text) : text :=
  match lastPart "." className with
  | [] => className
  | s => s
  end.

Definition findControllerClass (ws : Workspace) (className : text) : option Location :=
  match findFiles ws (javaGlob className) excludeGlob with
  | [] => None
  | file0 :: _ =>
      let document := openTextDocument ws file0 in
      let needle := T "class " ++ simpleClassName className in
      match scanLines (fun i lineText =>
                         match indexOf needle lineText with
                         | Some k => Some (mkLocation file0 (mkPosition i k))
                         | None => None
                         end)
                      (lines document) 0 with
      | Some loc => Some loc
      | None => Some (mkLocation file0 (mkPosition 0 0))
      end
  end.

(** [new RegExp(`\\b${escapeRegex(memberName)}\\s*\\(`)] and
    [new RegExp(`\\b${escapeRegex(memberName)}\\s*[;=,)]`)] *)
Definition methodPattern (memberName : text) : regex :=
  [WordB; Lit memberName; Star is_space; Lit (T "(")].
Definition fieldPattern (memberName : text) : regex :=
  [WordB; Lit memberName; Star is_space;
   Cls (fun c => is_char ";" c || is_char "=" c || is_char "," c || is_char ")" c)].

Definition memberPattern (memberName : text) (isMethod : bool) : regex :=
  if isMethod then methodPattern memberName else fieldPattern memberName.

(** The [for] loop of [findMemberInJavaFile] from line [i] on;
    [fxmlAnnotationLine] is [None] for -1. *)
Fixpoint findMemberLoop (u : Uri) (memberName : text) (isMethod : bool)
    (ls : list text) (i : nat) (fxmlAnnotationLine : option nat)
    (bestMatch : option Location) : option Location :=
  match ls with
  | [] => bestMatch
  | lineText :: rest =>
      let ann :=
        if startsWith FXML_marker (trim lineText) then Some i
        else fxmlAnnotationLine in
      let inWindow :=
        match ann with
        | Some a => i - a <=? 2
        | None => false
        end in
      let reset :=
        match ann with
        | Some a => if 2 <? i - a then None else ann
        | None => None
        end in
      match exec (memberPattern memberName isMethod) lineText with
      | Some m =>
          let location := mkLocation u (mkPosition i (index m)) in
          if inWindow then Some location
          else
            findMemberLoop u memberName isMethod rest (S i) reset
              (match bestMatch with
               | Some b => Some b
               | None => Some location
               end)
      | None => findMemberLoop u memberName isMethod rest (S i) reset bestMatch
      end
  end.

Definition findMemberInJavaFile (document : Document) (u : Uri) (memberName : text)
    (isMethod : bool) : option Location :=
  findMemberLoop u memberName isMethod (lines document) 0 None None.

Definition findMethodInController (ws : Workspace) (controllerClassName methodName : text)
  : option Location :=
  match findFiles ws (javaGlob controllerClassName) excludeGlob with
  | [] => None
  | file0 :: _ => findMemberInJavaFile (openTextDocument ws file0) file0 methodName true
  end.

Definition findFieldInController (ws : Workspace) (controllerClassName fieldName : text)
  : option Location :=
  match findFiles ws (javaGlob controllerClassName) excludeGlob with
  | [] => None
  | file0 :: _ => findMemberInJavaFile (openTextDocument ws file0) file0 fieldName false
  end.

(** The third check of [provideDefinition], on [fx:id]. *)
Definition fxIdCheck (ws : Workspace) (document : Document) (lineText : text)
    (charPos : nat) : result (option Location) :=
  fxIdMatch <- getAttributeValueAtPosition lineText charPos fxIdPattern ;;
  match truthy fxIdMatch with
  | Some fieldName =>
      match truthy (findControllerInDocument document) with
      | Some controllerClassName =>
          Ok (findFieldInController ws controllerClassName fieldName)
      | None => Ok None
      end
  | None => Ok None
  end.

Definition provideDefinition (ws : Workspace) (document : Document) (pos : Position)
  : result (option Location) :=
  lineText <- lineAt document (line pos) ;;
  controllerMatch <- getAttributeValueAtPosition lineText (character pos) controllerPattern ;;
  match truthy controllerMatch with
  | Some className => Ok (findControllerClass ws className)
  | None =>
      eventHandlerMatch <-
        getAttributeValueAtPosition lineText (character pos) eventHandlerPattern ;;
      match truthy eventHandlerMatch with
      | Some methodName =>
          match truthy (findControllerInDocument document) with
          | Some controllerClassName =>
              Ok (findMethodInController ws controllerClassName methodName)
          | None => fxIdCheck ws document lineText (character pos)
          end
      | None => fxIdCheck ws document lineText (character pos)
      end
  end.

End FxmlDefinitionProvider.

(** ** Navigation index: [FxmlCodeLensProvider] and [goToFxmlCommand] *)

Module FxmlCodeLensProvider.

Record Range : Type := mkRange {
  startLine : nat; startCharacter : nat;
  endLine : nat; endCharacter : nat
}.

(** A lens with the arguments of its [goToFxml] command. *)
Record CodeLens : Type := mkCodeLens {
  range : Range;
  argController : text;
  argMember : text;
  argIsMethod : bool
}.

Definition fxmlImport : text := T "javafx.fxml.FXML".

Definition methodKeywords : list text :=
  map T [ "if"; "for"; "while"; "switch"; "catch"; "new"; "return"; "class";
          "interface" ]%string.

Definition fieldKeywords : list text :=
  map T [ "public"; "private"; "protected"; "static"; "final"; "void";
          "class"; "interface"; "extends"; "implements"; "import";
          "package"; "return"; "new" ]%string.

(** [/\b(\w+)\s*\(/] and [/\b(\w+)\s*[;=,)]/] *)
Definition methodShape : regex :=
  [WordB; CapPlus is_word; Star is_space; Lit (T "(")].
Definition fieldShape : regex :=
  [WordB; CapPlus is_word; Star is_space;
   Cls (fun c => is_char ";" c || is_char "=" c || is_char "," c || is_char ")" c)].

(** What a shape captures on a line, when it is not in the blacklist. *)
Definition shapeName (shape : regex) (blacklist : list text) (lineText : text)
  : option text :=
  match ControllerDefinitionProvider.capture (exec shape lineText) with
  | Some name => if mem name blacklist then None else Some name
  | None => None
  end.

Definition extractMemberName (lineText : text) : option text :=
  match shapeName methodShape methodKeywords lineText with
  | Some name => Some name
  | None => shapeName fieldShape fieldKeywords lineText
  end.

Definition isMethodDeclaration (lineText name : text) : bool :=
  test (ControllerDefinitionProvider.methodPattern name) lineText.

Definition getFullyQualifiedClassName (document : Document) : option text :=
  ControllerDefinitionProvider.getFullyQualifiedClassName document.

(** The inner loop [for (j = i + 1; j < lineCount && j <= i + 3; j++)],
    with [steps] rounds left. *)
Fixpoint findMemberLine (document : Document) (j steps : nat) : option nat :=
  match steps with
  | 0 => None
  | S steps' =>
      match nth_error (lines document) j with
      | None => None
      | Some l =>
          let nextLine := trim l in
          if negb (text_eqb nextLine []) && negb (startsWith (T "@") nextLine)
          then Some j
          else findMemberLine document (S j) steps'
      end
  end.

(** The lens of line [i], if that line opens with the marker. *)
Definition lensAt (document : Document) (controllerClassName : text) (i : nat)
    (lineText : text) : option CodeLens :=
  if startsWith FXML_marker (trim lineText) then
    match findMemberLine document (S i) 3 with
    | Some memberLine =>
        match nth_error (lines document) memberLine with
        | Some memberLineText =>
            match truthy (extractMemberName memberLineText) with
            | Some memberName =>
                Some (mkCodeLens (mkRange i 0 i (length lineText))
                        controllerClassName memberName
                        (isMethodDeclaration memberLineText memberName))
            | None => None
            end
        | None => None
        end
    | None => None
    end
  else None.

(** The outer loop over the lines from index [i] on. *)
Fixpoint lensLoop (document : Document) (controllerClassName : text)
    (ls : list text) (i : nat) : list CodeLens :=
  match ls with
  | [] => []
  | lineText :: rest =>
      match lensAt document controllerClassName i lineText with
      | Some lens => lens :: lensLoop document controllerClassName rest (S i)
      | None => lensLoop document controllerClassName rest (S i)
      end
  end.

Definition provideCodeLenses (document : Document) : list CodeLens :=
  let txt := getText document in
  if negb (includes fxmlImport txt) then []
  else
    match truthy (getFullyQualifiedClassName document) with
    | None => []
    | Some controllerClassName =>
        lensLoop document controllerClassName (lines document) 0
    end.

(** What [goToFxmlCommand] does to the editor. *)
Inductive effect : Type :=
| ShowTextDocument (u : Uri) (selection : Position)
| ShowInformationMessage (memberName : text).

(** [new RegExp(`=\\s*\x22#${escapeRegex(memberName)}\x22`)] *)
Definition commandHandlerPattern (memberName : text) : regex :=
  [Lit (T "="); Star is_space; Lit ([dq] ++ T "#" ++ memberName ++ [dq])].

Definition targetInDocument (document : Document) (memberName : text) (isMethod : bool)
  : option Position :=
  if isMethod then
    scanLines (fun i lineText =>
                 match exec (commandHandlerPattern memberName) lineText with
                 | Some m => Some (mkPosition i (index m + 2))
                 | None => None
                 end)
              (lines document) 0
  else
    scanLines (fun i lineText =>
                 match exec (ControllerDefinitionProvider.fxIdPattern memberName) lineText with
                 | Some m => Some (mkPosition i (index m))
                 | None => None
                 end)
              (lines document) 0.

Fixpoint goToFxmlLoop (ws : Workspace) (fxmlFiles : list Uri)
    (controllerClassName memberName : text) (isMethod : bool) : effect :=
  match fxmlFiles with
  | [] => ShowInformationMessage memberName
  | fxmlUri :: rest =>
      let document := openTextDocument ws fxmlUri in
      if negb (includes (controllerAttr controllerClassName) (getText document))
      then goToFxmlLoop ws rest controllerClassName memberName isMethod
      else
        match targetInDocument document memberName isMethod with
        | Some pos => ShowTextDocument fxmlUri pos
        | None => goToFxmlLoop ws rest controllerClassName memberName isMethod
        end
  end.

Definition goToFxmlCommand (ws : Workspace) (controllerClassName memberName : text)
    (isMethod : bool) : effect :=
  goToFxmlLoop ws (findFiles ws fxmlGlob excludeGlob)
    controllerClassName memberName isMethod.

End FxmlCodeLensProvider.

(** ** The markup formatter: [FxmlFormattingEditProvider] *)

Module FxmlFormattingEditProvider.

Record FormattingOptions : Type := mkOptions {
  insertSpaces : bool;
  tabSize : nat
}.

(** [current.trim()] used as a condition. *)
Definition nonBlank (s : text) : bool := negb (text_eqb (trim s) []).

Definition pushIf (b : bool) (tokens : list text) (t : text) : list text :=
  if b then tokens ++ [t] else tokens.

Definition CDATA_open : text := T "<![CDATA[".
Definition CDATA_close : text := T "]]>".
Definition comment_open : text := T "<!--".
Definition comment_close : text := T "-->".

(** The three-way [if (char === '<') ... else if (char === '>' && inTag) ...
    else ...] at the end of the loop body; gives the new [current],
    [inTag] and [tokens]. *)
Definition charStep (char : ascii) (current : text) (inTag : bool) (tokens : list text)
  : text * bool * list text :=
  if is_char "<" char then
    (T "<", true, pushIf (nonBlank current) tokens current)
  else if is_char ">" char && inTag then
    ([], false, tokens ++ [current ++ T ">"])
  else
    (current ++ [char], inTag, tokens).

(** The [for (let i = 0; i < xml.length; i++)] loop of [tokenize] from index
    [i] on, followed by the final push.  Every round moves [i] forward, so
    [S (length xml)] rounds of fuel are never used up. *)
Fixpoint tokenizeLoop (fuel : nat) (xml : text) (i : nat) (current : text)
    (inTag : bool) (tokens : list text) : result (list text) :=
  match fuel with
  | 0 => Err Diverged
  | S fuel' =>
      match nth_error xml i with
      | None => Ok (pushIf (nonBlank current) tokens current)
      | Some char =>
          (* CDATA sections *)
          let isCdata := startsWith CDATA_open (skipn i xml) in
          let tokens1 := pushIf (isCdata && nonBlank current) tokens current in
          match (if isCdata then indexOfAt CDATA_close xml i else None) with
          | Some cdataEnd =>
              tokenizeLoop fuel' xml (cdataEnd + 3) [] inTag
                (tokens1 ++ [substring i (cdataEnd + 3) xml])
          | None =>
              (* comments *)
              let isComment := startsWith comment_open (skipn i xml) in
              let tokens2 := pushIf (isComment && nonBlank current) tokens1 current in
              match (if isComment then indexOfAt comment_close xml i else None) with
              | Some commentEnd =>
                  tokenizeLoop fuel' xml (commentEnd + 3) [] inTag
                    (tokens2 ++ [substring i (commentEnd + 3) xml])
              | None =>
                  let '(current', inTag', tokens3) := charStep char current inTag tokens2 in
                  tokenizeLoop fuel' xml (S i) current' inTag' tokens3
              end
          end
      end
  end.

Definition tokenize (xml : text) : result (list text) :=
  tokenizeLoop (S (length xml)) xml 0 [] false [].

(** [xml.replace(/\r\n/g, '\n')] and [.replace(/\r/g, '\n')] *)
Fixpoint crlfToLf (s : text) : text :=
  match s with
  | [] => []
  | c :: s' =>
      match s' with
      | c' :: s'' =>
          if is_char CRc c && is_char LFc c' then LFc :: crlfToLf s''
          else c :: crlfToLf s'
      | [] => [c]
      end
  end.

Definition normalizeEol (xml : text) : text := replaceChar CRc LFc (crlfToLf xml).

Definition indentOf (options : FormattingOptions) : text :=
  if insertSpaces options then repeat_text (T " ") (tabSize options) else [TABc].

(** One round of the [for (const part of parts)] loop: the new [level] and
    [lines]. *)
Definition formatPart (indent : text) (st : nat * list text) (part : text)
  : nat * list text :=
  let '(level, out) := st in
  let trimmed := trim part in
  if text_eqb trimmed [] then (level, out)
  else if startsWith (T "<?") trimmed then (level, out ++ [trimmed])
  else if startsWith comment_open trimmed then
    (level, out ++ [repeat_text indent level ++ trimmed])
  else if startsWith (T "</") trimmed then
    let level' := Nat.max 0 (level - 1) in
    (level', out ++ [repeat_text indent level' ++ trimmed])
  else if endsWith (T "/>") trimmed then
    (level, out ++ [repeat_text indent level ++ trimmed])
  else if startsWith (T "<") trimmed then
    let out' := out ++ [repeat_text indent level ++ trimmed] in
    if negb (endsWith (T "/>") trimmed) && negb (startsWith (T "<?") trimmed)
    then (S level, out')
    else (level, out')
  else (level, out ++ [repeat_text indent level ++ trimmed]).

Definition formatXml (xml : text) (options : FormattingOptions) : result text :=
  let indent := indentOf options in
  let txt := normalizeEol xml in
  parts <- tokenize txt ;;
  let '(_, out) := fold_left (formatPart indent) parts (0, []) in
  let res := join [LFc] out in
  Ok (if endsWith [LFc] res then res else res ++ [LFc]).

(** [formatRange] on the text of the range: the replacement texts of the
    edits it returns. *)
Definition formatRange (txt : text) (options : FormattingOptions) : result (list text) :=
  formatted <- formatXml txt options ;;
  Ok (if text_eqb formatted txt then [] else [formatted]).

End FxmlFormattingEditProvider.

(** ** Scene Builder integration: [sceneBuilder.ts] *)

Module SceneBuilder.

(** What the functions read from their surroundings: [process.platform],
    [process.env], [fs.existsSync], [path.join], the configured
    [sceneBuilderPath] and the path of the active editor's document. *)
Record Host : Type := mkHost {
  platform : text;
  env : text -> option text;
  existsSync : text -> bool;
  pathJoin : list text -> text;
  configuredPath : option text;
  activeDocumentPath : option text
}.

(** [process.env[name] || ''] *)
Definition envOrEmpty (h : Host) (name : text) : text :=
  match truthy (env h name) with
  | Some v => v
  | None => []
  end.

Definition candidates (h : Host) : list text :=
  if text_eqb (platform h) (T "win32") then
    [ T "C:\Program Files\SceneBuilder\SceneBuilder.exe";
      T "C:\Program Files (x86)\SceneBuilder\SceneBuilder.exe";
      pathJoin h [envOrEmpty h (T "LOCALAPPDATA"); T "SceneBuilder"; T "SceneBuilder.exe"] ]
  else if text_eqb (platform h) (T "darwin") then
    [ T "/Applications/SceneBuilder.app/Contents/MacOS/SceneBuilder";
      pathJoin h [envOrEmpty h (T "HOME"); T "Applications"; T "SceneBuilder.app";
                  T "Contents"; T "MacOS"; T "SceneBuilder"] ]
  else
    [ T "/opt/scenebuilder/bin/SceneBuilder";
      T "/usr/local/bin/scenebuilder";
      T "/usr/bin/scenebuilder";
      T "/snap/bin/scenebuilder" ].

(** The [for (const candidate of candidates)] loop. *)
Fixpoint firstExisting (h : Host) (cs : list text) : option text :=
  match cs with
  | [] => None
  | candidate :: rest =>
      if existsSync h candidate then Some candidate else firstExisting h rest
  end.

Definition detectSceneBuilder (h : Host) : option text :=
  firstExisting h (candidates h).

Definition getSceneBuilderPath (h : Host) : option text :=
  match truthy (configuredPath h) with
  | Some p => if negb (text_eqb (trim p) []) then Some p else detectSceneBuilder h
  | None => detectSceneBuilder h
  end.

(** What [openInSceneBuilder] does. *)
Inductive action : Type :=
| ShowErrorMessage (message : text)
| NotFoundPrompt       (* the error message that offers to open the settings *)
| Spawn (command : text) (args : list text).

Definition openInSceneBuilder (h : Host) (uriPath : option text) : action :=
  let fileUri :=
    match uriPath with
    | Some u => Some u
    | None => activeDocumentPath h
    end in
  match fileUri with
  | None => ShowErrorMessage (T "No FXML file is currently open.")
  | Some fsPath =>
      if negb (endsWith (T ".fxml") fsPath)
      then ShowErrorMessage (T "The current file is not an FXML file.")
      else
        match truthy (getSceneBuilderPath h) with
        | None => NotFoundPrompt
        | Some sceneBuilderPath =>
            if negb (existsSync h sceneBuilderPath)
            then ShowErrorMessage (T "Scene Builder not found at: " ++ sceneBuilderPath)
            else Spawn sceneBuilderPath [fsPath]
        end
  end.

End SceneBuilder.

(** ** Specification-level definitions and sample data *)

Module Spec.

(** The least number of characters a pattern consumes. *)
Definition atomMinLen (a : atom) : nat :=
  match a with
  | Lit l => length l
  | Cls _ => 1
  | Star _ => 0
  | Plus _ => 1
  | CapPlus _ => 1
  | WordB => 0
  end.

Fixpoint minLen (re : regex) : nat :=
  match re with
  | [] => 0
  | a :: re' => atomMinLen a + minLen re'
  end.

(** A quoted attribute value. *)
Definition quoted (s : string) : text := [dq] ++ T s ++ [dq].

(** *** Sample documents *)

(** A controller with two annotated members, without the marker import. *)
Definition controllerNoImport : Document :=
  mkDocument
    [ T "package pkg;";
      T "public class C {";
      T "    @FXML";
      T "    private Button myButton;";
      T "    @FXML";
      T "    private void handleClick(ActionEvent event) {}";
      T "}" ] LF.

(** The same members with the import, but no type declaration. *)
Definition controllerNoClass : Document :=
  mkDocument
    [ T "import javafx.fxml.FXML;";
      T "    @FXML";
      T "    private Button myButton;" ] LF.

(** The complete controller. *)
Definition controllerC : Document :=
  mkDocument
    [ T "package pkg;";
      T "import javafx.fxml.FXML;";
      T "public class C {";
      T "    @FXML";
      T "    private Button myButton;";
      T "    @FXML";
      T "    private void handleClick(ActionEvent event) {}";
      T "}" ] LF.




(** *** Sample markup and workspace *)

Definition controllerLine : text :=
  T "<VBox fx:controller=" ++ quoted "pkg.C" ++ T ">".

Definition buttonLine : text :=
  T "<Button fx:id=" ++ quoted "myButton" ++ T " onAction=" ++ quoted "#handleClick"
    ++ T "/>".

(** A view of controller [pkg.C] with both member references. *)
Definition viewWithMembers : Document :=
  mkDocument [controllerLine; buttonLine; T "</VBox>"] LF.

(** Another view of the same controller, without member references. *)
Definition viewWithoutMembers : Document :=
  mkDocument [controllerLine; T "<Label/>"; T "</VBox>"] LF.

Definition emptyDocument : Document := mkDocument [[]] LF.

Definition bareUri : Uri := T "bare.fxml".
Definition viewUri : Uri := T "view.fxml".
Definition controllerUri : Uri := T "src/pkg/C.java".

(** A workspace in which discovery lists the view without members first. *)
Definition sampleWorkspace : Workspace :=
  mkWorkspace
    (fun glob _ =>
       if text_eqb glob fxmlGlob then [bareUri; viewUri]
       else if text_eqb glob (T "**/pkg/C.java") then [controllerUri]
       else [])
    (fun u =>
       if text_eqb u bareUri then viewWithoutMembers
       else if text_eqb u viewUri then viewWithMembers
       else if text_eqb u controllerUri then controllerC
       else emptyDocument).

(** The search inside one markup document, by member kind. *)
Definition findInDocument (document : Document) (u : Uri) (memberName : text)
    (isMethod : bool) : option Location :=
  if isMethod
  then ControllerDefinitionProvider.findEventHandlerInFxml document u memberName
  else ControllerDefinitionProvider.findFxIdInFxml document u memberName.

Definition referencesController (ws : Workspace) (controllerClassName : text) (u : Uri)
  : bool :=
  includes (controllerAttr controllerClassName) (getText (openTextDocument ws u)).

(** The reading of source-side resolution under which the first document
    that references the controller settles the result alone. *)
Definition stopsAtFirstReferencingDocument : Prop :=
  forall (ws : Workspace) (controllerClassName memberName : text) (isMethod : bool)
         (pre post : list Uri) (u : Uri),
    findFiles ws fxmlGlob excludeGlob = pre ++ u :: post ->
    (forall v, In v pre -> referencesController ws controllerClassName v = false) ->
    referencesController ws controllerClassName u = true ->
    ControllerDefinitionProvider.findInFxmlFiles ws controllerClassName memberName isMethod
    = findInDocument (openTextDocument ws u) u memberName isMethod.

(** The attribute pattern of a member, by kind. *)
Definition attributePattern (memberName : text) (isMethod : bool) : regex :=
  if isMethod then ControllerDefinitionProvider.eventHandlerPattern memberName
  else ControllerDefinitionProvider.fxIdPattern memberName.

(** *** The formatter on an unterminated comment *)

Definition fourSpaces : FxmlFormattingEditProvider.FormattingOptions :=
  FxmlFormattingEditProvider.mkOptions true 4.

(** Text followed by a comment opener that is never closed. *)
Definition unterminatedComment : text := T "a<!--".

Definition formattedOnce : text :=
  T "a" ++ [LFc] ++ T "a" ++ [LFc] ++ T "<!--" ++ [LFc].

Definition formattedTwice : text :=
  T "a" ++ [LFc] ++ T "a" ++ [LFc] ++ T "a" ++ [LFc] ++ T "a" ++ [LFc]
    ++ T "<!--" ++ [LFc].

(** *** Annotation detection *)

(** The trimmed line opens with the marker. *)
Definition isMarkerLine (l : text) : bool := startsWith FXML_marker (trim l).

(** The trimmed line opens with an annotation sign. *)
Definition isAnnotationLine (l : text) : bool := startsWith (T "@") (trim l).

(** A declaration that mentions the marker in a trailing comment only. *)
Definition markerInComment : text := T "private Button b; // @FXML".

(** The reading under which the marker counts only as the leading token of
    a trimmed line: a document whose only mention of the marker is on line
    [n], not in leading position, has no annotated line [n]. *)
Definition markerCountsOnlyWhenLeading : Prop :=
  forall (document : Document) (n : nat) (l : text),
    nth_error (lines document) n = Some l ->
    includes FXML_marker l = true ->
    isMarkerLine l = false ->
    (forall j l', j <> n -> nth_error (lines document) j = Some l' ->
                  includes FXML_marker l' = false) ->
    ControllerDefinitionProvider.isFxmlAnnotated document n = Ok false.

(** A field one line below the marker, a field two lines below it with
    another annotation in between, and a field four lines below it. *)
Definition annotationSamples : Document :=
  mkDocument
    [ T "    @FXML";
      T "    private Button first;";
      T "    @FXML";
      T "    @Deprecated";
      T "    private Button second;";
      T "    @FXML";
      T "    // one";
      T "    // two";
      T "    // three";
      T "    private Button third;";
      T "    @FXML";
      T "    private int counter;";
      T "    private Button fourth;" ] LF.

(** *** The preference rule of markup-to-source resolution *)

(** Where line [i] matches the sought member structurally. *)
Definition structuralMatch (u : Uri) (memberName : text) (isMethod : bool)
    (i : nat) (lineText : text) : option Location :=
  match exec (FxmlDefinitionProvider.memberPattern memberName isMethod) lineText with
  | Some m => Some (mkLocation u (mkPosition i (index m)))
  | None => None
  end.

(** The annotation-association heuristic in the words of the
    specification: the backward scan over at most [window] lines, nearest
    first, meets a line that opens with the marker before it meets a
    non-blank line that is neither the marker nor another annotation
    line. *)
Fixpoint scanBackward (window : nat) (before : list text) : bool :=
  match window, before with
  | S w, b :: rest =>
      if isMarkerLine b then true
      else if negb (text_eqb (trim b) []) && negb (isAnnotationLine b) then false
      else scanBackward w rest
  | _, _ => false
  end.

(** A line is annotated, in the words of the specification, when it
    contains the marker itself or the backward scan over the two lines
    before it finds the marker; [before] holds the lines before it,
    nearest first. *)
Definition isAnnotated (before : list text) (lineText : text) : bool :=
  includes FXML_marker lineText || scanBackward 2 before.

(** The lines before line [i] of a document, nearest first. *)
Definition linesBefore (document : Document) (i : nat) : list text :=
  rev (firstn i (lines document)).


(** The window that the amended rule speaks of: a line that opens with
    the marker is the line itself or one of the two lines before it,
    whatever the lines in between hold; [before] holds the lines before
    it, nearest first.  Unlike [isAnnotated] there is no stop at an
    unrelated line, and a marker elsewhere in the line itself does not
    count. *)
Definition inMarkerWindow (before : list text) (lineText : text) : bool :=
  isMarkerLine lineText || existsb isMarkerLine (firstn 2 before).

(** The first structural match that is in the marker window. *)
Fixpoint firstMatchInWindow (u : Uri) (memberName : text) (isMethod : bool)
    (before ls : list text) (i : nat) : option Location :=
  match ls with
  | [] => None
  | l :: rest =>
      match structuralMatch u memberName isMethod i l with
      | Some loc =>
          if inMarkerWindow before l then Some loc
          else firstMatchInWindow u memberName isMethod (l :: before) rest (S i)
      | None => firstMatchInWindow u memberName isMethod (l :: before) rest (S i)
      end
  end.

(** The first structural match, annotated or not. *)
Definition firstStructuralMatch (u : Uri) (memberName : text) (isMethod : bool)
    (ls : list text) (i : nat) : option Location :=
  scanLines (structuralMatch u memberName isMethod) ls i.


(** The value of the annotation tracker on entry to round [i], given the
    lines before it, nearest first. *)
Definition trackerOf (before : list text) (i : nat) : option nat :=
  match before with
  | b0 :: before1 =>
      if isMarkerLine b0 then Some (i - 1)
      else match before1 with
           | b1 :: before2 =>
               if isMarkerLine b1 then Some (i - 2)
               else match before2 with
                    | b2 :: _ => if isMarkerLine b2 then Some (i - 3) else None
                    | [] => None
                    end
           | [] => None
           end
  | [] => None
  end.

(** A controller with an unannotated field [x] above an annotated one. *)
Definition twoFieldsNamedX : Document :=
  mkDocument
    [ T "public class C {";
      T "    private int x;";
      T "    private int other;";
      T "    @FXML";
      T "    private Label x;";
      T "}" ] LF.

(** A controller in which a call of the handler stands two lines below
    the marker of another method, above the annotated declaration of the
    handler. *)
Definition callBelowMarker : Document :=
  mkDocument
    [ T "    @FXML";
      T "    private void initialize() {";
      T "        handleClick(null);";
      T "    }";
      T "    @FXML";
      T "    private void handleClick(ActionEvent e) {";
      T "    }" ] LF.

(** A controller in which no line opens with the marker. *)
Definition markerOnlyInComments : Document :=
  mkDocument
    [ T "import javafx.fxml.FXML;";
      T "public class C {";
      T "    // @FXML";
      T "    private Label x;";
      T "}" ] LF.

(** *** Identifier runs *)

(** Whether the character of index [j] is a word character. *)
Definition wordAt (ln : text) (j : nat) : bool :=
  match nth_error ln j with
  | Some c => is_word c
  | None => false
  end.

Definition is_letter (c : ascii) : bool := is_lower c || is_upper c.

(** An identifier-shaped run that ends where [post] begins cannot be
    extended to the right. *)
Definition endsRun (post : text) : bool :=
  match post with
  | [] => true
  | c :: _ => negb (ControllerDefinitionProvider.identPart c)
  end.

(** An identifier-shaped run that begins after the text whose reversal is
    [rpre] cannot be extended to the left: the identifier characters just
    before it, if any, are digits, and no identifier begins with a
    digit. *)
Fixpoint startsRun (rpre : text) : bool :=
  match rpre with
  | [] => true
  | c :: r =>
      if is_digit c then startsRun r
      else negb (ControllerDefinitionProvider.identPart c)
  end.

(** A declaration that opens with a keyword, a line with a keyword right
    after digits, and a line with a marker name. *)
Definition keywordLine : text := T "    private Button myButton;".
Definition digitsThenKeyword : text := T "x = 12return;".
Definition overrideLine : text := T "    @Override".

(** *** Cursor positions of the samples *)

(** On [handleClick] in the markup button line, on the controller name
    in the first markup line, on plain markup, and on the declaration of
    [myButton] in the controller. *)
Definition onHandlerAttribute : Position := mkPosition 1 40.
Definition onControllerAttribute : Position := mkPosition 0 12.
Definition onMyButton : Position := mkPosition 4 22.



(** *** Further specification-level definitions *)

(** The classes of the capturing groups of a pattern. *)
Definition groupClasses (re : regex) : list (ascii -> bool) :=
  flat_map (fun a => match a with CapPlus c => [c] | _ => [] end) re.

(** The last character of a text, [d] for the empty text. *)
Definition lastChar (d : ascii) (s : text) : ascii := last s d.

(** No carriage return in the text. *)
Definition noCR (s : text) : bool := forallb (fun c => negb (is_char CRc c)) s.

(** A line that the forward search of the navigation index passes over:
    blank, or an annotation line. *)
Definition passedOver (l : text) : bool :=
  text_eqb (trim l) [] || isAnnotationLine l.

(** The words that both blacklists of bulk extraction hold. *)
Definition commonKeywords : list text :=
  map T [ "class"; "interface"; "return"; "new" ]%string.

(** The class [[\w.]] of package names. *)
Definition wordOrDot (c : ascii) : bool := is_word c || is_char "." c.


(** A dotted class name, and a name that ends with a dot. *)
Definition dottedName : text := T "com.example.MyController".
Definition trailingDotName : text := T "com.example.".


(** A handler attribute written with blanks around the equals sign. *)
Definition spacedHandlerLine : text :=
  T "<Button onAction = " ++ quoted "#handleClick" ++ T "/>".

(** *** Hosts for the Scene Builder functions *)

(** A Linux host with Scene Builder under [/usr/bin] and a configured
    path that does not exist. *)
Definition staleConfigHost : SceneBuilder.Host :=
  SceneBuilder.mkHost (T "linux") (fun _ => None)
    (fun p => text_eqb p (T "/usr/bin/scenebuilder"))
    (fun parts => join (T "/") parts)
    (Some (T "/old/SceneBuilder"))
    None.

(** The same host without a configured path. *)
Definition detectingHost : SceneBuilder.Host :=
  SceneBuilder.mkHost (T "linux") (fun _ => None)
    (fun p => text_eqb p (T "/usr/bin/scenebuilder"))
    (fun parts => join (T "/") parts)
    (Some (T "   "))
    (Some (T "view.fxml")).

(** *** Reserved words and cursors outside the document *)

(** The reserved words of the Java language. *)
Definition reservedWords : list text :=
  map T [ "abstract"; "assert"; "boolean"; "break"; "byte"; "case"; "catch";
          "char"; "class"; "const"; "continue"; "default"; "do"; "double";
          "else"; "enum"; "extends"; "final"; "finally"; "float"; "for";
          "goto"; "if"; "implements"; "import"; "instanceof"; "int";
          "interface"; "long"; "native"; "new"; "package"; "private";
          "protected"; "public"; "return"; "short"; "static"; "strictfp";
          "super"; "switch"; "synchronized"; "this"; "throw"; "throws";
          "transient"; "try"; "void"; "volatile"; "while" ]%string.

(** The two marker names. *)
Definition markerNames : list text := map T [ "FXML"; "Override" ]%string.

(** The reserved words that the keyword set of the code does not hold. *)
Definition reservedWordsOutsideTheSet : list text :=
  filter (fun w => negb (mem w ControllerDefinitionProvider.javaKeywords)) reservedWords.

(** The reading under which any reserved word of the language, and either
    marker name, is no member name: the identifier-shaped run [kw] under
    the cursor, which cannot be extended on either side, gives none. *)
Definition reservedWordIsNoMemberName : Prop :=
  forall (pre kw post : text) (charPos : nat),
    In kw (reservedWords ++ markerNames) ->
    startsRun (rev pre) = true ->
    endsRun post = true ->
    length pre <= charPos < length pre + length kw ->
    ControllerDefinitionProvider.getMemberNameAtPosition (pre ++ kw ++ post) charPos
      = Ok None.

(** A field of a primitive type. *)
Definition primitiveFieldLine : text := T "    private int counter;".


(** A cursor on the line after the last line of the sample view. *)
Definition belowLastLine : Position := mkPosition 3 0.

End Spec.
Import Spec.

(** * Properties *)

(** ** The matcher *)

Section MatcherFacts.

Lemma text_eqb_eq a b : text_eqb a b = true <-> a = b.
Proof. unfold text_eqb. destruct (list_eq_dec ascii_dec a b); split; congruence. Qed.

Lemma text_eqb_refl a : text_eqb a a = true.
Proof. apply text_eqb_eq. reflexivity. Qed.

Lemma startsWith_length p s : startsWith p s = true -> length p <= length s.
Proof.
  revert s. induction p as [|a p IH]; intros [|b s] H; simpl in *; try lia; try discriminate.
  destruct (ascii_dec a b); [apply IH in H; lia | discriminate].
Qed.

Lemma startsWith_app p s : startsWith p (p ++ s) = true.
Proof.
  induction p as [|a p IH]; simpl; [reflexivity|].
  destruct (ascii_dec a a); [assumption | congruence].
Qed.

Lemma startsWith_split p s : startsWith p s = true -> s = p ++ skipn (length p) s.
Proof.
  revert s. induction p as [|a p IH]; intros [|b s] H; simpl in *; try reflexivity; try discriminate.
  destruct (ascii_dec a b); [subst; f_equal; auto | discriminate].
Qed.

Lemma run_le c s : run c s <= length s.
Proof. induction s as [|x s IH]; simpl; [lia|]. destruct (c x); lia. Qed.

Lemma run_forall c s k : k <= run c s -> forallb c (firstn k s) = true.
Proof.
  revert k. induction s as [|x s IH]; intros [|k] H; simpl in *; try reflexivity; try lia.
  destruct (c x) eqn:E; [|lia]. simpl. apply IH. lia.
Qed.

Lemma backtrack_some {R} lo hi (f : nat -> option R) r :
  backtrack lo hi f = Some r -> exists k, lo <= k <= hi /\ f k = Some r.
Proof.
  induction hi as [|h IH]; simpl.
  - destruct (0 <? lo) eqn:E; [discriminate|].
    apply Nat.ltb_ge in E. destruct (f 0) eqn:F; [|discriminate].
    intros [= <-]. exists 0. split; [lia | assumption].
  - destruct (S h <? lo) eqn:E; [discriminate|].
    apply Nat.ltb_ge in E. destruct (f (S h)) eqn:F.
    + intros [= <-]. exists (S h). split; [lia | assumption].
    + intros H. destruct (IH H) as (k & Hk & Hf). exists k. split; [lia | assumption].
Qed.

(** The first candidate that succeeds, from the top, is the answer. *)
Lemma backtrack_first {R} lo hi (f : nat -> option R) k r :
  lo <= k <= hi -> f k = Some r -> (forall j, k < j <= hi -> f j = None) ->
  backtrack lo hi f = Some r.
Proof.
  intros Hk Hf Hn. induction hi as [|h IH]; simpl.
  - assert (k = 0) by lia. subst.
    destruct (0 <? lo) eqn:E; [apply Nat.ltb_lt in E; lia|]. now rewrite Hf.
  - destruct (S h <? lo) eqn:E; [apply Nat.ltb_lt in E; lia|].
    destruct (Nat.eq_dec k (S h)) as [->|Hne].
    + now rewrite Hf.
    + rewrite (Hn (S h)) by lia. apply IH; [lia|]. intros j Hj. apply Hn. lia.
Qed.

Lemma backtrack_none {R} lo hi (f : nat -> option R) :
  (forall j, lo <= j <= hi -> f j = None) -> backtrack lo hi f = None.
Proof.
  intros Hn. induction hi as [|h IH]; simpl.
  - destruct (0 <? lo) eqn:E; [reflexivity|]. apply Nat.ltb_ge in E.
    rewrite Hn by lia. reflexivity.
  - destruct (S h <? lo) eqn:E; [reflexivity|]. apply Nat.ltb_ge in E.
    rewrite Hn by lia. apply IH. intros j Hj. apply Hn. lia.
Qed.

Lemma advance_some k r n cap :
  advance k r = Some (n, cap) -> exists n', r = Some (n', cap) /\ n = k + n'.
Proof.
  destruct r as [[n' c]|]; simpl; [|discriminate].
  intros [= <- <-]. eauto.
Qed.

(** A match consumes at least [minLen re] characters, and no more than
    there are. *)
Lemma matchAt_bounds re : forall p s cap n c,
  matchAt re p s cap = Some (n, c) -> minLen re <= n <= length s.
Proof.
  induction re as [|a re IH]; intros p s cap n c H; simpl in H.
  - injection H as <- <-. simpl. lia.
  - destruct a as [l|cl|cl|cl|cl|]; simpl.
    + destruct (startsWith l s) eqn:E; [|discriminate].
      apply advance_some in H. destruct H as (n' & H & ->).
      apply IH in H. apply startsWith_length in E.
      rewrite length_skipn in H. lia.
    + destruct s as [|x s]; [discriminate|].
      destruct (cl x); [|discriminate].
      apply advance_some in H. destruct H as (n' & H & ->).
      apply IH in H. simpl. lia.
    + apply backtrack_some in H. destruct H as (k & Hk & H).
      apply advance_some in H. destruct H as (n' & H & ->).
      apply IH in H. pose proof (run_le cl s). rewrite length_skipn in H. lia.
    + apply backtrack_some in H. destruct H as (k & Hk & H).
      apply advance_some in H. destruct H as (n' & H & ->).
      apply IH in H. pose proof (run_le cl s). rewrite length_skipn in H. lia.
    + apply backtrack_some in H. destruct H as (k & Hk & H).
      apply advance_some in H. destruct H as (n' & H & ->).
      apply IH in H. pose proof (run_le cl s). rewrite length_skipn in H. lia.
    + destruct (xorb p (nextWord s)); [|discriminate].
      apply IH in H. lia.
Qed.

Lemma search_bounds re : forall s p i m,
  search re p s i = Some m ->
  i <= index m /\ index m + mlen m <= i + length s /\ minLen re <= mlen m.
Proof.
  induction s as [|x s IH]; intros p i m H; simpl in H.
  - destruct (matchAt re p [] None) as [[n cap]|] eqn:E; [|discriminate].
    injection H as <-. apply matchAt_bounds in E. simpl in *. lia.
  - destruct (matchAt re p (x :: s) None) as [[n cap]|] eqn:E.
    + injection H as <-. apply matchAt_bounds in E. simpl in *. lia.
    + apply IH in H. simpl. lia.
Qed.

Lemma execFrom_bounds re ln from m :
  execFrom re ln from = Some m ->
  from <= index m /\ index m + mlen m <= length ln /\ minLen re <= mlen m.
Proof.
  unfold execFrom. destruct (length ln <? from) eqn:E; [discriminate|].
  apply Nat.ltb_ge in E. intros H. apply search_bounds in H.
  rewrite length_skipn in H. lia.
Qed.

(** Where [search] answers, the pattern matches at that index and at no
    earlier index from the start of the search. *)
Lemma search_sound re : forall s p i m,
  search re p s i = Some m ->
  matchAt re (prevWord p s (index m - i)) (skipn (index m - i) s) None
    = Some (mlen m, group1 m).
Proof.
  induction s as [|x s IH]; intros p i m H; simpl in H.
  - destruct (matchAt re p [] None) as [[n cap]|] eqn:E; [|discriminate].
    injection H as <-. simpl. rewrite Nat.sub_diag. simpl. assumption.
  - destruct (matchAt re p (x :: s) None) as [[n cap]|] eqn:E.
    + injection H as <-. simpl. rewrite Nat.sub_diag. simpl. assumption.
    + pose proof (search_bounds _ _ _ _ _ H) as (Hi & _).
      apply IH in H.
      replace (index m - i) with (S (index m - S i)) by lia.
      simpl. destruct (index m - S i) as [|j] eqn:Ej; simpl in *; assumption.
Qed.





(** A match somewhere makes [search] answer, at that index or before. *)
Lemma search_complete re : forall s p i j r,
  j <= length s ->
  matchAt re (prevWord p s j) (skipn j s) None = Some r ->
  exists m, search re p s i = Some m /\ index m <= i + j.
Proof.
  induction s as [|x s IH]; intros p i j r Hj H; simpl.
  - assert (j = 0) by (simpl in Hj; lia). subst. simpl in H. rewrite H.
    destruct r as [n cap]. eexists. split; [reflexivity | simpl; lia].
  - destruct (matchAt re p (x :: s) None) as [[n cap]|] eqn:E.
    + eexists. split; [reflexivity | simpl; lia].
    + destruct j as [|j]; [simpl in H; congruence|].
      destruct (IH (is_word x) (S i) j r) as (m & Hm & Hle).
      * simpl in Hj. lia.
      * destruct j; simpl in *; assumption.
      * exists m. split; [assumption | lia].
Qed.


End MatcherFacts.

(** ** The navigation index *)

Section NavigationIndex.

Import FxmlCodeLensProvider.

(** With the import and a type declaration, the sample controller has one
    lens per annotated member. *)
Example lenses_of_controllerC :
  provideCodeLenses controllerC =
    [ mkCodeLens (mkRange 3 0 3 9) (T "pkg.C") (T "myButton") false;
      mkCodeLens (mkRange 5 0 5 9) (T "pkg.C") (T "handleClick") true ].
Proof. vm_compute. reflexivity. Qed.

(** C10: a document whose text lacks the marker import
    [javafx.fxml.FXML], or from which no qualified class name can be
    derived, has an empty navigation index, whatever annotated members it
    contains. *)
Theorem C10_no_import_or_no_class_gives_no_lens (document : Document) :
  includes fxmlImport (getText document) = false \/
  getFullyQualifiedClassName document = None ->
  provideCodeLenses document = [].
Proof.
  intros [H|H]; unfold provideCodeLenses.
  - rewrite H. reflexivity.
  - rewrite H. simpl. destruct (includes fxmlImport (getText document)); reflexivity.
Qed.

Lemma C10_witness :
  (includes fxmlImport (getText controllerNoImport) = false /\
   provideCodeLenses controllerNoImport = []) /\
  (getFullyQualifiedClassName controllerNoClass = None /\
   provideCodeLenses controllerNoClass = []).
Proof.
  split; split.
  - reflexivity.
  - apply C10_no_import_or_no_class_gives_no_lens. left. reflexivity.
  - reflexivity.
  - apply C10_no_import_or_no_class_gives_no_lens. right. reflexivity.
Defined.

End NavigationIndex.

(** ** The member classifier *)

Section MemberClassifier.

Import FxmlCodeLensProvider.
Import ControllerDefinitionProvider (capture, methodPattern).




(** Each shape has its own blacklist: a method-shaped keyword such as [if]
    is dropped and the field shape decides. *)
Lemma method_blacklist_falls_through lineText name :
  capture (exec methodShape lineText) = Some name ->
  mem name methodKeywords = true ->
  extractMemberName lineText = shapeName fieldShape fieldKeywords lineText.
Proof.
  intros Hcap Hkw. unfold extractMemberName, shapeName at 1.
  rewrite Hcap, Hkw. reflexivity.
Qed.

Lemma no_method_shape_falls_through lineText :
  capture (exec methodShape lineText) = None ->
  extractMemberName lineText = shapeName fieldShape fieldKeywords lineText.
Proof.
  intros Hcap. unfold extractMemberName, shapeName at 1.
  rewrite Hcap. reflexivity.
Qed.

Example blacklisted_method_shape :
  extractMemberName (T "if (ready) count = 1;") = Some (T "ready").
Proof. reflexivity. Qed.

Example field_blacklist_applies :
  extractMemberName (T "return;") = None.
Proof. reflexivity. Qed.

End MemberClassifier.

(** ** Source to markup *)

Section SourceToMarkup.

Import ControllerDefinitionProvider.

Lemma scanLines_some {A} (f : nat -> text -> option A) : forall ls i0 a,
  scanLines f ls i0 = Some a ->
  exists j l, nth_error ls j = Some l /\ f (i0 + j) l = Some a /\
    forall j' l', j' < j -> nth_error ls j' = Some l' -> f (i0 + j') l' = None.
Proof.
  induction ls as [|l ls IH]; intros i0 a H; simpl in H; [discriminate|].
  destruct (f i0 l) eqn:E.
  - injection H as ->. exists 0, l. rewrite Nat.add_0_r.
    repeat split; [assumption | intros; lia].
  - apply IH in H. destruct H as (j & l0 & Hn & Hf & Hfirst).
    exists (S j), l0. rewrite <- plus_n_Sm. repeat split; try assumption.
    intros [|j'] l' Hlt Hl'; simpl in Hl'.
    + injection Hl' as <-. rewrite Nat.add_0_r. assumption.
    + rewrite <- plus_n_Sm. apply (Hfirst j' l'); [lia | assumption].
Qed.

Lemma scanLines_none {A} (f : nat -> text -> option A) : forall ls i0,
  scanLines f ls i0 = None ->
  forall j l, nth_error ls j = Some l -> f (i0 + j) l = None.
Proof.
  induction ls as [|l ls IH]; intros i0 H j l0 Hn.
  - destruct j; discriminate.
  - simpl in H. destruct (f i0 l) eqn:E; [discriminate|].
    destruct j as [|j]; simpl in Hn.
    + injection Hn as <-. rewrite Nat.add_0_r. assumption.
    + rewrite <- plus_n_Sm. apply (IH (S i0)); assumption.
Qed.

(** A match of a literal pattern begins an occurrence of the literal. *)
Lemma exec_literal lit ln m :
  exec [Lit lit] ln = Some m -> startsWith lit (skipn (index m) ln) = true.
Proof.
  unfold exec, execFrom. destruct (length ln <? 0); [discriminate|]. simpl.
  intros H. apply search_sound in H. rewrite Nat.sub_0_r in H. simpl in H.
  destruct (startsWith lit (skipn (index m) ln)); [reflexivity | discriminate].
Qed.

Lemma startsWith_nth p s k c :
  startsWith p s = true -> nth_error p k = Some c -> nth_error s k = Some c.
Proof.
  intros H Hk. rewrite (startsWith_split _ _ H).
  rewrite nth_error_app1; [assumption|]. apply nth_error_Some. congruence.
Qed.

(** Wherever the event-handler search answers, the character at the
    returned offset is the marker [#], and the method name begins one
    character later. *)
Lemma findEventHandlerInFxml_offset document u methodName loc :
  findEventHandlerInFxml document u methodName = Some loc ->
  exists lineText,
    nth_error (lines document) (line (position loc)) = Some lineText /\
    nth_error lineText (character (position loc)) = Some "#"%char /\
    startsWith methodName (skipn (character (position loc) + 1) lineText) = true.
Proof.
  unfold findEventHandlerInFxml. intros H.
  apply scanLines_some in H. destruct H as (j & l & Hn & Hf & _). simpl in Hf.
  destruct (exec (eventHandlerPattern methodName) l) as [m|] eqn:E; [|discriminate].
  injection Hf as <-. simpl. exists l. split; [assumption|].
  apply exec_literal in E.
  pose proof (startsWith_split _ _ E) as Hs. simpl in Hs.
  split.
  - rewrite <- (firstn_skipn (index m) l) at 1.
    assert (Hlen : index m <= length l).
    { destruct (Nat.le_gt_cases (index m) (length l)) as [|Hgt]; [assumption|].
      rewrite skipn_all2 in Hs by lia. discriminate. }
    rewrite nth_error_app2 by (rewrite length_firstn; lia).
    rewrite length_firstn. replace (index m + 2 - Nat.min (index m) (length l)) with 2 by lia.
    rewrite Hs. reflexivity.
  - replace (index m + 2 + 1) with (3 + index m) by lia.
    rewrite <- skipn_skipn. rewrite Hs. simpl.
    rewrite <- app_assoc. apply startsWith_app.
Qed.

(** C1: on the markup line [<Button fx:id=.. onAction=..#handleClick../>]
    the event-handler search returns the offset of the [=] sign plus 2,
    which is the offset of the marker [#]; the method name begins one
    character later.  The command behind the lenses selects the same
    offset. *)
Theorem C1_event_handler_offset_is_the_marker :
  findEventHandlerInFxml viewWithMembers viewUri (T "handleClick")
    = Some (mkLocation viewUri (mkPosition 1 35)) /\
  indexOf (T "=" ++ quoted "#handleClick") buttonLine = Some 33 /\
  nth_error buttonLine 35 = Some "#"%char /\
  substring 36 47 buttonLine = T "handleClick" /\
  FxmlCodeLensProvider.goToFxmlCommand sampleWorkspace (T "pkg.C") (T "handleClick") true
    = FxmlCodeLensProvider.ShowTextDocument viewUri (mkPosition 1 35).
Proof. repeat split; vm_compute; reflexivity. Qed.

Lemma findInFxmlLoop_skips ws cls name isMethod pre rest :
  (forall v, In v pre ->
     referencesController ws cls v = false \/
     findInDocument (openTextDocument ws v) v name isMethod = None) ->
  findInFxmlLoop ws (pre ++ rest) cls name isMethod
  = findInFxmlLoop ws rest cls name isMethod.
Proof.
  induction pre as [|v pre IH]; intros Hpre; [reflexivity|]. simpl.
  assert (IH' := IH (fun w Hw => Hpre w (or_intror Hw))).
  destruct (Hpre v (or_introl eq_refl)) as [H|H].
  - unfold referencesController in H. rewrite H. simpl. exact IH'.
  - destruct (includes (controllerAttr cls) (getText (openTextDocument ws v)));
      simpl; [|exact IH'].
    unfold findInDocument in H.
    destruct isMethod; rewrite H; exact IH'.
Qed.

Lemma goToFxmlLoop_skips ws cls name isMethod pre rest :
  (forall v, In v pre ->
     referencesController ws cls v = false \/
     FxmlCodeLensProvider.targetInDocument (openTextDocument ws v) name isMethod = None) ->
  FxmlCodeLensProvider.goToFxmlLoop ws (pre ++ rest) cls name isMethod
  = FxmlCodeLensProvider.goToFxmlLoop ws rest cls name isMethod.
Proof.
  induction pre as [|v pre IH]; intros Hpre; [reflexivity|]. simpl.
  assert (IH' := IH (fun w Hw => Hpre w (or_intror Hw))).
  destruct (Hpre v (or_introl eq_refl)) as [H|H].
  - unfold referencesController in H. rewrite H. simpl. exact IH'.
  - destruct (includes (controllerAttr cls) (getText (openTextDocument ws v)));
      simpl; [|exact IH'].
    rewrite H. exact IH'.
Qed.

(** The reading that stops at the first referencing document fails on the
    sample workspace: its first view references [pkg.C] without naming
    [myButton], and resolution goes on to the second view. *)
Lemma C2_later_document_contributes : ~ stopsAtFirstReferencingDocument.
Proof.
  intros H.
  specialize (H sampleWorkspace (T "pkg.C") (T "myButton") false
                [] [viewUri] bareUri eq_refl).
  assert (Hpre : forall v, In v [] ->
            referencesController sampleWorkspace (T "pkg.C") v = false)
    by (intros v []).
  specialize (H Hpre eq_refl). vm_compute in H. discriminate.
Qed.

(** C2, amended: resolution passes over every document that lacks the
    controller reference or that references the controller without a
    matching member attribute, and answers with the match found in the
    first document in discovery order that has both; the command behind
    the lenses does the same. *)
Theorem C2_first_document_with_reference_and_member
    (ws : Workspace) (cls name : text) (isMethod : bool)
    (pre post : list Uri) (u : Uri) :
  findFiles ws fxmlGlob excludeGlob = pre ++ u :: post ->
  referencesController ws cls u = true ->
  (forall loc,
     (forall v, In v pre ->
        referencesController ws cls v = false \/
        findInDocument (openTextDocument ws v) v name isMethod = None) ->
     findInDocument (openTextDocument ws u) u name isMethod = Some loc ->
     findInFxmlFiles ws cls name isMethod = Some loc) /\
  (forall pos,
     (forall v, In v pre ->
        referencesController ws cls v = false \/
        FxmlCodeLensProvider.targetInDocument (openTextDocument ws v) name isMethod = None) ->
     FxmlCodeLensProvider.targetInDocument (openTextDocument ws u) name isMethod = Some pos ->
     FxmlCodeLensProvider.goToFxmlCommand ws cls name isMethod
     = FxmlCodeLensProvider.ShowTextDocument u pos).
Proof.
  intros Hfiles Href. unfold referencesController in Href. split.
  - intros loc Hpre Hloc. unfold findInFxmlFiles. rewrite Hfiles.
    rewrite findInFxmlLoop_skips by assumption. simpl. rewrite Href. simpl.
    unfold findInDocument in Hloc. destruct isMethod; rewrite Hloc; reflexivity.
  - intros pos Hpre Hpos. unfold FxmlCodeLensProvider.goToFxmlCommand. rewrite Hfiles.
    rewrite goToFxmlLoop_skips by assumption. simpl. rewrite Href. simpl.
    rewrite Hpos. reflexivity.
Qed.

Lemma C2_witness :
  findInFxmlFiles sampleWorkspace (T "pkg.C") (T "myButton") false
    = Some (mkLocation viewUri (mkPosition 1 8)) /\
  FxmlCodeLensProvider.goToFxmlCommand sampleWorkspace (T "pkg.C") (T "myButton") false
    = FxmlCodeLensProvider.ShowTextDocument viewUri (mkPosition 1 8).
Proof.
  assert (Hskip : forall v, In v [bareUri] ->
            referencesController sampleWorkspace (T "pkg.C") v = false \/
            findInDocument (openTextDocument sampleWorkspace v) v (T "myButton") false = None).
  { intros v [<-|[]]. right. reflexivity. }
  assert (Hskip' : forall v, In v [bareUri] ->
            referencesController sampleWorkspace (T "pkg.C") v = false \/
            FxmlCodeLensProvider.targetInDocument
              (openTextDocument sampleWorkspace v) (T "myButton") false = None).
  { intros v [<-|[]]. right. reflexivity. }
  destruct (C2_first_document_with_reference_and_member sampleWorkspace
              (T "pkg.C") (T "myButton") false [bareUri] [] viewUri eq_refl eq_refl)
    as [Hfind Hgo].
  split.
  - apply Hfind; [exact Hskip | reflexivity].
  - apply Hgo; [exact Hskip' | reflexivity].
Defined.


(** Inside the chosen document the answer is the first matching line, top
    to bottom. *)
Lemma findInDocument_first_line document u name isMethod loc :
  findInDocument document u name isMethod = Some loc ->
  uri loc = u /\
  (exists l, nth_error (lines document) (line (position loc)) = Some l /\
             exec (attributePattern name isMethod) l <> None) /\
  forall j l, j < line (position loc) -> nth_error (lines document) j = Some l ->
    exec (attributePattern name isMethod) l = None.
Proof.
  unfold findInDocument, findEventHandlerInFxml, findFxIdInFxml, attributePattern.
  intros H. destruct isMethod; apply scanLines_some in H;
    destruct H as (j0 & l & Hn & Hf & Hfirst); simpl in Hf.
  - destruct (exec (eventHandlerPattern name) l) eqn:E; [|discriminate].
    injection Hf as <-. simpl. split; [reflexivity|]. split.
    + exists l. rewrite E. split; [assumption | discriminate].
    + intros j l' Hj Hl'. specialize (Hfirst j l' Hj Hl'). simpl in Hfirst.
      destruct (exec (eventHandlerPattern name) l'); [discriminate | reflexivity].
  - destruct (exec (fxIdPattern name) l) eqn:E; [|discriminate].
    injection Hf as <-. simpl. split; [reflexivity|]. split.
    + exists l. rewrite E. split; [assumption | discriminate].
    + intros j l' Hj Hl'. specialize (Hfirst j l' Hj Hl'). simpl in Hfirst.
      destruct (exec (fxIdPattern name) l'); [discriminate | reflexivity].
Qed.

End SourceToMarkup.

(** ** The formatter *)

Section Formatter.

Import FxmlFormattingEditProvider.

Lemma indexOf_from_ge p : forall s i0 k, indexOf_from p s i0 = Some k -> i0 <= k.
Proof.
  induction s as [|c s IH]; intros i0 k H; simpl in H.
  - destruct (startsWith p []); [injection H as <-; lia | discriminate].
  - destruct (startsWith p (c :: s)); [injection H as <-; lia|].
    apply IH in H. lia.
Qed.

Lemma indexOfAt_ge p s from k :
  from <= length s -> indexOfAt p s from = Some k -> from <= k.
Proof.
  unfold indexOfAt. intros Hle H. apply indexOf_from_ge in H. lia.
Qed.

(** Every round of the tokenizer moves the index forward, so the fuel it
    is given is never used up. *)
Lemma tokenizeLoop_ends : forall fuel xml i current inTag tokens,
  length xml <= fuel + i ->
  exists ts, tokenizeLoop (S fuel) xml i current inTag tokens = Ok ts.
Proof.
  induction fuel as [|fuel IH]; intros xml i current inTag tokens Hf;
    cbn [tokenizeLoop];
    destruct (nth_error xml i) as [char|] eqn:Ec; eauto;
    assert (Hi : i < length xml) by (apply nth_error_Some; congruence);
    [lia|].
  destruct (if startsWith CDATA_open (skipn i xml)
            then indexOfAt CDATA_close xml i else None) as [cdataEnd|] eqn:E1.
  { destruct (startsWith CDATA_open (skipn i xml)); [|discriminate].
    apply indexOfAt_ge in E1; [|lia]. apply IH. lia. }
  destruct (if startsWith comment_open (skipn i xml)
            then indexOfAt comment_close xml i else None) as [commentEnd|] eqn:E2.
  { destruct (startsWith comment_open (skipn i xml)); [|discriminate].
    apply indexOfAt_ge in E2; [|lia]. apply IH. lia. }
  destruct (charStep char current inTag _) as [[current' inTag'] tokens3].
  apply IH. lia.
Qed.

Lemma formatXml_ends xml options : exists formatted, formatXml xml options = Ok formatted.
Proof.
  unfold formatXml, tokenize.
  destruct (tokenizeLoop_ends (length (normalizeEol xml)) (normalizeEol xml)
              0 [] false []) as [ts ->]; [lia|].
  cbn [bind].
  destruct (fold_left (formatPart (indentOf options)) ts (0, [])) as [level out].
  eauto.
Qed.

(** The text before an unterminated comment is pushed twice: once by the
    comment branch, which does not clear it, and once by the tag branch. *)
Example tokenize_unterminated_comment :
  tokenize unterminatedComment = Ok [T "a"; T "a"; T "<!--"].
Proof. reflexivity. Qed.

(** Where the comment is closed the text is pushed once. *)
Example tokenize_terminated_comment :
  tokenize (T "a<!---->") = Ok [T "a"; T "<!---->"].
Proof. reflexivity. Qed.

(** C9: formatting is not idempotent on [a<!--]: the first pass doubles
    the text line, the second pass doubles it again, and the range
    formatter reports an edit on text that is already formatted. *)
Theorem C9_unterminated_comment_breaks_idempotence :
  formatXml unterminatedComment fourSpaces = Ok formattedOnce /\
  formatXml formattedOnce fourSpaces = Ok formattedTwice /\
  formattedTwice <> formattedOnce /\
  formatRange formattedOnce fourSpaces = Ok [formattedTwice].
Proof.
  repeat split; try reflexivity. discriminate.
Qed.

(** On well-formed markup the sample round is stable. *)
Example format_stable_on_sample :
  forall once,
    formatXml (T "<a><b/>text</a>") fourSpaces = Ok once ->
    formatXml once fourSpaces = Ok once /\ formatRange once fourSpaces = Ok [].
Proof.
  intros once H. vm_compute in H. injection H as <-. split; reflexivity.
Qed.

End Formatter.

(** ** The annotation-association heuristic *)

Section AnnotationAssociation.

Import ControllerDefinitionProvider.

Lemma marker_is_annotation l : isMarkerLine l = true -> isAnnotationLine l = true.
Proof.
  unfold isMarkerLine, isAnnotationLine, FXML_marker.
  destruct (trim l) as [|c s]; simpl; [discriminate|].
  destruct (ascii_dec "@" c); [reflexivity | discriminate].
Qed.

Lemma not_annotation_not_marker l : isAnnotationLine l = false -> isMarkerLine l = false.
Proof.
  intros H. destruct (isMarkerLine l) eqn:E; [|reflexivity].
  apply marker_is_annotation in E. congruence.
Qed.

Lemma startsWith_refl s : startsWith s s = true.
Proof. rewrite <- (app_nil_r s) at 2. apply startsWith_app. Qed.

(** The backward check, spelled out on the lines it reads. *)
Lemma isFxmlAnnotated_unfold document n decl :
  nth_error (lines document) n = Some decl ->
  isFxmlAnnotated document n =
    if includes FXML_marker decl then Ok true
    else annotatedStep document n 1 (annotatedStep document n 2 (Ok false)).
Proof. intros H. unfold isFxmlAnnotated, lineAt. rewrite H. reflexivity. Qed.

Lemma annotatedStep_line document n i l next :
  1 <= i <= 2 -> i <= n -> nth_error (lines document) (n - i) = Some l ->
  annotatedStep document n i next =
    if isMarkerLine l then Ok true
    else if negb (text_eqb (trim l) []) && negb (isAnnotationLine l) then Ok false
         else next.
Proof.
  intros Hi Hn Hl. unfold annotatedStep, lineAt.
  replace (i <=? 2) with true by (symmetry; apply Nat.leb_le; lia).
  replace (i <=? n) with true by (symmetry; apply Nat.leb_le; lia).
  rewrite Hl. reflexivity.
Qed.

(** Two lines that are not annotation lines, just above the declaration,
    already make the check fail. *)
Lemma two_plain_lines_above document n decl l1 l2 :
  nth_error (lines document) n = Some decl ->
  2 <= n ->
  nth_error (lines document) (n - 1) = Some l1 ->
  nth_error (lines document) (n - 2) = Some l2 ->
  includes FXML_marker decl = false ->
  isAnnotationLine l1 = false -> isAnnotationLine l2 = false ->
  isFxmlAnnotated document n = Ok false.
Proof.
  intros Hd Hn H1 H2 Hinc Ha1 Ha2.
  rewrite (isFxmlAnnotated_unfold _ _ _ Hd), Hinc.
  rewrite (annotatedStep_line _ _ 1 l1) by (assumption || lia).
  rewrite (annotatedStep_line _ _ 2 l2) by (assumption || lia).
  rewrite (not_annotation_not_marker _ Ha1), (not_annotation_not_marker _ Ha2), Ha1, Ha2.
  destruct (text_eqb (trim l1) []); destruct (text_eqb (trim l2) []); reflexivity.
Qed.

(** C4: the backward check answers true for a declaration one line below
    a line that holds the marker alone, and for a declaration two lines
    below it with another annotation line in between; it answers false
    when three or more lines that are not annotation lines lie between
    the marker and the declaration; and a non-blank line just above the
    declaration that is neither the marker nor another annotation stops
    the scan, whatever stands above it. *)
Theorem C4_backward_annotation_window (document : Document) (n : nat) (decl : text) :
  nth_error (lines document) n = Some decl ->
  (forall l1,
     1 <= n -> nth_error (lines document) (n - 1) = Some l1 ->
     trim l1 = FXML_marker ->
     isFxmlAnnotated document n = Ok true) /\
  (forall l1 l2,
     2 <= n -> nth_error (lines document) (n - 1) = Some l1 ->
     nth_error (lines document) (n - 2) = Some l2 ->
     isAnnotationLine l1 = true -> trim l2 = FXML_marker ->
     isFxmlAnnotated document n = Ok true) /\
  (forall m lm,
     nth_error (lines document) m = Some lm -> trim lm = FXML_marker ->
     m + 3 < n ->
     (forall j l, m < j < n -> nth_error (lines document) j = Some l ->
                  isAnnotationLine l = false) ->
     includes FXML_marker decl = false ->
     isFxmlAnnotated document n = Ok false) /\
  (forall l1,
     1 <= n -> nth_error (lines document) (n - 1) = Some l1 ->
     trim l1 <> [] -> isAnnotationLine l1 = false ->
     includes FXML_marker decl = false ->
     isFxmlAnnotated document n = Ok false).
Proof.
  intros Hd. rewrite (isFxmlAnnotated_unfold _ _ _ Hd). repeat split.
  - intros l1 Hn H1 Ht.
    destruct (includes FXML_marker decl); [reflexivity|].
    rewrite (annotatedStep_line _ _ 1 l1) by (assumption || lia).
    unfold isMarkerLine. rewrite Ht, startsWith_refl. reflexivity.
  - intros l1 l2 Hn H1 H2 Ha Ht.
    destruct (includes FXML_marker decl); [reflexivity|].
    rewrite (annotatedStep_line _ _ 1 l1) by (assumption || lia).
    rewrite (annotatedStep_line _ _ 2 l2) by (assumption || lia).
    rewrite Ha. unfold isMarkerLine at 2. rewrite Ht, startsWith_refl.
    destruct (isMarkerLine l1); [reflexivity|].
    rewrite andb_false_r. reflexivity.
  - intros m lm _ _ Hm Hplain Hinc.
    assert (Hlen : n < length (lines document)) by (apply nth_error_Some; congruence).
    destruct (nth_error (lines document) (n - 1)) as [l1|] eqn:H1;
      [|apply nth_error_None in H1; lia].
    destruct (nth_error (lines document) (n - 2)) as [l2|] eqn:H2;
      [|apply nth_error_None in H2; lia].
    rewrite <- (isFxmlAnnotated_unfold _ _ _ Hd).
    apply (two_plain_lines_above document n decl l1 l2); try assumption; try lia.
    + apply (Hplain (n - 1)); [lia | assumption].
    + apply (Hplain (n - 2)); [lia | assumption].
  - intros l1 Hn H1 Hne Ha Hinc. rewrite Hinc.
    rewrite (annotatedStep_line _ _ 1 l1) by (assumption || lia).
    rewrite (not_annotation_not_marker _ Ha), Ha.
    destruct (text_eqb (trim l1) []) eqn:E; [|reflexivity].
    apply text_eqb_eq in E. contradiction.
Qed.

Lemma C4_witness :
  isFxmlAnnotated annotationSamples 1 = Ok true /\
  isFxmlAnnotated annotationSamples 4 = Ok true /\
  isFxmlAnnotated annotationSamples 9 = Ok false /\
  isFxmlAnnotated annotationSamples 12 = Ok false.
Proof.
  split; [|split; [|split]].
  - destruct (C4_backward_annotation_window annotationSamples 1
                (T "    private Button first;") eq_refl) as (H & _).
    apply (H (T "    @FXML")); [lia | reflexivity | reflexivity].
  - destruct (C4_backward_annotation_window annotationSamples 4
                (T "    private Button second;") eq_refl) as (_ & H & _).
    apply (H (T "    @Deprecated") (T "    @FXML"));
      [lia | reflexivity | reflexivity | reflexivity | reflexivity].
  - destruct (C4_backward_annotation_window annotationSamples 9
                (T "    private Button third;") eq_refl) as (_ & _ & H & _).
    apply (H 5 (T "    @FXML")); [reflexivity | reflexivity | lia | | reflexivity].
    intros j l Hj Hl.
    assert (Hcases : j = 6 \/ j = 7 \/ j = 8) by lia.
    destruct Hcases as [ -> | [ -> | -> ] ]; injection Hl as <-; reflexivity.
  - destruct (C4_backward_annotation_window annotationSamples 12
                (T "    private Button fourth;") eq_refl) as (_ & _ & _ & H).
    apply (H (T "    private int counter;"));
      [lia | reflexivity | discriminate | reflexivity | reflexivity].
Defined.

(** C5 fails on the cursor's own line: a marker that only occurs in a
    trailing comment of that line makes the line annotated. *)
Lemma C5_marker_inside_own_line_counts : ~ markerCountsOnlyWhenLeading.
Proof.
  intros H.
  specialize (H (mkDocument [markerInComment] LF) 0 markerInComment
                eq_refl eq_refl eq_refl).
  assert (Hothers : forall j l', j <> 0 ->
            nth_error (lines (mkDocument [markerInComment] LF)) j = Some l' ->
            includes FXML_marker l' = false).
  { intros [|[|j]] l' Hj Hl'; [contradiction | discriminate | discriminate]. }
  specialize (H Hothers). vm_compute in H. discriminate.
Qed.

Lemma annotatedStep_out document n i next :
  n < i -> annotatedStep document n i next = Ok false.
Proof.
  intros H. unfold annotatedStep.
  replace (i <=? n) with false by (symmetry; apply Nat.leb_gt; lia).
  rewrite andb_false_r. reflexivity.
Qed.

(** A true answer of the backward check rests on the marker somewhere in
    the line itself or in leading position on one of the two lines
    above. *)
Lemma isFxmlAnnotated_true document n :
  isFxmlAnnotated document n = Ok true ->
  exists decl, nth_error (lines document) n = Some decl /\
    (includes FXML_marker decl = true \/
     exists i l, 1 <= i <= 2 /\ i <= n /\
       nth_error (lines document) (n - i) = Some l /\ isMarkerLine l = true).
Proof.
  intros H.
  destruct (nth_error (lines document) n) as [decl|] eqn:Hd;
    [|unfold isFxmlAnnotated, lineAt in H; rewrite Hd in H; discriminate].
  exists decl. split; [reflexivity|].
  rewrite (isFxmlAnnotated_unfold _ _ _ Hd) in H.
  destruct (includes FXML_marker decl); [left; reflexivity|]. right.
  assert (Hlen : n < length (lines document)) by (apply nth_error_Some; congruence).
  destruct (Nat.lt_ge_cases n 1) as [Hn1|Hn1];
    [rewrite annotatedStep_out in H by lia; discriminate|].
  destruct (nth_error (lines document) (n - 1)) as [l1|] eqn:H1;
    [|apply nth_error_None in H1; lia].
  rewrite (annotatedStep_line _ _ 1 l1) in H by (assumption || lia).
  destruct (isMarkerLine l1) eqn:M1.
  { exists 1, l1. repeat split; try lia; assumption. }
  destruct (negb (text_eqb (trim l1) []) && negb (isAnnotationLine l1));
    [discriminate|].
  destruct (Nat.lt_ge_cases n 2) as [Hn2|Hn2];
    [rewrite annotatedStep_out in H by lia; discriminate|].
  destruct (nth_error (lines document) (n - 2)) as [l2|] eqn:H2;
    [|apply nth_error_None in H2; lia].
  rewrite (annotatedStep_line _ _ 2 l2) in H by (assumption || lia).
  destruct (isMarkerLine l2) eqn:M2.
  { exists 2, l2. repeat split; try lia; assumption. }
  destruct (negb (text_eqb (trim l2) []) && negb (isAnnotationLine l2));
    discriminate.
Qed.

End AnnotationAssociation.

(** ** Markup to source: the preference rule *)

Section PreferenceRule.

Import FxmlDefinitionProvider.

Variables (u : Uri) (memberName : text) (isMethod : bool).

(** The loop of [findMemberInJavaFile], entered at line [i] with the
    tracker that the lines before [i] produce, answers with the first
    match in the marker window from [i] on, else with the best match so
    far, else with the first structural match from [i] on. *)
Lemma findMemberLoop_spec : forall ls before i bestMatch,
  length before = i ->
  findMemberLoop u memberName isMethod ls i (trackerOf before i) bestMatch =
    match firstMatchInWindow u memberName isMethod before ls i with
    | Some loc => Some loc
    | None =>
        match bestMatch with
        | Some b => Some b
        | None => firstStructuralMatch u memberName isMethod ls i
        end
    end.
Proof.
  induction ls as [|l rest IH]; intros before i bestMatch Hlen.
  - simpl. destruct bestMatch; reflexivity.
  - assert (Hs : structuralMatch u memberName isMethod i l =
                 match exec (memberPattern memberName isMethod) l with
                 | Some m => Some (mkLocation u (mkPosition i (index m)))
                 | None => None
                 end) by reflexivity.
    cbn [findMemberLoop firstMatchInWindow].
    unfold firstStructuralMatch. cbn [scanLines]. fold (isMarkerLine l).
    rewrite Hs. clear Hs.
    set (ann := if isMarkerLine l then Some i else trackerOf before i).
    set (inWindow := match ann with Some a => i - a <=? 2 | None => false end).
    set (reset := match ann with
                  | Some a => if 2 <? i - a then None else ann
                  | None => None
                  end).
    assert (Hwin : inWindow = inMarkerWindow before l).
    { unfold inWindow, ann, inMarkerWindow, trackerOf.
      destruct (isMarkerLine l).
      - rewrite Nat.sub_diag. reflexivity.
      - destruct before as [|b0 [|b1 [|b2 before']]]; simpl in *;
          repeat match goal with
                 | |- context [isMarkerLine ?x] => destruct (isMarkerLine x)
                 end; simpl;
          try reflexivity;
          try (apply Nat.leb_le; lia); try (apply Nat.leb_gt; lia). }
    assert (Hreset : reset = trackerOf (l :: before) (S i)).
    { unfold reset, ann, trackerOf.
      destruct (isMarkerLine l).
      - rewrite Nat.sub_diag. simpl. f_equal. lia.
      - destruct before as [|b0 [|b1 [|b2 before']]]; simpl in *;
          repeat match goal with
                 | |- context [isMarkerLine ?x] => destruct (isMarkerLine x)
                 end; simpl;
          try reflexivity;
          try (replace (2 <? i - (i - 1)) with false
                 by (symmetry; apply Nat.ltb_ge; lia); f_equal; lia);
          try (replace (2 <? i - (i - 2)) with false
                 by (symmetry; apply Nat.ltb_ge; lia); f_equal; lia);
          try (replace (2 <? i - (i - 3)) with true
                 by (symmetry; apply Nat.ltb_lt; lia); reflexivity). }
    rewrite Hwin, Hreset.
    destruct (exec (memberPattern memberName isMethod) l) as [m|].
    + destruct (inMarkerWindow before l); [reflexivity|].
      rewrite IH by (simpl; lia).
      destruct (firstMatchInWindow u memberName isMethod (l :: before) rest (S i));
        [reflexivity|].
      destruct bestMatch; reflexivity.
    + rewrite IH by (simpl; lia). reflexivity.
Qed.


End PreferenceRule.

Section PreferenceRuleFacts.

Import FxmlDefinitionProvider.

(** The annotated field on line 4 wins over the plain one on line 1. *)
Example annotated_x_wins :
  findMemberInJavaFile twoFieldsNamedX controllerUri (T "x") false
    = Some (mkLocation controllerUri (mkPosition 4 18)) /\
  firstStructuralMatch controllerUri (T "x") false (lines twoFieldsNamedX) 0
    = Some (mkLocation controllerUri (mkPosition 1 16)).
Proof. split; reflexivity. Qed.

(** An answer of the search is a structural match in the marker window. *)
Lemma firstMatchInWindow_sound u memberName isMethod :
  forall ls before i loc,
  firstMatchInWindow u memberName isMethod before ls i = Some loc ->
  exists j l,
    nth_error ls j = Some l /\
    structuralMatch u memberName isMethod (i + j) l = Some loc /\
    inMarkerWindow (rev (firstn j ls) ++ before) l = true.
Proof.
  induction ls as [|l rest IH]; intros before i loc H; simpl in H; [discriminate|].
  destruct (structuralMatch u memberName isMethod i l) as [loc0|] eqn:E.
  - destruct (inMarkerWindow before l) eqn:W.
    + injection H as <-. exists 0, l. rewrite Nat.add_0_r. simpl. auto.
    + apply IH in H. destruct H as (j & l' & Hn & Hm & Hw).
      exists (S j), l'. rewrite <- plus_n_Sm. simpl.
      rewrite <- app_assoc. simpl. auto.
  - apply IH in H. destruct H as (j & l' & Hn & Hm & Hw).
    exists (S j), l'. rewrite <- plus_n_Sm. simpl.
    rewrite <- app_assoc. simpl. auto.
Qed.

(** Without a line that opens with the marker nothing is annotated. *)
Lemma firstMatchInWindow_no_marker u memberName isMethod :
  forall ls before i,
  forallb (fun l => negb (isMarkerLine l)) ls = true ->
  forallb (fun l => negb (isMarkerLine l)) before = true ->
  firstMatchInWindow u memberName isMethod before ls i = None.
Proof.
  induction ls as [|l rest IH]; intros before i Hls Hb; [reflexivity|].
  simpl in Hls. apply andb_prop in Hls. destruct Hls as [Hl Hrest].
  assert (Hw : inMarkerWindow before l = false).
  { unfold inMarkerWindow. apply negb_true_iff in Hl. rewrite Hl. simpl.
    destruct before as [|b0 [|b1 before']]; simpl in *; try reflexivity.
    - apply andb_prop in Hb. destruct Hb as [H0 _].
      apply negb_true_iff in H0. rewrite H0. reflexivity.
    - apply andb_prop in Hb. destruct Hb as [H0 Hb].
      apply andb_prop in Hb. destruct Hb as [H1 _].
      apply negb_true_iff in H0. apply negb_true_iff in H1.
      rewrite H0, H1. reflexivity. }
  simpl. rewrite Hw.
  assert (Hb' : forallb (fun l0 => negb (isMarkerLine l0)) (l :: before) = true)
    by (simpl; rewrite Hl, Hb; reflexivity).
  rewrite (IH (l :: before) (S i) Hrest Hb').
  destruct (structuralMatch u memberName isMethod i l); reflexivity.
Qed.



(** A marker that the backward scan of the specification finds lies in
    the marker window; the converse fails when an unrelated line stands
    in between. *)
Lemma scanBackward_inMarkerWindow before l :
  scanBackward 2 before = true -> inMarkerWindow before l = true.
Proof.
  unfold inMarkerWindow. intros H.
  destruct before as [|b0 [|b1 rest]]; cbn [scanBackward firstn existsb] in *.
  - discriminate.
  - destruct (isMarkerLine b0); [apply orb_true_r|].
    destruct (negb (text_eqb (trim b0) []) && negb (isAnnotationLine b0)); discriminate.
  - destruct (isMarkerLine b0); [apply orb_true_r|].
    destruct (negb (text_eqb (trim b0) []) && negb (isAnnotationLine b0)); [discriminate|].
    destruct (isMarkerLine b1); [apply orb_true_r|].
    destruct (negb (text_eqb (trim b1) []) && negb (isAnnotationLine b1)); discriminate.
Qed.

Lemma firstn_snoc {A : Type} : forall (ls : list A) n x,
  nth_error ls n = Some x -> firstn (S n) ls = firstn n ls ++ [x].
Proof.
  induction ls as [|a ls IH]; intros n x H.
  - destruct n; discriminate.
  - destruct n as [|n].
    + cbn [nth_error] in H. injection H as ->. reflexivity.
    + cbn [nth_error] in H. rewrite (firstn_cons (S n)), (firstn_cons n).
      cbn [app]. f_equal. apply IH. exact H.
Qed.

Lemma linesBefore_S document n l :
  nth_error (lines document) n = Some l ->
  linesBefore document (S n) = l :: linesBefore document n.
Proof.
  intros H. unfold linesBefore. rewrite (firstn_snoc _ _ _ H), rev_app_distr.
  reflexivity.
Qed.

(** The annotation check of the source side computes [isAnnotated]: the
    words of the specification describe that function. *)
Lemma isFxmlAnnotated_isAnnotated document n l :
  nth_error (lines document) n = Some l ->
  ControllerDefinitionProvider.isFxmlAnnotated document n
    = Ok (isAnnotated (linesBefore document n) l).
Proof.
  intros Hl. rewrite (isFxmlAnnotated_unfold _ _ _ Hl). unfold isAnnotated.
  destruct (includes FXML_marker l); [reflexivity|]. cbn [orb].
  assert (Hlen : n < length (lines document)) by (apply nth_error_Some; congruence).
  destruct n as [|n].
  { rewrite annotatedStep_out by lia. reflexivity. }
  destruct (nth_error (lines document) n) as [l1|] eqn:H1;
    [|apply nth_error_None in H1; lia].
  rewrite (linesBefore_S _ _ _ H1).
  assert (H1' : nth_error (lines document) (S n - 1) = Some l1)
    by (replace (S n - 1) with n by lia; exact H1).
  rewrite (annotatedStep_line document (S n) 1 l1 _ ltac:(lia) ltac:(lia) H1').
  cbn [scanBackward].
  destruct (isMarkerLine l1); [reflexivity|].
  destruct (negb (text_eqb (trim l1) []) && negb (isAnnotationLine l1)); [reflexivity|].
  destruct n as [|n].
  { rewrite annotatedStep_out by lia. reflexivity. }
  destruct (nth_error (lines document) n) as [l2|] eqn:H2;
    [|apply nth_error_None in H2; lia].
  rewrite (linesBefore_S _ _ _ H2).
  assert (H2' : nth_error (lines document) (S (S n) - 2) = Some l2)
    by (replace (S (S n) - 2) with n by lia; exact H2).
  rewrite (annotatedStep_line document (S (S n)) 2 l2 _ ltac:(lia) ltac:(lia) H2').
  cbn [scanBackward].
  destruct (isMarkerLine l2); [reflexivity|].
  destruct (negb (text_eqb (trim l2) []) && negb (isAnnotationLine l2)); reflexivity.
Qed.




(** On that controller the check of the source side tells the two lines
    apart, and the rule in the words of the specification would pick the
    declaration. *)
Example call_below_marker :
  findMemberInJavaFile callBelowMarker controllerUri (T "handleClick") true
    = Some (mkLocation controllerUri (mkPosition 2 8)) /\
  ControllerDefinitionProvider.isFxmlAnnotated callBelowMarker 2 = Ok false /\
  ControllerDefinitionProvider.isFxmlAnnotated callBelowMarker 5 = Ok true /\
  structuralMatch controllerUri (T "handleClick") true 5
    (T "    private void handleClick(ActionEvent e) {")
    = Some (mkLocation controllerUri (mkPosition 5 17)).
Proof. repeat split; reflexivity. Qed.

(** A marker in a trailing comment of the line itself annotates the line
    in the words of the specification and is outside the marker
    window. *)
Example marker_in_comment_is_outside_the_window :
  isAnnotated [] markerInComment = true /\
  inMarkerWindow [] markerInComment = false.
Proof. split; reflexivity. Qed.

End PreferenceRuleFacts.

(** ** The lexical scanner: identifiers and keywords *)

Section IdentifierAt.

Import ControllerDefinitionProvider.

Lemma prevWord_wordAt ln k : prevWord false ln (S k) = wordAt ln k.
Proof. reflexivity. Qed.

Lemma nextWord_wordAt ln i : nextWord (skipn i ln) = wordAt ln i.
Proof.
  unfold nextWord, wordAt. rewrite <- hd_error_skipn.
  destruct (skipn i ln); reflexivity.
Qed.

Lemma prevWord_skipn ln from d :
  prevWord (prevWord false ln from) (skipn from ln) d = prevWord false ln (from + d).
Proof.
  destruct d as [|d].
  - rewrite Nat.add_0_r. reflexivity.
  - rewrite <- plus_n_Sm. simpl. rewrite nth_error_skipn. reflexivity.
Qed.

(** Where [execFrom] answers, the pattern matches at the index it
    reports. *)
Lemma execFrom_sound re ln from m :
  execFrom re ln from = Some m ->
  matchAt re (prevWord false ln (index m)) (skipn (index m) ln) None
    = Some (mlen m, group1 m).
Proof.
  intros H. pose proof (execFrom_bounds _ _ _ _ H) as (Hfrom & _).
  unfold execFrom in H. destruct (length ln <? from); [discriminate|].
  apply search_sound in H.
  rewrite prevWord_skipn, skipn_skipn in H.
  replace (from + (index m - from)) with (index m) in H by lia.
  replace (index m - from + from) with (index m) in H by lia.
  exact H.
Qed.

Lemma run_nth c : forall s k j,
  k <= run c s -> j < k -> exists y, nth_error s j = Some y /\ c y = true.
Proof.
  induction s as [|x s IH]; intros k j Hk Hj; simpl in Hk; [lia|].
  destruct (c x) eqn:E; [|lia].
  destruct j as [|j]; [exists x; auto|].
  simpl. apply (IH (k - 1)); lia.
Qed.

Lemma identStart_identPart c : identStart c = true -> identPart c = true.
Proof.
  unfold identStart, identPart. intros H.
  repeat (apply orb_prop in H; destruct H as [H|H]); rewrite H;
    repeat rewrite orb_true_r; reflexivity.
Qed.

(** What a match of the word pattern at index [i] says about the line. *)
Lemma wordPattern_sound ln i n c :
  matchAt wordPattern (prevWord false ln i) (skipn i ln) None = Some (n, c) ->
  1 <= n /\
  xorb (prevWord false ln i) (wordAt ln i) = true /\
  (exists x, nth_error ln i = Some x /\ identStart x = true) /\
  (forall j, i <= j < i + n -> exists y, nth_error ln j = Some y /\ identPart y = true) /\
  xorb (wordAt ln (i + n - 1)) (wordAt ln (i + n)) = true.
Proof.
  unfold wordPattern. cbn [matchAt]. rewrite nextWord_wordAt.
  destruct (xorb (prevWord false ln i) (wordAt ln i)) eqn:B; [|discriminate].
  destruct (skipn i ln) as [|x s'] eqn:Es; [discriminate|].
  destruct (identStart x) eqn:Ex; [|discriminate].
  intros H. apply advance_some in H. destruct H as (n1 & H & ->).
  apply backtrack_some in H. destruct H as (k & Hk & H).
  apply advance_some in H. destruct H as (n2 & H & ->).
  destruct (xorb (prevWord (is_word x) s' k) (nextWord (skipn k s'))) eqn:B2;
    [|discriminate].
  injection H as <- <-.
  assert (Hx : nth_error ln i = Some x).
  { rewrite <- hd_error_skipn, Es. reflexivity. }
  assert (Hs' : s' = skipn (S i) ln).
  { replace (S i) with (1 + i) by lia. rewrite <- skipn_skipn, Es. reflexivity. }
  split; [lia|]. split; [reflexivity|]. split; [eauto|]. split.
  - intros j Hj. destruct (Nat.eq_dec j i) as [->|Hne].
    + exists x. split; [assumption | apply identStart_identPart; assumption].
    + destruct (run_nth identPart s' k (j - S i)) as (y & Hy & Hc); try lia.
      exists y. split; [|assumption].
      rewrite Hs', nth_error_skipn in Hy.
      replace (S i + (j - S i)) with j in Hy by lia. assumption.
  - replace (i + (1 + (k + 0)) - 1) with (i + k) by lia.
    replace (i + (1 + (k + 0))) with (S i + k) by lia.
    rewrite <- B2. f_equal.
    + destruct k as [|k].
      * rewrite Nat.add_0_r. unfold wordAt. rewrite Hx. reflexivity.
      * simpl. unfold wordAt. rewrite Hs', nth_error_skipn.
        replace (i + S k) with (S i + k) by lia. reflexivity.
    + rewrite Hs', skipn_skipn, nextWord_wordAt. f_equal. lia.
Qed.

(** A name returned by the loop is a match of the word pattern that covers
    the cursor and is no keyword. *)
Lemma memberNameLoop_sound : forall fuel ln charPos lastIndex w,
  memberNameLoop fuel ln charPos lastIndex = Ok (Some w) ->
  exists i n c,
    matchAt wordPattern (prevWord false ln i) (skipn i ln) None = Some (n, c) /\
    i <= charPos < i + n /\
    w = substring i (i + n) ln /\
    mem w javaKeywords = false.
Proof.
  induction fuel as [|fuel IH]; intros ln charPos lastIndex w H;
    cbn [memberNameLoop] in H;
    destruct (execFrom wordPattern ln lastIndex) as [m|] eqn:E; try discriminate;
    destruct ((index m <=? charPos) && (charPos <? index m + mlen m)) eqn:Cov;
    try discriminate.
  1, 2: destruct (mem (substring (index m) (index m + mlen m) ln) javaKeywords) eqn:K;
    [discriminate|]; injection H as <-;
    apply andb_prop in Cov; destruct Cov as [C1 C2];
    apply Nat.leb_le in C1; apply Nat.ltb_lt in C2;
    exists (index m), (mlen m), (group1 m);
    split; [apply (execFrom_sound _ _ _ _ E) | auto].
  apply IH in H. exact H.
Qed.

(** The loop ends: a pattern that consumes a character moves [lastIndex]
    forward on every round. *)
Lemma memberNameLoop_ends : forall fuel ln charPos lastIndex,
  length ln <= fuel + lastIndex ->
  exists r, memberNameLoop fuel ln charPos lastIndex = Ok r.
Proof.
  induction fuel as [|fuel IH]; intros ln charPos lastIndex Hf;
    cbn [memberNameLoop];
    destruct (execFrom wordPattern ln lastIndex) as [m|] eqn:E; eauto;
    pose proof (execFrom_bounds _ _ _ _ E) as (Hfrom & Hend & Hmin);
    simpl in Hmin;
    destruct ((index m <=? charPos) && (charPos <? index m + mlen m));
    try (destruct (mem _ javaKeywords); eauto).
  - lia.
  - apply IH. lia.
Qed.

Lemma getMemberNameAtPosition_ends ln charPos :
  exists r, getMemberNameAtPosition ln charPos = Ok r.
Proof. apply memberNameLoop_ends. lia. Qed.

Lemma letter_facts c :
  is_letter c = true -> is_word c = true /\ identPart c = true /\ is_digit c = false.
Proof.
  unfold is_letter. intros H. repeat split.
  - unfold is_word. destruct (is_lower c); [reflexivity|].
    simpl in H. rewrite H. reflexivity.
  - unfold identPart. destruct (is_lower c); [reflexivity|].
    simpl in H. rewrite H. reflexivity.
  - unfold is_lower, is_upper, is_digit, between in *.
    apply andb_false_iff.
    destruct (Nat.le_gt_cases (nat_of_ascii c) 57) as [Hle|Hgt].
    + left. apply Nat.leb_gt.
      apply orb_prop in H.
      destruct H as [H|H]; apply andb_prop in H; destruct H as [H1 _];
        apply Nat.leb_le in H1; lia.
    + right. apply Nat.leb_gt. lia.
Qed.

Lemma keywords_are_words kw :
  In kw javaKeywords -> kw <> [] /\ forallb is_letter kw = true.
Proof.
  intros H.
  assert (Hall : forallb (fun w => negb (text_eqb w []) && forallb is_letter w)
                   javaKeywords = true) by reflexivity.
  rewrite forallb_forall in Hall. apply Hall in H.
  apply andb_prop in H. destruct H as [Hne Hl]. split; [|assumption].
  intros ->. discriminate.
Qed.

Lemma mem_In w ws : In w ws -> mem w ws = true.
Proof.
  intros H. unfold mem. apply existsb_exists. exists w. split; [assumption|].
  apply text_eqb_refl.
Qed.

Lemma forallb_nth {A} (f : A -> bool) l j x :
  forallb f l = true -> nth_error l j = Some x -> f x = true.
Proof.
  intros H Hn. rewrite forallb_forall in H. apply H. eapply nth_error_In. eassumption.
Qed.

(** Going left from the start of a run that cannot be extended, the
    identifier characters met are digits. *)
Lemma startsRun_digits : forall rpre d,
  startsRun rpre = true ->
  (forall j, j <= d -> exists y, nth_error rpre j = Some y /\ identPart y = true) ->
  exists y, nth_error rpre d = Some y /\ is_digit y = true.
Proof.
  induction rpre as [|c r IH]; intros d Hs Hall.
  - destruct (Hall 0) as (y & Hy & _); [lia | discriminate].
  - simpl in Hs. destruct (is_digit c) eqn:Dc.
    + destruct d as [|d]; [exists c; auto|].
      simpl. apply IH; [assumption|].
      intros j Hj. apply (Hall (S j)). lia.
    + destruct (Hall 0) as (y & Hy & Hp); [lia|].
      injection Hy as <-. rewrite Hp in Hs. discriminate.
Qed.

Lemma identStart_not_digit c : identStart c = true -> is_digit c = false.
Proof.
  unfold identStart. intros H.
  apply orb_prop in H. destruct H as [H|H].
  - apply orb_prop in H. destruct H as [H|H].
    + apply letter_facts. unfold is_letter.
      apply orb_prop in H. destruct H as [H|H]; rewrite H;
        [reflexivity | apply orb_true_r].
    + unfold is_char in H. destruct (ascii_dec "_" c); [subst; reflexivity | discriminate].
  - unfold is_char in H. destruct (ascii_dec "$" c); [subst; reflexivity | discriminate].
Qed.

Lemma substring_middle (pre kw post : text) :
  substring (length pre) (length pre + length kw) (pre ++ kw ++ post) = kw.
Proof.
  unfold substring.
  replace (length pre + length kw - length pre) with (length kw) by lia.
  rewrite skipn_app, skipn_all, Nat.sub_diag. simpl.
  rewrite firstn_app, firstn_all, Nat.sub_diag. simpl. apply app_nil_r.
Qed.

(** C6, amended: when the identifier-shaped run that covers the cursor,
    taken as long as it can be, is one of the words of the fixed keyword
    set of the code (thirty-six reserved words and the two marker names),
    identifier extraction returns none.  The line is [pre ++ kw ++ post]:
    the run [kw] cannot be extended to the right ([post] is empty or
    begins with another character) nor to the left (the identifier
    characters that end [pre], if any, are digits). *)
Theorem C6_keyword_under_cursor_is_no_member_name
    (pre kw post : text) (charPos : nat) :
  In kw javaKeywords ->
  startsRun (rev pre) = true ->
  endsRun post = true ->
  length pre <= charPos < length pre + length kw ->
  getMemberNameAtPosition (pre ++ kw ++ post) charPos = Ok None.
Proof.
  intros Hkw Hleft Hright Hpos.
  destruct (getMemberNameAtPosition_ends (pre ++ kw ++ post) charPos) as [r Hr].
  rewrite Hr. destruct r as [w|]; [exfalso | reflexivity].
  unfold getMemberNameAtPosition in Hr.
  apply memberNameLoop_sound in Hr.
  destruct Hr as (i & n & c & Hm & Hcov & Hw & Hk).
  apply wordPattern_sound in Hm.
  destruct Hm as (Hn1 & B1 & (x & Hx & Hxs) & Hall & B2).
  destruct (keywords_are_words kw Hkw) as [_ Hletters].
  set (ln := pre ++ kw ++ post) in *.
  set (P := length pre) in *. set (K := length kw) in *.
  assert (Hkwchar : forall j, P <= j < P + K -> wordAt ln j = true).
  { intros j Hj. unfold wordAt, ln.
    rewrite nth_error_app2 by (fold P; lia).
    rewrite nth_error_app1 by (fold P K; lia).
    destruct (nth_error kw (j - length pre)) as [y|] eqn:Ey.
    - apply (letter_facts y). apply (forallb_nth _ _ _ _ Hletters Ey).
    - apply nth_error_None in Ey. fold P K in Ey. lia. }
  assert (HA : i + n <= P + K).
  { destruct (Nat.le_gt_cases (i + n) (P + K)) as [|Hgt]; [assumption|exfalso].
    destruct (Hall (P + K)) as (y & Hy & Hp); [lia|].
    unfold ln in Hy.
    rewrite nth_error_app2 in Hy by (fold P; lia).
    rewrite nth_error_app2 in Hy by (fold P K; lia).
    replace (P + K - length pre - length kw) with 0 in Hy by (fold P K; lia).
    destruct post as [|c0 post']; [discriminate|].
    injection Hy as <-. simpl in Hright. rewrite Hp in Hright. discriminate. }
  assert (HB : P <= i).
  { destruct (Nat.le_gt_cases P i) as [|Hlt]; [assumption|exfalso].
    destruct (startsRun_digits (rev pre) (P - 1 - i) Hleft) as (y & Hy & Hd).
    - intros j Hj. destruct (Hall (P - 1 - j)) as (y & Hy & Hp); [lia|].
      exists y. split; [|assumption].
      rewrite nth_error_rev. fold P.
      replace (j <? P) with true by (symmetry; apply Nat.ltb_lt; lia).
      unfold ln in Hy. rewrite nth_error_app1 in Hy by (fold P; lia).
      replace (P - S j) with (P - 1 - j) by lia. assumption.
    - rewrite nth_error_rev in Hy. fold P in Hy.
      replace (P - 1 - i <? P) with true in Hy by (symmetry; apply Nat.ltb_lt; lia).
      replace (P - S (P - 1 - i)) with i in Hy by lia.
      unfold ln in Hx. rewrite nth_error_app1 in Hx by (fold P; lia).
      rewrite Hx in Hy. injection Hy as <-.
      rewrite (identStart_not_digit _ Hxs) in Hd. discriminate. }
  assert (HC : i = P).
  { destruct (Nat.eq_dec i P) as [|Hne]; [assumption|exfalso].
    destruct i as [|i']; [lia|].
    rewrite prevWord_wordAt in B1.
    rewrite (Hkwchar i'), (Hkwchar (S i')) in B1 by lia. discriminate. }
  assert (HD : i + n = P + K).
  { destruct (Nat.eq_dec (i + n) (P + K)) as [|Hne]; [assumption|exfalso].
    rewrite (Hkwchar (i + n - 1)), (Hkwchar (i + n)) in B2 by lia. discriminate. }
  subst i. rewrite HD in Hw. unfold ln, P, K in Hw.
  rewrite substring_middle in Hw. subst w.
  rewrite (mem_In _ _ Hkw) in Hk. discriminate.
Qed.

Lemma C6_witness :
  getMemberNameAtPosition keywordLine 6 = Ok None /\
  getMemberNameAtPosition digitsThenKeyword 8 = Ok None /\
  getMemberNameAtPosition overrideLine 7 = Ok None /\
  getMemberNameAtPosition keywordLine 20 = Ok (Some (T "myButton")).
Proof.
  split; [|split; [|split]].
  - apply (C6_keyword_under_cursor_is_no_member_name
             (T "    ") (T "private") (T " Button myButton;") 6).
    + unfold javaKeywords. simpl. tauto.
    + reflexivity.
    + reflexivity.
    + simpl. lia.
  - apply (C6_keyword_under_cursor_is_no_member_name
             (T "x = 12") (T "return") (T ";") 8).
    + unfold javaKeywords. simpl. tauto.
    + reflexivity.
    + reflexivity.
    + simpl. lia.
  - apply (C6_keyword_under_cursor_is_no_member_name
             (T "    @") (T "Override") [] 7).
    + unfold javaKeywords. simpl. tauto.
    + reflexivity.
    + reflexivity.
    + simpl. lia.
  - reflexivity.
Defined.

(** The claim for every reserved word of the language fails on a field
    of a primitive type: [int] is a reserved word, the keyword set does
    not hold it, and the cursor on it gets it back as a member name. *)
Lemma C6_reserved_word_outside_the_set_is_a_name : ~ reservedWordIsNoMemberName.
Proof.
  intros H.
  assert (Hin : In (T "int") (reservedWords ++ markerNames)).
  { apply in_or_app. left. unfold reservedWords. apply in_map. simpl. tauto. }
  specialize (H (T "    private ") (T "int") (T " counter;") 13 Hin eq_refl eq_refl).
  assert (Hpos : length (T "    private ") <= 13
                 < length (T "    private ") + length (T "int")) by (simpl; lia).
  specialize (H Hpos). vm_compute in H. discriminate.
Qed.

(** The keyword set holds thirty-six of the fifty reserved words and the
    two marker names; the other fourteen reserved words are returned as
    names. *)
Example keyword_set_against_reserved_words :
  forallb (fun w => mem w (reservedWords ++ markerNames)) javaKeywords = true /\
  reservedWordsOutsideTheSet
    = map T [ "assert"; "boolean"; "byte"; "char"; "const"; "default"; "double";
              "enum"; "float"; "goto"; "instanceof"; "int"; "long"; "short" ]%string /\
  getMemberNameAtPosition primitiveFieldLine 13 = Ok (Some (T "int")) /\
  forallb (fun w =>
             match getMemberNameAtPosition (T "    " ++ w ++ T " x;") 4 with
             | Ok (Some name) => text_eqb name w
             | _ => false
             end) reservedWordsOutsideTheSet = true.
Proof. repeat split; vm_compute; reflexivity. Qed.

End IdentifierAt.

(** ** Resolution never fails *)

Section Totality.

Import FxmlDefinitionProvider.

(** The attribute loop ends for a pattern that consumes a character. *)
Lemma attributeLoop_ends pattern : 1 <= minLen pattern ->
  forall fuel ln charPos lastIndex,
  length ln <= fuel + lastIndex ->
  exists r, attributeLoop fuel pattern ln charPos lastIndex = Ok r.
Proof.
  intros Hmin. induction fuel as [|fuel IH]; intros ln charPos lastIndex Hf;
    cbn [attributeLoop];
    destruct (execFrom pattern ln lastIndex) as [m|] eqn:E; eauto;
    pose proof (execFrom_bounds _ _ _ _ E) as (Hfrom & Hend & Hlen);
    destruct ((index m <=? charPos) && (charPos <=? index m + mlen m)); eauto.
  - lia.
  - apply IH. lia.
Qed.

Lemma getAttributeValueAtPosition_ends ln charPos pattern :
  1 <= minLen pattern ->
  exists r, getAttributeValueAtPosition ln charPos pattern = Ok r.
Proof. intros H. apply attributeLoop_ends; [assumption | lia]. Qed.

Lemma isFxmlAnnotated_ends document n :
  n < lineCount document ->
  exists b, ControllerDefinitionProvider.isFxmlAnnotated document n = Ok b.
Proof.
  unfold lineCount. intros Hn.
  assert (Hline : forall i, i <= n -> exists l, lineAt document (n - i) = Ok l).
  { intros i Hi. unfold lineAt.
    destruct (nth_error (lines document) (n - i)) eqn:E; [eauto|].
    apply nth_error_None in E. lia. }
  assert (Hstep : forall i next, (exists b, next = Ok b) ->
            exists b, ControllerDefinitionProvider.annotatedStep document n i next = Ok b).
  { intros i next [b ->]. unfold ControllerDefinitionProvider.annotatedStep.
    destruct (i <=? 2); cbn [andb]; [|eauto].
    destruct (i <=? n) eqn:Ei; [|eauto].
    apply Nat.leb_le in Ei. destruct (Hline i Ei) as [l ->]. cbn [bind].
    destruct (startsWith FXML_marker (trim l)); [eauto|].
    destruct (negb (text_eqb (trim l) []) && negb (startsWith (T "@") (trim l))); eauto. }
  unfold ControllerDefinitionProvider.isFxmlAnnotated.
  destruct (Hline 0 (Nat.le_0_l n)) as [l Hl]. rewrite Nat.sub_0_r in Hl.
  rewrite Hl. cbn [bind].
  destruct (includes FXML_marker l); [eauto|].
  apply Hstep. apply Hstep. eauto.
Qed.

Lemma fxIdCheck_ends ws document lineText charPos :
  exists r, fxIdCheck ws document lineText charPos = Ok r.
Proof.
  unfold fxIdCheck.
  destruct (getAttributeValueAtPosition_ends lineText charPos fxIdPattern) as [r ->];
    [simpl; lia|].
  cbn [bind]. destruct (truthy r); [|eauto].
  destruct (truthy (findControllerInDocument document)); eauto.
Qed.

Lemma markup_side_ends ws document pos :
  line pos < lineCount document ->
  exists r, provideDefinition ws document pos = Ok r.
Proof.
  unfold lineCount. intros Hn. unfold provideDefinition, lineAt.
  destruct (nth_error (lines document) (line pos)) as [lineText|] eqn:E;
    [|apply nth_error_None in E; lia].
  cbn [bind].
  destruct (getAttributeValueAtPosition_ends lineText (character pos) controllerPattern)
    as [r1 ->]; [simpl; lia|].
  cbn [bind]. destruct (truthy r1); [eauto|].
  destruct (getAttributeValueAtPosition_ends lineText (character pos) eventHandlerPattern)
    as [r2 ->]; [simpl; lia|].
  cbn [bind]. destruct (truthy r2); [|apply fxIdCheck_ends].
  destruct (truthy (findControllerInDocument document)); [eauto | apply fxIdCheck_ends].
Qed.

Lemma source_side_ends ws document pos :
  line pos < lineCount document ->
  exists r, ControllerDefinitionProvider.provideDefinition ws document pos = Ok r.
Proof.
  intros Hn. unfold ControllerDefinitionProvider.provideDefinition.
  destruct (isFxmlAnnotated_ends document (line pos) Hn) as [b Hb].
  unfold lineCount in Hn. unfold lineAt.
  destruct (nth_error (lines document) (line pos)) as [lineText|] eqn:E;
    [|apply nth_error_None in E; lia].
  cbn [bind].
  destruct (getMemberNameAtPosition_ends lineText (character pos)) as [r ->].
  cbn [bind]. destruct (truthy r); [|eauto].
  rewrite Hb. cbn [bind]. destruct b; cbn [negb]; [|eauto].
  destruct (truthy (ControllerDefinitionProvider.getFullyQualifiedClassName document));
    eauto.
Qed.







(** The two happy paths of the samples: from the handler attribute to the
    method, and from the field to its [fx:id] attribute. *)
Example handler_attribute_to_method :
  provideDefinition sampleWorkspace viewWithMembers onHandlerAttribute
    = Ok (Some (mkLocation controllerUri (mkPosition 6 17))).
Proof. reflexivity. Qed.

Example field_to_fxid_attribute :
  ControllerDefinitionProvider.provideDefinition sampleWorkspace controllerC onMyButton
    = Ok (Some (mkLocation viewUri (mkPosition 1 8))).
Proof. reflexivity. Qed.

Example controller_attribute_to_class :
  provideDefinition sampleWorkspace viewWithMembers onControllerAttribute
    = Ok (Some (mkLocation controllerUri (mkPosition 2 7))).
Proof. reflexivity. Qed.

(** Outside the document [lineAt] throws; the host never asks there. *)
Example cursor_outside_document :
  provideDefinition sampleWorkspace viewWithMembers (mkPosition 3 0) = Err IllegalLine.
Proof. reflexivity. Qed.


Example cursor_outside_document_source_side :
  ControllerDefinitionProvider.provideDefinition sampleWorkspace viewWithMembers
    belowLastLine = Err IllegalLine.
Proof. reflexivity. Qed.

End Totality.

(** ** Where the marker counts *)

Section MarkerRecognition.

Import ControllerDefinitionProvider.

(** C5, amended: on the cursor's own line the backward check accepts the
    marker anywhere in the line; on every other line that is scanned the
    marker counts only in leading position of the trimmed line: a true
    answer of the backward check that does not come from the own line
    comes from such a line among the two above, a line without the
    leading marker opens no lens, and a document without such a line has
    no annotated match in markup-to-source resolution. *)
Theorem C5_marker_leading_except_on_own_line (document : Document) :
  (forall n decl,
     nth_error (lines document) n = Some decl ->
     includes FXML_marker decl = true ->
     isFxmlAnnotated document n = Ok true) /\
  (forall n,
     isFxmlAnnotated document n = Ok true ->
     exists decl, nth_error (lines document) n = Some decl /\
       (includes FXML_marker decl = true \/
        exists i l, 1 <= i <= 2 /\ i <= n /\
          nth_error (lines document) (n - i) = Some l /\ isMarkerLine l = true)) /\
  (forall cls i l,
     isMarkerLine l = false ->
     FxmlCodeLensProvider.lensAt document cls i l = None) /\
  (forall u name isMethod,
     forallb (fun l => negb (isMarkerLine l)) (lines document) = true ->
     FxmlDefinitionProvider.findMemberInJavaFile document u name isMethod
     = firstStructuralMatch u name isMethod (lines document) 0).
Proof.
  repeat split.
  - intros n decl Hd Hinc. rewrite (isFxmlAnnotated_unfold _ _ _ Hd), Hinc. reflexivity.
  - apply isFxmlAnnotated_true.
  - intros cls i l Hl. unfold FxmlCodeLensProvider.lensAt.
    unfold isMarkerLine in Hl. rewrite Hl. reflexivity.
  - intros u name isMethod Hall. unfold FxmlDefinitionProvider.findMemberInJavaFile.
    change (@None nat) with (trackerOf [] 0).
    rewrite findMemberLoop_spec by reflexivity.
    rewrite firstMatchInWindow_no_marker by (assumption || reflexivity).
    reflexivity.
Qed.

Lemma C5_witness :
  isFxmlAnnotated (mkDocument [markerInComment] LF) 0 = Ok true /\
  (exists decl, nth_error (lines annotationSamples) 4 = Some decl /\
     (includes FXML_marker decl = true \/
      exists i l, 1 <= i <= 2 /\ i <= 4 /\
        nth_error (lines annotationSamples) (4 - i) = Some l /\ isMarkerLine l = true)) /\
  FxmlCodeLensProvider.lensAt markerOnlyInComments (T "C") 2 (T "    // @FXML") = None /\
  FxmlDefinitionProvider.findMemberInJavaFile markerOnlyInComments controllerUri (T "x") false
    = Some (mkLocation controllerUri (mkPosition 3 18)).
Proof.
  split; [|split; [|split]].
  - apply (C5_marker_leading_except_on_own_line (mkDocument [markerInComment] LF))
      with (decl := markerInComment); reflexivity.
  - apply (C5_marker_leading_except_on_own_line annotationSamples). reflexivity.
  - apply (C5_marker_leading_except_on_own_line markerOnlyInComments). reflexivity.
  - destruct (C5_marker_leading_except_on_own_line markerOnlyInComments)
      as (_ & _ & _ & H).
    rewrite H; reflexivity.
Defined.

End MarkerRecognition.

(** * Further properties of the code *)

(** ** Identifier extraction *)

Section IdentifierExtraction.

Import ControllerDefinitionProvider.

Lemma forallb_of_nth {A} (f : A -> bool) (l : list A) :
  (forall j x, nth_error l j = Some x -> f x = true) -> forallb f l = true.
Proof.
  intros H. apply forallb_forall. intros x Hx.
  apply In_nth_error in Hx. destruct Hx as [j Hj]. eauto.
Qed.

Lemma substring_length i n (s : text) :
  i + n <= length s -> length (substring i (i + n) s) = n.
Proof.
  intros H. unfold substring. rewrite length_firstn, length_skipn. lia.
Qed.

Lemma substring_nth i n (s : text) j :
  j < n -> nth_error (substring i (i + n) s) j = nth_error s (i + j).
Proof.
  intros H. unfold substring. rewrite nth_error_firstn.
  replace (j <? i + n - i) with true by (symmetry; apply Nat.ltb_lt; lia).
  apply nth_error_skipn.
Qed.

(** The name found under the cursor is the text of a span of the line that
    covers the cursor; it is not empty, it is made of identifier
    characters, it is no keyword, and a word boundary stands on each side
    of it. *)
Theorem getMemberNameAtPosition_sound (ln : text) (charPos : nat) (w : text) :
  getMemberNameAtPosition ln charPos = Ok (Some w) ->
  exists i,
    i <= charPos < i + length w /\
    i + length w <= length ln /\
    substring i (i + length w) ln = w /\
    w <> [] /\
    forallb identPart w = true /\
    mem w javaKeywords = false /\
    xorb (prevWord false ln i) (wordAt ln i) = true /\
    xorb (wordAt ln (i + length w - 1)) (wordAt ln (i + length w)) = true.
Proof.
  unfold getMemberNameAtPosition. intros H.
  apply memberNameLoop_sound in H. destruct H as (i & n & c & Hm & Hcov & Hw & Hk).
  apply wordPattern_sound in Hm.
  destruct Hm as (Hn1 & B1 & _ & Hall & B2).
  assert (Hend : i + n <= length ln).
  { destruct (Hall (i + n - 1)) as (y & Hy & _); [lia|].
    assert (i + n - 1 < length ln) by (apply nth_error_Some; congruence). lia. }
  assert (Hlen : length w = n) by (subst w; apply substring_length; assumption).
  exists i. rewrite Hlen. repeat split; try assumption; try lia.
  - symmetry. assumption.
  - intros ->. simpl in Hlen. lia.
  - subst w. apply forallb_of_nth. intros j x Hx.
    assert (Hj : j < n).
    { assert (j < length (substring i (i + n) ln)) by (apply nth_error_Some; congruence).
      lia. }
    rewrite substring_nth in Hx by assumption.
    destruct (Hall (i + j)) as (y & Hy & Hp); [lia|].
    rewrite Hy in Hx. injection Hx as <-. assumption.
Qed.

Lemma getMemberNameAtPosition_sound_witness :
  exists i,
    i <= 20 < i + length (T "myButton") /\
    i + length (T "myButton") <= length keywordLine /\
    substring i (i + length (T "myButton")) keywordLine = T "myButton" /\
    T "myButton" <> [] /\
    forallb identPart (T "myButton") = true /\
    mem (T "myButton") javaKeywords = false /\
    xorb (prevWord false keywordLine i) (wordAt keywordLine i) = true /\
    xorb (wordAt keywordLine (i + length (T "myButton") - 1))
         (wordAt keywordLine (i + length (T "myButton"))) = true.
Proof.
  apply (getMemberNameAtPosition_sound keywordLine 20 (T "myButton")). reflexivity.
Defined.

Lemma run_app_exact c (l post : text) :
  forallb c l = true ->
  match post with [] => true | x :: _ => negb (c x) end = true ->
  run c (l ++ post) = length l.
Proof.
  intros Hl Hp. induction l as [|x l IH]; simpl in *.
  - destruct post as [|y post]; [reflexivity|]. simpl.
    apply negb_true_iff in Hp. rewrite Hp. reflexivity.
  - apply andb_prop in Hl. destruct Hl as [Hx Hl]. rewrite Hx, IH by assumption.
    reflexivity.
Qed.

Lemma word_is_identPart c : is_word c = true -> identPart c = true.
Proof.
  unfold is_word, identPart. intros H.
  destruct (is_lower c); [reflexivity|]. destruct (is_upper c); [reflexivity|].
  destruct (is_digit c); [reflexivity|]. simpl in *. rewrite H. reflexivity.
Qed.

Lemma endsRun_nextWord post : endsRun post = true -> nextWord post = false.
Proof.
  destruct post as [|c post]; simpl; [reflexivity|].
  intros H. apply negb_true_iff in H.
  destruct (is_word c) eqn:E; [|reflexivity].
  apply word_is_identPart in E. congruence.
Qed.

Lemma nth_error_last {A} (l : list A) (d : A) k :
  length l = S k -> nth_error l k = Some (last l d).
Proof.
  revert k. induction l as [|x l IH]; intros k H; [discriminate|].
  destruct l as [|y l].
  - simpl in H. injection H as <-. reflexivity.
  - destruct k as [|k]; [simpl in H; lia|].
    change (nth_error (x :: y :: l) (S k)) with (nth_error (y :: l) k).
    change (last (x :: y :: l) d) with (last (y :: l) d).
    apply IH. simpl in *. lia.
Qed.

(** The word pattern matches an identifier that cannot be extended to the
    right, in full, at a position that follows no word character. *)
Lemma wordPattern_complete c rest post :
  identStart c = true -> is_word c = true ->
  forallb identPart rest = true ->
  is_word (lastChar c (c :: rest)) = true ->
  endsRun post = true ->
  matchAt wordPattern false ((c :: rest) ++ post) None = Some (S (length rest), None).
Proof.
  intros Hs Hw Hrest Hlast Hpost.
  unfold wordPattern. cbn [matchAt app nextWord]. rewrite Hw. cbn [xorb].
  rewrite Hs.
  rewrite (run_app_exact identPart rest post Hrest Hpost).
  rewrite (backtrack_first 0 (length rest) _ (length rest) (length rest + 0, None)).
  - simpl. f_equal. f_equal. lia.
  - lia.
  - cbn beta. rewrite skipn_app, skipn_all, Nat.sub_diag.
    change (skipn 0 post) with post. rewrite app_nil_l.
    rewrite (endsRun_nextWord _ Hpost).
    assert (Hprev : prevWord true (rest ++ post) (length rest) = true).
    { destruct rest as [|x rest'] eqn:Er; [reflexivity|].
      cbn [prevWord length]. rewrite nth_error_app1 by (simpl; lia).
      rewrite (nth_error_last (x :: rest') c (length rest')) by reflexivity.
      unfold lastChar in Hlast.
      change (last (c :: x :: rest') c) with (last (x :: rest') c) in Hlast.
      rewrite Hlast. reflexivity. }
    rewrite Hprev. reflexivity.
  - intros j Hj. lia.
Qed.

Lemma prevWord_after pre (rest : text) :
  endsRun (rev pre) = true -> prevWord false (pre ++ rest) (length pre) = false.
Proof.
  intros H. destruct (length pre) as [|k] eqn:Ek; [reflexivity|].
  cbn [prevWord]. rewrite nth_error_app1 by lia.
  destruct (nth_error pre k) as [y|] eqn:Ey; [|reflexivity].
  assert (Hrev : nth_error (rev pre) 0 = Some y).
  { rewrite nth_error_rev, Ek. simpl. replace (k - 0) with k by lia. exact Ey. }
  destruct (rev pre) as [|z r]; [discriminate|].
  injection Hrev as ->. simpl in H. apply negb_true_iff in H.
  destruct (is_word y) eqn:E; [|reflexivity].
  apply word_is_identPart in E. congruence.
Qed.

Lemma memberNameLoop_complete pre c rest post charPos :
  endsRun (rev pre) = true ->
  identStart c = true -> is_word c = true ->
  forallb identPart rest = true ->
  is_word (lastChar c (c :: rest)) = true ->
  endsRun post = true ->
  mem (c :: rest) javaKeywords = false ->
  length pre <= charPos < length pre + S (length rest) ->
  forall fuel lastIndex,
    lastIndex <= length pre ->
    length (pre ++ (c :: rest) ++ post) <= fuel + lastIndex ->
    memberNameLoop fuel (pre ++ (c :: rest) ++ post) charPos lastIndex
    = Ok (Some (c :: rest)).
Proof.
  intros Hpre Hs Hw Hrest Hlast Hpost Hkw Hpos.
  set (ln := pre ++ (c :: rest) ++ post).
  assert (Hat : matchAt wordPattern (prevWord false ln (length pre))
                  (skipn (length pre) ln) None = Some (S (length rest), None)).
  { unfold ln. rewrite prevWord_after by assumption.
    rewrite skipn_app, skipn_all, Nat.sub_diag. simpl skipn.
    apply wordPattern_complete; assumption. }
  assert (Hlen : length ln = length pre + S (length rest) + length post).
  { unfold ln. rewrite !length_app. simpl. lia. }
  induction fuel as [|fuel IH]; intros lastIndex Hle Hfuel.
  - exfalso. lia.
  - cbn [memberNameLoop].
    destruct (search_complete wordPattern (skipn lastIndex ln)
                (prevWord false ln lastIndex) lastIndex (length pre - lastIndex)
                (S (length rest), None)) as (m & Hm & Hidx).
    { rewrite length_skipn. lia. }
    { rewrite prevWord_skipn, skipn_skipn.
      replace (lastIndex + (length pre - lastIndex)) with (length pre) by lia.
      replace (length pre - lastIndex + lastIndex) with (length pre) by lia.
      exact Hat. }
    assert (Hexec : execFrom wordPattern ln lastIndex = Some m).
    { unfold execFrom.
      replace (length ln <? lastIndex) with false by (symmetry; apply Nat.ltb_ge; lia).
      exact Hm. }
    rewrite Hexec.
    pose proof (execFrom_bounds _ _ _ _ Hexec) as (Hfrom & Hend & Hmin).
    simpl in Hmin.
    pose proof (execFrom_sound _ _ _ _ Hexec) as Hsound.
    destruct (Nat.eq_dec (index m) (length pre)) as [Heq|Hne].
    + rewrite Heq in Hsound. rewrite Hat in Hsound. injection Hsound as Hl _.
      rewrite Heq, <- Hl.
      replace ((length pre <=? charPos) && (charPos <? length pre + S (length rest)))
        with true
        by (symmetry; apply andb_true_intro; split;
            [apply Nat.leb_le | apply Nat.ltb_lt]; lia).
      unfold ln.
      change (S (length rest)) with (length (c :: rest)).
      rewrite substring_middle, Hkw. reflexivity.
    + apply wordPattern_sound in Hsound.
      destruct Hsound as (_ & _ & _ & Hall & _).
      assert (Hbefore : index m + mlen m <= length pre).
      { destruct (Nat.le_gt_cases (index m + mlen m) (length pre)) as [|Hgt];
          [assumption|exfalso].
        destruct (Hall (length pre - 1)) as (y & Hy & Hp); [lia|].
        unfold ln in Hy. rewrite nth_error_app1 in Hy by lia.
        assert (Hrev : nth_error (rev pre) 0 = Some y).
        { rewrite nth_error_rev.
          replace (0 <? length pre) with true by (symmetry; apply Nat.ltb_lt; lia).
          replace (length pre - 1) with (length pre - 1) by lia. exact Hy. }
        destruct (rev pre) as [|z r]; [discriminate|].
        injection Hrev as ->. simpl in Hpre. rewrite Hp in Hpre. discriminate. }
      replace ((index m <=? charPos) && (charPos <? index m + mlen m)) with false
        by (symmetry; apply andb_false_iff; right; apply Nat.ltb_ge; lia).
      destruct fuel as [|fuel']; [exfalso; lia|].
      apply IH; lia.
Qed.

(** An identifier that is no keyword, that cannot be extended on either
    side and that begins and ends with a word character is returned in
    full from every cursor offset inside it. *)
Theorem getMemberNameAtPosition_complete
    (pre : text) (c : ascii) (rest post : text) (charPos : nat) :
  endsRun (rev pre) = true ->
  identStart c = true -> is_word c = true ->
  forallb identPart rest = true ->
  is_word (lastChar c (c :: rest)) = true ->
  endsRun post = true ->
  mem (c :: rest) javaKeywords = false ->
  length pre <= charPos < length pre + S (length rest) ->
  getMemberNameAtPosition (pre ++ (c :: rest) ++ post) charPos = Ok (Some (c :: rest)).
Proof.
  intros. unfold getMemberNameAtPosition.
  apply memberNameLoop_complete; try assumption; lia.
Qed.

Lemma getMemberNameAtPosition_complete_witness :
  getMemberNameAtPosition keywordLine 26 = Ok (Some (T "myButton")).
Proof.
  apply (getMemberNameAtPosition_complete (T "    private Button ") "m"
           (T "yButton") (T ";") 26); try reflexivity.
  simpl. lia.
Defined.

End IdentifierExtraction.


(** ** Captured groups *)

Section CapturedGroups.

Lemma firstn_add {A} k n (s : list A) :
  firstn (k + n) s = firstn k s ++ firstn n (skipn k s).
Proof.
  revert s. induction k as [|k IH]; intros s; [reflexivity|].
  destruct s as [|x s]; simpl.
  - rewrite firstn_nil. reflexivity.
  - rewrite IH. reflexivity.
Qed.

(** The group of a successful match is the one handed in, or a non-empty
    text in the class of one of the groups of the pattern, taken from the
    matched text. *)
Lemma matchAt_group re : forall p s cap n r,
  matchAt re p s cap = Some (n, r) ->
  r = cap \/
  exists v c a b,
    r = Some v /\ In c (groupClasses re) /\ v <> [] /\ forallb c v = true /\
    firstn n s = a ++ v ++ b.
Proof.
  induction re as [|a0 re IH]; intros p s cap n r H.
  - simpl in H. injection H as <- <-. left. reflexivity.
  - assert (Lift : forall k n' p' cap',
              matchAt re p' (skipn k s) cap' = Some (n', r) ->
              r = cap' \/
              exists v c a b,
                r = Some v /\ In c (groupClasses (a0 :: re)) /\ v <> [] /\
                forallb c v = true /\ firstn (k + n') s = a ++ v ++ b).
    { intros k n' p' cap' Hm. apply IH in Hm.
      destruct Hm as [Hm | (v & c & a & b & Hr & Hc & Hv & Hall & Hf)]; [left; exact Hm|].
      right. exists v, c, (firstn k s ++ a), b. repeat split; try assumption.
      - unfold groupClasses. simpl. apply in_or_app. right. exact Hc.
      - rewrite firstn_add, Hf, <- app_assoc. reflexivity. }
    destruct a0 as [l|cl|cl|cl|cl|]; cbn [matchAt] in H.
    + destruct (startsWith l s); [|discriminate].
      apply advance_some in H. destruct H as (n' & H & ->).
      apply Lift in H. exact H.
    + destruct s as [|x s']; [discriminate|].
      destruct (cl x); [|discriminate].
      apply advance_some in H. destruct H as (n' & H & ->).
      apply (Lift 1 n' (is_word x) cap) in H. exact H.
    + apply backtrack_some in H. destruct H as (k & Hk & H).
      apply advance_some in H. destruct H as (n' & H & ->).
      apply Lift in H. exact H.
    + apply backtrack_some in H. destruct H as (k & Hk & H).
      apply advance_some in H. destruct H as (n' & H & ->).
      apply Lift in H. exact H.
    + apply backtrack_some in H. destruct H as (k & Hk & H).
      apply advance_some in H. destruct H as (n' & H & ->).
      apply Lift in H. destruct H as [H | H]; [|right; exact H].
      right. exists (firstn k s), cl, [], (firstn n' (skipn k s)).
      repeat split.
      * exact H.
      * unfold groupClasses. simpl. left. reflexivity.
      * intros E. apply (f_equal (@length ascii)) in E.
        rewrite length_firstn in E. simpl in E.
        pose proof (run_le cl s). lia.
      * apply run_forall. lia.
      * rewrite firstn_add. reflexivity.
    + destruct (xorb p (nextWord s)); [|discriminate].
      apply (Lift 0 n p cap) in H. exact H.
Qed.

(** A group that is set stays set. *)
Lemma matchAt_group_kept re : forall p s x n r,
  matchAt re p s (Some x) = Some (n, r) -> r <> None.
Proof.
  intros p s x n r H. apply matchAt_group in H.
  destruct H as [-> | (v & _ & _ & _ & -> & _)]; discriminate.
Qed.

(** A pattern with a group sets it. *)
Lemma matchAt_group_set re : groupClasses re <> [] -> forall p s cap n r,
  matchAt re p s cap = Some (n, r) -> r <> None.
Proof.
  induction re as [|a0 re IH]; intros Hg p s cap n r H; [contradiction|].
  destruct a0 as [l|cl|cl|cl|cl|]; cbn [matchAt] in H.
  - destruct (startsWith l s); [|discriminate].
    apply advance_some in H. destruct H as (n' & H & ->). eapply IH; eauto.
  - destruct s as [|x s']; [discriminate|]. destruct (cl x); [|discriminate].
    apply advance_some in H. destruct H as (n' & H & ->). eapply IH; eauto.
  - apply backtrack_some in H. destruct H as (k & Hk & H).
    apply advance_some in H. destruct H as (n' & H & ->). eapply IH; eauto.
  - apply backtrack_some in H. destruct H as (k & Hk & H).
    apply advance_some in H. destruct H as (n' & H & ->). eapply IH; eauto.
  - apply backtrack_some in H. destruct H as (k & Hk & H).
    apply advance_some in H. destruct H as (n' & H & ->).
    eapply matchAt_group_kept; eauto.
  - destruct (xorb p (nextWord s)); [|discriminate]. eapply IH; eauto.
Qed.

Lemma exec_group re txt m v :
  exec re txt = Some m -> group1 m = Some v ->
  exists c, In c (groupClasses re) /\ v <> [] /\ forallb c v = true.
Proof.
  intros H Hg. apply execFrom_sound in H. rewrite Hg in H.
  apply matchAt_group in H.
  destruct H as [H | (v' & c & a & b & Hr & Hc & Hv & Hall & _)]; [discriminate|].
  injection Hr as <-. eauto.
Qed.

Lemma exec_group_set re txt m :
  groupClasses re <> [] -> exec re txt = Some m -> group1 m <> None.
Proof.
  intros Hg H. apply execFrom_sound in H. eapply matchAt_group_set; eauto.
Qed.

End CapturedGroups.

(** ** Attribute values and qualified names *)

Section AttributeValues.

Import FxmlDefinitionProvider.

Lemma attributeLoop_sound pattern : forall fuel ln charPos lastIndex v,
  attributeLoop fuel pattern ln charPos lastIndex = Ok (Some v) ->
  exists i n,
    matchAt pattern (prevWord false ln i) (skipn i ln) None = Some (n, Some v) /\
    i <= charPos <= i + n /\ i + n <= length ln.
Proof.
  induction fuel as [|fuel IH]; intros ln charPos lastIndex v H;
    cbn [attributeLoop] in H;
    destruct (execFrom pattern ln lastIndex) as [m|] eqn:E; try discriminate;
    destruct ((index m <=? charPos) && (charPos <=? index m + mlen m)) eqn:Cov;
    try discriminate.
  1, 2: injection H as Hg;
    apply andb_prop in Cov; destruct Cov as [C1 C2];
    apply Nat.leb_le in C1; apply Nat.leb_le in C2;
    pose proof (execFrom_bounds _ _ _ _ E) as (_ & Hend & _);
    exists (index m), (mlen m);
    rewrite <- Hg; split; [apply (execFrom_sound _ _ _ _ E) | lia].
  apply IH in H. exact H.
Qed.




(** The cursor just behind the closing quote still counts, the next
    offset does not. *)
Example attribute_end_is_inclusive :
  getAttributeValueAtPosition buttonLine 24 fxIdPattern = Ok (Some (T "myButton")) /\
  getAttributeValueAtPosition buttonLine 25 fxIdPattern = Ok None.
Proof. split; reflexivity. Qed.

(** The qualified class name of a document is none exactly when the text
    has no type declaration; otherwise it is the declared name, a
    non-empty run of word characters, alone or behind a non-empty package
    name and a dot. *)
Theorem getFullyQualifiedClassName_shape (document : Document) :
  match ControllerDefinitionProvider.getFullyQualifiedClassName document with
  | None => exec ControllerDefinitionProvider.classPattern (getText document) = None
  | Some q =>
      exists cls,
        ControllerDefinitionProvider.capture
          (exec ControllerDefinitionProvider.classPattern (getText document)) = Some cls /\
        cls <> [] /\ forallb is_word cls = true /\
        (q = cls \/
         exists pkg, pkg <> [] /\ forallb wordOrDot pkg = true /\
                     q = pkg ++ T "." ++ cls)
  end.
Proof.
  unfold ControllerDefinitionProvider.getFullyQualifiedClassName.
  destruct (exec ControllerDefinitionProvider.classPattern (getText document))
    as [m|] eqn:Ec; [|reflexivity].
  destruct (group1 m) as [cls|] eqn:Eg;
    [|exfalso; apply (exec_group_set ControllerDefinitionProvider.classPattern _ _
                       ltac:(discriminate) Ec Eg)].
  cbn [ControllerDefinitionProvider.capture]. rewrite Eg.
  destruct (exec_group _ _ _ _ Ec Eg) as (c & Hc & Hne & Hall).
  destruct Hc as [<- | []].
  destruct (exec ControllerDefinitionProvider.packagePattern (getText document))
    as [mp|] eqn:Ep; cbn [ControllerDefinitionProvider.capture].
  - destruct (group1 mp) as [pkg|] eqn:Egp.
    + destruct (exec_group _ _ _ _ Ep Egp) as (cp & Hcp & Hnep & Hallp).
      destruct Hcp as [<- | []].
      destruct pkg as [|x pkg']; [contradiction|].
      exists cls. repeat split; try assumption.
      right. exists (x :: pkg'). repeat split; try assumption.
    + exists cls. repeat split; try assumption. left. reflexivity.
  - exists cls. repeat split; try assumption. left. reflexivity.
Qed.

(** The controller name read from a markup document is none exactly when
    the controller pattern matches nowhere in its text; otherwise it is a
    non-empty text without double quote. *)
Theorem findControllerInDocument_shape (document : Document) :
  match findControllerInDocument document with
  | None => exec controllerPattern (getText document) = None
  | Some cls => cls <> [] /\ existsb (is_char dq) cls = false
  end.
Proof.
  unfold findControllerInDocument.
  destruct (exec controllerPattern (getText document)) as [m|] eqn:Ec; [|reflexivity].
  cbn [ControllerDefinitionProvider.capture].
  destruct (group1 m) as [cls|] eqn:Eg;
    [|exfalso; apply (exec_group_set controllerPattern _ _ ltac:(discriminate) Ec Eg)].
  destruct (exec_group _ _ _ _ Ec Eg) as (c & Hc & Hne & Hall).
  destruct Hc as [<- | []]. split; [assumption|].
  clear - Hall. induction cls as [|x cls IH]; [reflexivity|].
  simpl in *. apply andb_prop in Hall. destruct Hall as [Hx Hall].
  apply negb_true_iff in Hx. rewrite Hx. simpl. apply IH. assumption.
Qed.

End AttributeValues.

(** ** Locating the controller class and its members *)

Section ControllerLookup.

Import FxmlDefinitionProvider.

Lemma indexOf_from_sound p : forall s i0 k,
  indexOf_from p s i0 = Some k ->
  i0 <= k /\ startsWith p (skipn (k - i0) s) = true /\
  forall j, j < k - i0 -> startsWith p (skipn j s) = false.
Proof.
  induction s as [|c s IH]; intros i0 k H; simpl in H.
  - destruct (startsWith p []) eqn:E; [|discriminate]. injection H as <-.
    rewrite Nat.sub_diag. repeat split; [lia | exact E | intros; lia].
  - destruct (startsWith p (c :: s)) eqn:E.
    + injection H as <-. rewrite Nat.sub_diag.
      repeat split; [lia | exact E | intros; lia].
    + apply IH in H. destruct H as (Hle & Hs & Hfirst).
      replace (k - i0) with (S (k - S i0)) by lia.
      repeat split; [lia | exact Hs |].
      intros [|j] Hj; [exact E|]. simpl. apply Hfirst. lia.
Qed.

Lemma indexOf_sound p s k :
  indexOf p s = Some k ->
  startsWith p (skipn k s) = true /\ forall j, j < k -> startsWith p (skipn j s) = false.
Proof.
  unfold indexOf. intros H. apply indexOf_from_sound in H.
  rewrite Nat.sub_0_r in H. tauto.
Qed.

(** The result of the controller-class search: none without a file;
    else a location in the first file, at the first occurrence of the
    class declaration in the first line that has one, or at the top of the
    file when no line has one. *)
Theorem findControllerClass_result (ws : Workspace) (className : text) :
  match findFiles ws (javaGlob className) excludeGlob with
  | [] => findControllerClass ws className = None
  | file0 :: _ =>
      let needle := T "class " ++ simpleClassName className in
      let ls := lines (openTextDocument ws file0) in
      exists pos,
        findControllerClass ws className = Some (mkLocation file0 pos) /\
        ((pos = mkPosition 0 0 /\
          forall j l, nth_error ls j = Some l -> includes needle l = false) \/
         (exists l,
            nth_error ls (line pos) = Some l /\
            startsWith needle (skipn (character pos) l) = true /\
            (forall k, k < character pos -> startsWith needle (skipn k l) = false) /\
            forall j l', j < line pos -> nth_error ls j = Some l' ->
                         includes needle l' = false))
  end.
Proof.
  unfold findControllerClass.
  destruct (findFiles ws (javaGlob className) excludeGlob) as [|file0 rest];
    [reflexivity|].
  cbv zeta.
  set (needle := T "class " ++ simpleClassName className).
  destruct (scanLines _ (lines (openTextDocument ws file0)) 0) as [loc|] eqn:E.
  - apply scanLines_some in E. destruct E as (j & l & Hn & Hf & Hfirst).
    cbv beta in Hf, Hfirst.
    destruct (indexOf needle l) as [k|] eqn:Ek; [|discriminate].
    injection Hf as <-. exists (mkPosition j k). split; [reflexivity|]. right.
    apply indexOf_sound in Ek. destruct Ek as [Hs Hk].
    exists l. cbn [line character]. repeat split; try assumption.
    intros j' l' Hj Hl'. specialize (Hfirst j' l' Hj Hl').
    unfold includes. destruct (indexOf needle l'); [discriminate | reflexivity].
  - exists (mkPosition 0 0). split; [reflexivity|]. left. split; [reflexivity|].
    intros j l Hl. pose proof (scanLines_none _ _ _ E j l Hl) as Hn. cbv beta in Hn.
    unfold includes. destruct (indexOf needle l); [discriminate | reflexivity].
Qed.

Lemma findControllerClass_result_witness :
  exists pos,
    FxmlDefinitionProvider.findControllerClass sampleWorkspace (T "pkg.C")
      = Some (mkLocation controllerUri pos) /\
    ((pos = mkPosition 0 0 /\
      forall j l, nth_error (lines controllerC) j = Some l ->
                  includes (T "class C") l = false) \/
     (exists l,
        nth_error (lines controllerC) (line pos) = Some l /\
        startsWith (T "class C") (skipn (character pos) l) = true /\
        (forall k, k < character pos -> startsWith (T "class C") (skipn k l) = false) /\
        forall j l', j < line pos -> nth_error (lines controllerC) j = Some l' ->
                     includes (T "class C") l' = false)).
Proof. exact (findControllerClass_result sampleWorkspace (T "pkg.C")). Defined.

Lemma lastPart_no_sep sep s : existsb (is_char sep) s = false -> lastPart sep s = s.
Proof.
  induction s as [|c s IH]; [reflexivity|]. simpl. intros H.
  apply orb_false_iff in H. destruct H as [Hc Hs]. rewrite Hs, Hc. reflexivity.
Qed.

Lemma is_char_refl c : is_char c c = true.
Proof. unfold is_char. destruct (ascii_dec c c); congruence. Qed.

Lemma lastPart_after_sep sep q n :
  existsb (is_char sep) n = false -> lastPart sep (q ++ sep :: n) = n.
Proof.
  intros Hn. induction q as [|c q IH]; simpl.
  - rewrite Hn, is_char_refl. reflexivity.
  - rewrite existsb_app. simpl. rewrite is_char_refl, orb_true_r. simpl. exact IH.
Qed.

(** The simple class name is the part behind the last dot; a name without
    dot is kept, and so is a name that ends with a dot. *)
Theorem simpleClassName_spec (q n : text) :
  existsb (is_char ".") n = false ->
  simpleClassName n = n /\
  (n <> [] -> simpleClassName (q ++ T "." ++ n) = n) /\
  simpleClassName (q ++ T ".") = q ++ T ".".
Proof.
  intros Hn. unfold simpleClassName. repeat split.
  - rewrite (lastPart_no_sep _ _ Hn). destruct n; reflexivity.
  - intros Hne. change (q ++ T "." ++ n) with (q ++ "."%char :: n).
    rewrite (lastPart_after_sep _ q n Hn). destruct n; [contradiction | reflexivity].
  - change (q ++ T ".") with (q ++ "."%char :: []).
    rewrite (lastPart_after_sep _ q [] eq_refl). reflexivity.
Qed.

Lemma simpleClassName_spec_witness :
  simpleClassName (T "MyController") = T "MyController" /\
  simpleClassName dottedName = T "MyController" /\
  simpleClassName trailingDotName = trailingDotName.
Proof.
  destruct (simpleClassName_spec (T "com.example") (T "MyController") eq_refl)
    as (H1 & H2 & _).
  destruct (simpleClassName_spec (T "com.example") [] eq_refl) as (_ & _ & H3).
  split; [exact H1|]. split; [apply H2; discriminate | exact H3].
Defined.

Lemma structuralMatch_sound u name isMethod j l loc :
  structuralMatch u name isMethod j l = Some loc ->
  uri loc = u /\ line (position loc) = j /\
  exec (memberPattern name isMethod) l <> None /\
  startsWith name (skipn (character (position loc)) l) = true.
Proof.
  unfold structuralMatch.
  destruct (exec (memberPattern name isMethod) l) as [m|] eqn:E; [|discriminate].
  intros [= <-]. simpl. repeat split; [discriminate|].
  apply execFrom_sound in E.
  destruct isMethod; unfold memberPattern, methodPattern, fieldPattern in E;
    cbn [matchAt] in E;
    destruct (xorb _ _); try discriminate;
    destruct (startsWith name (skipn (index m) l)); try discriminate; reflexivity.
Qed.

(** Member search in the controller answers none exactly when no line
    matches the member pattern; an answer is in the file that was given,
    on a line that matches the pattern, at an occurrence of the member
    name. *)
Theorem findMemberInJavaFile_result
    (document : Document) (u : Uri) (name : text) (isMethod : bool) :
  match findMemberInJavaFile document u name isMethod with
  | None =>
      forall j l, nth_error (lines document) j = Some l ->
                  exec (memberPattern name isMethod) l = None
  | Some loc =>
      uri loc = u /\
      exists l,
        nth_error (lines document) (line (position loc)) = Some l /\
        exec (memberPattern name isMethod) l <> None /\
        startsWith name (skipn (character (position loc)) l) = true
  end.
Proof.
  unfold findMemberInJavaFile.
  change (@None nat) with (trackerOf [] 0).
  rewrite findMemberLoop_spec by reflexivity.
  destruct (firstMatchInWindow u name isMethod [] (lines document) 0) as [loc|] eqn:Ea.
  - apply firstMatchInWindow_sound in Ea.
    destruct Ea as (j & l & Hn & Hm & _).
    apply structuralMatch_sound in Hm. destruct Hm as (Hu & Hl & He & Hs).
    split; [assumption|]. exists l. simpl in Hl. rewrite Hl. auto.
  - unfold firstStructuralMatch.
    destruct (scanLines (structuralMatch u name isMethod) (lines document) 0)
      as [loc|] eqn:Es.
    + apply scanLines_some in Es. destruct Es as (j & l & Hn & Hm & _).
      apply structuralMatch_sound in Hm. destruct Hm as (Hu & Hl & He & Hs).
      split; [assumption|]. exists l. simpl in Hl. rewrite Hl. auto.
    + intros j l Hl. pose proof (scanLines_none _ _ _ Es j l Hl) as Hn.
      unfold structuralMatch in Hn.
      destruct (exec (memberPattern name isMethod) l); [discriminate | reflexivity].
Qed.

Lemma findMemberInJavaFile_result_witness :
  uri (mkLocation controllerUri (mkPosition 4 18)) = controllerUri /\
  exists l,
    nth_error (lines twoFieldsNamedX) 4 = Some l /\
    exec (FxmlDefinitionProvider.memberPattern (T "x") false) l <> None /\
    startsWith (T "x") (skipn 18 l) = true.
Proof.
  exact (findMemberInJavaFile_result twoFieldsNamedX controllerUri (T "x") false).
Defined.

End ControllerLookup.

(** ** The navigation index and its command *)

Section LensFacts.

Import FxmlCodeLensProvider.

Lemma findMemberLine_step document j0 steps :
  findMemberLine document j0 (S steps) =
    match nth_error (lines document) j0 with
    | None => None
    | Some l => if negb (passedOver l) then Some j0
                else findMemberLine document (S j0) steps
    end.
Proof.
  cbn [findMemberLine]. destruct (nth_error (lines document) j0) as [l|]; [|reflexivity].
  unfold passedOver, isAnnotationLine. rewrite negb_orb. reflexivity.
Qed.

Lemma findMemberLine_some document : forall steps j0 j,
  findMemberLine document j0 steps = Some j ->
  j0 <= j < j0 + steps /\
  (exists l, nth_error (lines document) j = Some l /\ passedOver l = false) /\
  forall j', j0 <= j' < j ->
    exists l', nth_error (lines document) j' = Some l' /\ passedOver l' = true.
Proof.
  induction steps as [|steps IH]; intros j0 j H; [discriminate|].
  rewrite findMemberLine_step in H.
  destruct (nth_error (lines document) j0) as [l|] eqn:El; [|discriminate].
  destruct (passedOver l) eqn:Ep; cbn [negb] in H.
  - apply IH in H. destruct H as (Hr & Hl & Hbetween).
    split; [lia|]. split; [exact Hl|].
    intros j' Hj'. destruct (Nat.eq_dec j' j0) as [->|Hne].
    + exists l. auto.
    + apply Hbetween. lia.
  - injection H as <-. split; [lia|]. split.
    + exists l. auto.
    + intros j' Hj'. lia.
Qed.

Lemma findMemberLine_none document : forall steps j0,
  findMemberLine document j0 steps = None ->
  forall j' l', j0 <= j' < j0 + steps ->
    nth_error (lines document) j' = Some l' -> passedOver l' = true.
Proof.
  induction steps as [|steps IH]; intros j0 H j' l' Hj' Hl'; [lia|].
  rewrite findMemberLine_step in H.
  destruct (nth_error (lines document) j0) as [l|] eqn:El.
  - destruct (passedOver l) eqn:Ep; cbn [negb] in H; [|discriminate].
    destruct (Nat.eq_dec j' j0) as [->|Hne].
    + rewrite El in Hl'. injection Hl' as <-. exact Ep.
    + apply (IH (S j0) H j' l'); [lia | assumption].
  - exfalso. apply nth_error_None in El.
    assert (j' < length (lines document)) by (apply nth_error_Some; congruence). lia.
Qed.

(** The forward search from a marker line: the member line is among the
    next three lines, it is neither blank nor an annotation line, and
    every line passed over before it is blank or an annotation line;
    without an answer all of the next three lines are such. *)
Theorem findMemberLine_window (document : Document) (i : nat) :
  match findMemberLine document (S i) 3 with
  | Some j =>
      i < j <= i + 3 /\
      (exists l, nth_error (lines document) j = Some l /\ passedOver l = false) /\
      forall j', i < j' < j ->
        exists l', nth_error (lines document) j' = Some l' /\ passedOver l' = true
  | None =>
      forall j' l', i < j' <= i + 3 ->
        nth_error (lines document) j' = Some l' -> passedOver l' = true
  end.
Proof.
  destruct (findMemberLine document (S i) 3) as [j|] eqn:E.
  - apply findMemberLine_some in E. destruct E as (Hr & Hl & Hb).
    split; [lia|]. split; [exact Hl|]. intros j' Hj'. apply Hb. lia.
  - intros j' l' Hj' Hl'. apply (findMemberLine_none _ _ _ E j' l'); [lia | assumption].
Qed.

Lemma findMemberLine_window_witness :
  2 < 4 <= 2 + 3 /\
  (exists l, nth_error (lines annotationSamples) 4 = Some l /\ passedOver l = false) /\
  forall j', 2 < j' < 4 ->
    exists l', nth_error (lines annotationSamples) j' = Some l' /\ passedOver l' = true.
Proof. exact (findMemberLine_window annotationSamples 2). Defined.

Lemma mem_true_In w ws : mem w ws = true -> In w ws.
Proof.
  unfold mem. intros H. apply existsb_exists in H. destruct H as (x & Hx & He).
  apply text_eqb_eq in He. subst. assumption.
Qed.

Lemma shapeName_sound shape blacklist lineText name :
  shapeName shape blacklist lineText = Some name ->
  mem name blacklist = false /\
  exists c, In c (groupClasses shape) /\ name <> [] /\ forallb c name = true.
Proof.
  unfold shapeName.
  destruct (exec shape lineText) as [m|] eqn:E; cbn [ControllerDefinitionProvider.capture];
    [|discriminate].
  destruct (group1 m) as [v|] eqn:Eg; [|discriminate].
  destruct (mem v blacklist) eqn:Em; [discriminate|].
  intros [= <-]. split; [assumption|]. eapply exec_group; eassumption.
Qed.

(** A name found by bulk extraction is a non-empty run of word characters
    and is none of [class], [interface], [return], [new]. *)
Theorem extractMemberName_sound (lineText name : text) :
  extractMemberName lineText = Some name ->
  name <> [] /\ forallb is_word name = true /\ mem name commonKeywords = false.
Proof.
  unfold extractMemberName.
  destruct (shapeName methodShape methodKeywords lineText) as [n1|] eqn:E1.
  - intros [= <-]. apply shapeName_sound in E1.
    destruct E1 as (Hk & c & Hc & Hne & Hall).
    destruct Hc as [<- | []]. repeat split; try assumption.
    destruct (mem n1 commonKeywords) eqn:Ec; [|reflexivity].
    apply mem_true_In in Ec.
    assert (Hin : In n1 methodKeywords).
    { unfold commonKeywords, methodKeywords in *. simpl in *.
      repeat (destruct Ec as [<- | Ec]; [tauto|]). contradiction. }
    apply mem_In in Hin. congruence.
  - intros E2. apply shapeName_sound in E2.
    destruct E2 as (Hk & c & Hc & Hne & Hall).
    destruct Hc as [<- | []]. repeat split; try assumption.
    destruct (mem name commonKeywords) eqn:Ec; [|reflexivity].
    apply mem_true_In in Ec.
    assert (Hin : In name fieldKeywords).
    { unfold commonKeywords, fieldKeywords in *. simpl in *.
      repeat (destruct Ec as [<- | Ec]; [tauto|]). contradiction. }
    apply mem_In in Hin. congruence.
Qed.

Lemma extractMemberName_sound_witness :
  T "handleClick" <> [] /\ forallb is_word (T "handleClick") = true /\
  mem (T "handleClick") commonKeywords = false.
Proof.
  apply (extractMemberName_sound
           (T "    private void handleClick(ActionEvent event) {}")).
  reflexivity.
Defined.

Lemma lensAt_sound document cls i lineText lens :
  lensAt document cls i lineText = Some lens ->
  isMarkerLine lineText = true /\
  range lens = mkRange i 0 i (length lineText) /\
  argController lens = cls /\
  exists j memberLineText,
    i < j <= i + 3 /\
    nth_error (lines document) j = Some memberLineText /\
    passedOver memberLineText = false /\
    extractMemberName memberLineText = Some (argMember lens) /\
    argIsMethod lens = isMethodDeclaration memberLineText (argMember lens).
Proof.
  unfold lensAt. fold (isMarkerLine lineText).
  destruct (isMarkerLine lineText); [|discriminate].
  destruct (findMemberLine document (S i) 3) as [j|] eqn:Ej; [|discriminate].
  apply findMemberLine_some in Ej. destruct Ej as (Hr & (l & Hl & Hp) & _).
  rewrite Hl.
  destruct (extractMemberName l) as [[|c n]|] eqn:Ee; cbn [truthy]; try discriminate.
  intros [= <-]. cbn [range argController argMember argIsMethod].
  repeat split. exists j, l. repeat split; try assumption; lia.
Qed.

Lemma lensLoop_sound document cls : forall ls i0 lens,
  In lens (lensLoop document cls ls i0) ->
  exists k lineText,
    nth_error ls k = Some lineText /\
    lensAt document cls (i0 + k) lineText = Some lens.
Proof.
  induction ls as [|l ls IH]; intros i0 lens H; simpl in H; [contradiction|].
  destruct (lensAt document cls i0 l) as [lens0|] eqn:E.
  - destruct H as [<- | H].
    + exists 0, l. rewrite Nat.add_0_r. auto.
    + apply IH in H. destruct H as (k & lt & Hk & Hl).
      exists (S k), lt. rewrite <- plus_n_Sm. auto.
  - apply IH in H. destruct H as (k & lt & Hk & Hl).
    exists (S k), lt. rewrite <- plus_n_Sm. auto.
Qed.

Lemma lensLoop_count document cls : forall ls i0,
  length (lensLoop document cls ls i0) <= length (filter isMarkerLine ls).
Proof.
  induction ls as [|l ls IH]; intros i0; simpl; [lia|].
  specialize (IH (S i0)).
  destruct (lensAt document cls i0 l) as [lens|] eqn:E.
  - apply lensAt_sound in E. destruct E as (Hm & _). rewrite Hm. simpl. lia.
  - destruct (isMarkerLine l); simpl; lia.
Qed.

(** Every lens of the navigation index sits on a line that opens with the
    marker and spans that line; it carries the qualified class name of the
    document and a member name extracted from a line among the next
    three that is neither blank nor an annotation line, with the kind
    that the method test gives on that line.  There is at most one lens
    per marker line. *)
Theorem provideCodeLenses_sound (document : Document) :
  length (provideCodeLenses document)
    <= length (filter isMarkerLine (lines document)) /\
  forall lens, In lens (provideCodeLenses document) ->
    getFullyQualifiedClassName document = Some (argController lens) /\
    exists i lineText j memberLineText,
      nth_error (lines document) i = Some lineText /\
      isMarkerLine lineText = true /\
      range lens = mkRange i 0 i (length lineText) /\
      i < j <= i + 3 /\
      nth_error (lines document) j = Some memberLineText /\
      passedOver memberLineText = false /\
      extractMemberName memberLineText = Some (argMember lens) /\
      argIsMethod lens = isMethodDeclaration memberLineText (argMember lens).
Proof.
  unfold provideCodeLenses.
  destruct (negb (includes fxmlImport (getText document))).
  { split; [simpl; lia | intros lens []]. }
  destruct (getFullyQualifiedClassName document) as [[|c q]|] eqn:Eq; cbn [truthy].
  1, 3: split; [simpl; lia | intros lens []].
  split; [apply lensLoop_count|].
  intros lens Hin. apply lensLoop_sound in Hin.
  destruct Hin as (k & lineText & Hk & Hl).
  apply lensAt_sound in Hl.
  destruct Hl as (Hm & Hr & Hc & j & ml & Hj & Hml & Hp & He & Hi).
  rewrite Hc. split; [reflexivity|].
  exists k, lineText, j, ml. simpl in *. auto 10.
Qed.

Lemma provideCodeLenses_sound_witness :
  length (provideCodeLenses controllerC) <= 2 /\
  let lens := mkCodeLens (mkRange 5 0 5 9) (T "pkg.C") (T "handleClick") true in
  getFullyQualifiedClassName controllerC = Some (argController lens) /\
  exists i lineText j memberLineText,
    nth_error (lines controllerC) i = Some lineText /\
    isMarkerLine lineText = true /\
    range lens = mkRange i 0 i (length lineText) /\
    i < j <= i + 3 /\
    nth_error (lines controllerC) j = Some memberLineText /\
    passedOver memberLineText = false /\
    extractMemberName memberLineText = Some (argMember lens) /\
    argIsMethod lens = isMethodDeclaration memberLineText (argMember lens).
Proof.
  destruct (provideCodeLenses_sound controllerC) as [Hcount Hall].
  split; [exact Hcount|].
  apply Hall. right. left. reflexivity.
Defined.

End LensFacts.

(** ** The two searches of a markup document *)

Section MarkupSearches.

Import ControllerDefinitionProvider.

(** Wherever the [fx:id] search answers, the returned offset begins the
    attribute [fx:id=..name..] itself. *)
Theorem findFxIdInFxml_offset (document : Document) (u : Uri) (fieldName : text)
    (loc : Location) :
  findFxIdInFxml document u fieldName = Some loc ->
  uri loc = u /\
  exists lineText,
    nth_error (lines document) (line (position loc)) = Some lineText /\
    startsWith (T "fx:id=" ++ [dq] ++ fieldName ++ [dq])
      (skipn (character (position loc)) lineText) = true.
Proof.
  unfold findFxIdInFxml. intros H.
  apply scanLines_some in H. destruct H as (j & l & Hn & Hf & _). cbv beta in Hf.
  destruct (exec (fxIdPattern fieldName) l) as [m|] eqn:E; [|discriminate].
  injection Hf as <-. split; [reflexivity|]. exists l. split; [assumption|].
  apply exec_literal in E. exact E.
Qed.

Lemma findFxIdInFxml_offset_witness :
  uri (mkLocation viewUri (mkPosition 1 8)) = viewUri /\
  exists lineText,
    nth_error (lines viewWithMembers) 1 = Some lineText /\
    startsWith (T "fx:id=" ++ [dq] ++ T "myButton" ++ [dq]) (skipn 8 lineText) = true.
Proof.
  apply (findFxIdInFxml_offset viewWithMembers viewUri (T "myButton")
           (mkLocation viewUri (mkPosition 1 8))).
  reflexivity.
Defined.

Lemma backtrack_exists {R} lo hi (f : nat -> option R) k r :
  lo <= k <= hi -> f k = Some r -> exists r', backtrack lo hi f = Some r'.
Proof.
  intros Hk Hf. induction hi as [|h IH]; simpl.
  - assert (k = 0) by lia. subst.
    destruct (0 <? lo) eqn:E; [apply Nat.ltb_lt in E; lia|]. rewrite Hf. eauto.
  - destruct (S h <? lo) eqn:E; [apply Nat.ltb_lt in E; lia|].
    destruct (f (S h)) as [r0|] eqn:F; [eauto|].
    destruct (Nat.eq_dec k (S h)) as [->|Hne]; [congruence|].
    apply IH. lia.
Qed.

(** Where the pattern of the definition provider matches, the pattern of
    the command, which allows blanks behind the equals sign, matches
    too. *)
Lemma handler_patterns p s methodName r :
  matchAt (eventHandlerPattern methodName) p s None = Some r ->
  exists r', matchAt (FxmlCodeLensProvider.commandHandlerPattern methodName) p s None
             = Some r'.
Proof.
  unfold eventHandlerPattern, FxmlCodeLensProvider.commandHandlerPattern.
  cbn [matchAt]. set (tail := [dq] ++ T "#" ++ methodName ++ [dq]).
  destruct (startsWith (T "=" ++ tail) s) eqn:Es; [|discriminate]. intros _.
  apply startsWith_split in Es.
  set (rest := skipn (length (T "=" ++ tail)) s) in Es.
  rewrite Es, <- app_assoc, startsWith_app.
  change (skipn (length (T "=")) (T "=" ++ tail ++ rest)) with (tail ++ rest).
  destruct (backtrack_exists 0 (run is_space (tail ++ rest))
              (fun k => advance k
                 (if startsWith tail (skipn k (tail ++ rest))
                  then advance (length tail) (Some (0, @None text))
                  else None)) 0 (0 + (length tail + 0), None)) as [[n' c'] Hr'].
  - lia.
  - change (skipn 0 (tail ++ rest)) with (tail ++ rest).
    rewrite startsWith_app. reflexivity.
  - rewrite Hr'. cbn [advance]. eauto.
Qed.

Lemma exec_handler_patterns methodName l m :
  exec (eventHandlerPattern methodName) l = Some m ->
  exec (FxmlCodeLensProvider.commandHandlerPattern methodName) l <> None.
Proof.
  intros H. pose proof (execFrom_bounds _ _ _ _ H) as (_ & Hend & _).
  apply execFrom_sound in H. apply handler_patterns in H. destruct H as [r' H].
  destruct (search_complete (FxmlCodeLensProvider.commandHandlerPattern methodName)
              l false 0 (index m) r') as (m' & Hm' & _); [lia | exact H |].
  unfold exec, execFrom. simpl. rewrite Hm'. discriminate.
Qed.

(** The command behind the lenses and the definition provider agree on
    fields; for a method the command finds a target in every document
    in which the provider finds one, on the same line or above it. *)
Theorem command_agrees_with_provider (document : Document) (u : Uri) (name : text) :
  FxmlCodeLensProvider.targetInDocument document name false
    = option_map position (findFxIdInFxml document u name) /\
  forall loc,
    findEventHandlerInFxml document u name = Some loc ->
    exists pos,
      FxmlCodeLensProvider.targetInDocument document name true = Some pos /\
      line pos <= line (position loc).
Proof.
  split.
  - unfold FxmlCodeLensProvider.targetInDocument, findFxIdInFxml.
    generalize 0. induction (lines document) as [|l ls IH]; intros i0; [reflexivity|].
    cbn [scanLines]. destruct (exec (fxIdPattern name) l); [reflexivity | apply IH].
  - unfold FxmlCodeLensProvider.targetInDocument, findEventHandlerInFxml.
    intros loc H. apply scanLines_some in H.
    destruct H as (j & l & Hn & Hf & _). cbv beta in Hf.
    destruct (exec (eventHandlerPattern name) l) as [m|] eqn:E; [|discriminate].
    injection Hf as <-. cbn [position line].
    apply exec_handler_patterns in E.
    destruct (scanLines _ (lines document) 0) as [pos|] eqn:Es.
    + exists pos. split; [reflexivity|].
      apply scanLines_some in Es. destruct Es as (j' & l' & Hn' & Hf' & Hfirst).
      cbv beta in Hf', Hfirst.
      destruct (exec (FxmlCodeLensProvider.commandHandlerPattern name) l');
        [|discriminate].
      injection Hf' as <-. cbn [line].
      destruct (Nat.le_gt_cases j' j) as [|Hgt]; [lia|exfalso].
      specialize (Hfirst j l Hgt Hn).
      destruct (exec (FxmlCodeLensProvider.commandHandlerPattern name) l);
        [discriminate | contradiction].
    + exfalso. pose proof (scanLines_none _ _ _ Es j l Hn) as Hnone. cbv beta in Hnone.
      destruct (exec (FxmlCodeLensProvider.commandHandlerPattern name) l);
        [discriminate | contradiction].
Qed.

Lemma command_agrees_with_provider_witness :
  exists pos,
    FxmlCodeLensProvider.targetInDocument viewWithMembers (T "handleClick") true
      = Some pos /\
    line pos <= 1.
Proof.
  destruct (command_agrees_with_provider viewWithMembers viewUri (T "handleClick"))
    as [_ H].
  apply (H (mkLocation viewUri (mkPosition 1 35))). reflexivity.
Defined.

(** The converse fails: blanks around the equals sign hide the handler
    from the definition provider, not from the command. *)
Example spaced_handler_only_for_command :
  findEventHandlerInFxml (mkDocument [spacedHandlerLine] LF) viewUri (T "handleClick")
    = None /\
  FxmlCodeLensProvider.targetInDocument (mkDocument [spacedHandlerLine] LF)
    (T "handleClick") true = Some (mkPosition 0 19).
Proof. split; reflexivity. Qed.

End MarkupSearches.

(** ** The formatter: what every result looks like *)

Section FormatterFacts.

Import FxmlFormattingEditProvider.

Lemma trimStart_nil s : trimStart s = [] -> forallb is_space s = true.
Proof.
  induction s as [|c s IH]; simpl; [reflexivity|].
  destruct (is_space c); [exact IH | discriminate].
Qed.

Lemma trimStart_spaces s : forallb is_space s = true -> trimStart s = [].
Proof.
  induction s as [|c s IH]; simpl; [reflexivity|].
  destruct (is_space c); [exact IH | discriminate].
Qed.

Lemma forallb_rev {A} (f : A -> bool) l : forallb f (rev l) = forallb f l.
Proof.
  induction l as [|x l IH]; [reflexivity|]. simpl.
  rewrite forallb_app, IH. simpl. rewrite andb_true_r. apply andb_comm.
Qed.

Lemma trimStart_forallb (f : ascii -> bool) s :
  forallb f s = true -> forallb f (trimStart s) = true.
Proof.
  induction s as [|c s IH]; simpl; [reflexivity|]. intros H.
  destruct (is_space c); [|exact H].
  apply andb_prop in H. apply IH. tauto.
Qed.

Lemma trim_forallb (f : ascii -> bool) s :
  forallb f s = true -> forallb f (trim s) = true.
Proof.
  intros H. unfold trim, trimEnd. rewrite forallb_rev.
  apply trimStart_forallb. rewrite forallb_rev. apply trimStart_forallb. exact H.
Qed.

Lemma trim_nil_spaces s : trim s = [] -> forallb is_space s = true.
Proof.
  unfold trim, trimEnd. intros H.
  assert (Hr : trimStart (rev (trimStart s)) = []).
  { rewrite <- (rev_involutive (trimStart (rev (trimStart s)))), H. reflexivity. }
  apply trimStart_nil in Hr. rewrite forallb_rev in Hr.
  clear H. induction s as [|c s IH]; [reflexivity|].
  simpl in *. destruct (is_space c) eqn:E; [apply IH; exact Hr|].
  simpl in Hr. rewrite E in Hr. discriminate.
Qed.

Lemma trim_spaces s : forallb is_space s = true -> trim s = [].
Proof. intros H. unfold trim. rewrite (trimStart_spaces _ H). reflexivity. Qed.

Lemma nonBlank_has_char s c :
  In c s -> is_space c = false -> nonBlank s = true.
Proof.
  intros Hin Hc. unfold nonBlank.
  destruct (text_eqb (trim s) []) eqn:E; [|reflexivity].
  apply text_eqb_eq in E. apply trim_nil_spaces in E.
  rewrite forallb_forall in E. rewrite (E c Hin) in Hc. discriminate.
Qed.

Lemma forallb_firstn {A} (f : A -> bool) n l :
  forallb f l = true -> forallb f (firstn n l) = true.
Proof.
  revert l. induction n as [|n IH]; intros [|x l] H; try reflexivity.
  simpl in *. apply andb_prop in H. destruct H as [Hx Hl].
  rewrite Hx. apply IH. exact Hl.
Qed.

Lemma forallb_skipn {A} (f : A -> bool) n l :
  forallb f l = true -> forallb f (skipn n l) = true.
Proof.
  revert l. induction n as [|n IH]; intros [|x l] H; try reflexivity; try exact H.
  simpl in *. apply andb_prop in H. apply IH. tauto.
Qed.

Lemma forallb_map_text (f g : ascii -> bool) (h : ascii -> ascii) l :
  (forall c, g c = true -> f (h c) = true) ->
  forallb g l = true -> forallb f (map h l) = true.
Proof.
  intros Hh. induction l as [|x l IH]; [reflexivity|]. simpl. intros H.
  apply andb_prop in H. destruct H as [Hx Hl]. rewrite (Hh x Hx). apply IH. exact Hl.
Qed.

Lemma startsWith_head p0 p s :
  startsWith (p0 :: p) s = true -> exists s', s = p0 :: s'.
Proof.
  destruct s as [|x s]; simpl; [discriminate|].
  destruct (ascii_dec p0 x); [subst; eauto | discriminate].
Qed.

Lemma forallb_snoc {A} (g : A -> bool) l x : forallb g (l ++ [x]) = forallb g l && g x.
Proof. rewrite forallb_app. simpl. rewrite andb_true_r. reflexivity. Qed.

(** What the tokenizer keeps true of [current] and [tokens]: every
    character satisfies [f], given that those of the text and the two
    angle brackets do, and no token is blank. *)
Lemma tokenizeLoop_invariant (f : ascii -> bool) xml :
  forallb f xml = true -> f "<"%char = true -> f ">"%char = true ->
  forall fuel i current inTag tokens ts,
    forallb f current = true ->
    forallb (forallb f) tokens = true ->
    forallb nonBlank tokens = true ->
    tokenizeLoop fuel xml i current inTag tokens = Ok ts ->
    forallb (forallb f) ts = true /\ forallb nonBlank ts = true.
Proof.
  intros Hxml Hlt Hgt.
  assert (Hpush : forall b tokens current,
            forallb f current = true ->
            forallb (forallb f) tokens = true ->
            forallb nonBlank tokens = true ->
            forallb (forallb f) (pushIf (b && nonBlank current) tokens current) = true /\
            forallb nonBlank (pushIf (b && nonBlank current) tokens current) = true).
  { intros b tokens current Hc Ht Hn. unfold pushIf.
    destruct (b && nonBlank current) eqn:E; [|auto].
    apply andb_prop in E. destruct E as [_ E].
    rewrite !forallb_snoc, Hc, Ht, Hn, E. auto. }
  assert (Hsub : forall i e tokens,
            startsWith (T "<") (skipn i xml) = true ->
            forallb (forallb f) tokens = true ->
            forallb nonBlank tokens = true ->
            i <= e ->
            forallb (forallb f) (tokens ++ [substring i (e + 3) xml]) = true /\
            forallb nonBlank (tokens ++ [substring i (e + 3) xml]) = true).
  { intros i e tokens Hs Ht Hn Hie. rewrite !forallb_snoc, Ht, Hn.
    unfold substring.
    rewrite (forallb_firstn f _ _ (forallb_skipn f i _ Hxml)).
    split; [reflexivity|].
    apply startsWith_head in Hs. destruct Hs as [s' Hs]. rewrite Hs.
    replace (e + 3 - i) with (S (e + 2 - i)) by lia.
    rewrite (nonBlank_has_char _ "<"%char); [reflexivity | left; reflexivity | reflexivity]. }
  induction fuel as [|fuel IH]; intros i current inTag tokens ts Hc Ht Hn H;
    cbn [tokenizeLoop] in H; [discriminate|].
  destruct (nth_error xml i) as [char|] eqn:Ec.
  2: { injection H as <-.
       destruct (Hpush true tokens current Hc Ht Hn) as [H1 H2].
       cbn [andb] in H1, H2. auto. }
  assert (Hi : i < length xml) by (apply nth_error_Some; congruence).
  assert (Hchar : f char = true) by (apply (forallb_nth _ _ _ _ Hxml Ec)).
  remember (startsWith CDATA_open (skipn i xml)) as isCdata eqn:Ecd.
  destruct (Hpush isCdata tokens current Hc Ht Hn) as [Ht1 Hn1].
  remember (pushIf (isCdata && nonBlank current) tokens current) as tokens1 eqn:Et1.
  destruct (if isCdata then indexOfAt CDATA_close xml i else None) as [cdataEnd|] eqn:E1.
  { destruct isCdata; [|discriminate].
    pose proof (indexOfAt_ge CDATA_close xml i cdataEnd ltac:(lia) E1) as Hge.
    destruct (Hsub i cdataEnd tokens1) as [Ht2 Hn2]; try assumption.
    { symmetry in Ecd. apply startsWith_split in Ecd. rewrite Ecd. reflexivity. }
    apply (IH _ [] _ _ _ eq_refl Ht2 Hn2 H). }
  remember (startsWith comment_open (skipn i xml)) as isComment eqn:Eco.
  destruct (Hpush isComment tokens1 current Hc Ht1 Hn1) as [Ht2 Hn2].
  remember (pushIf (isComment && nonBlank current) tokens1 current) as tokens2 eqn:Et2.
  destruct (if isComment then indexOfAt comment_close xml i else None)
    as [commentEnd|] eqn:E2.
  { destruct isComment; [|discriminate].
    pose proof (indexOfAt_ge comment_close xml i commentEnd ltac:(lia) E2) as Hge.
    destruct (Hsub i commentEnd tokens2) as [Ht3 Hn3]; try assumption.
    { symmetry in Eco. apply startsWith_split in Eco. rewrite Eco. reflexivity. }
    apply (IH _ [] _ _ _ eq_refl Ht3 Hn3 H). }
  unfold charStep in H.
  destruct (is_char "<" char) eqn:Elt.
  - destruct (Hpush true tokens2 current Hc Ht2 Hn2) as [Ht3 Hn3].
    cbn [andb] in Ht3, Hn3.
    assert (Hcur : forallb f (T "<") = true) by (simpl; rewrite Hlt; reflexivity).
    apply (IH _ _ _ _ _ Hcur Ht3 Hn3 H).
  - destruct (is_char ">" char && inTag) eqn:Egt.
    + apply (IH _ [] _ _ _ eq_refl) in H; [exact H | |].
      * rewrite forallb_snoc, Ht2.
        change (T ">") with [">"%char]. rewrite forallb_snoc, Hc, Hgt. reflexivity.
      * rewrite forallb_snoc, Hn2.
        rewrite (nonBlank_has_char _ ">"%char); [reflexivity | | reflexivity].
        apply in_or_app. right. left. reflexivity.
    + assert (Hcur : forallb f (current ++ [char]) = true)
        by (rewrite forallb_snoc, Hc, Hchar; reflexivity).
      apply (IH _ _ _ _ _ Hcur Ht2 Hn2 H).
Qed.

(** The tokenizer never yields a blank token. *)
Theorem tokenize_no_blank_token (xml : text) (ts : list text) :
  tokenize xml = Ok ts -> forallb nonBlank ts = true.
Proof.
  unfold tokenize. intros H.
  apply (tokenizeLoop_invariant (fun _ => true) xml) in H; try reflexivity; [tauto|].
  apply forallb_forall. reflexivity.
Qed.

Lemma tokenize_no_blank_token_witness :
  forallb nonBlank [T "a"; T "a"; T "<!--"] = true.
Proof. apply (tokenize_no_blank_token unterminatedComment). reflexivity. Defined.

Lemma normalizeEol_noCR xml : noCR (normalizeEol xml) = true.
Proof.
  unfold noCR, normalizeEol, replaceChar.
  apply (forallb_map_text _ (fun _ => true)).
  - intros c _. destruct (ascii_dec CRc c); [reflexivity|].
    unfold is_char. destruct (ascii_dec CRc c); [contradiction | reflexivity].
  - apply forallb_forall. reflexivity.
Qed.

Lemma noCR_repeat s n : noCR s = true -> noCR (repeat_text s n) = true.
Proof.
  intros H. unfold noCR in *. induction n as [|n IH]; [reflexivity|].
  simpl. rewrite forallb_app, H, IH. reflexivity.
Qed.

Lemma noCR_join ls : forallb noCR ls = true -> noCR (join [LFc] ls) = true.
Proof.
  unfold noCR. induction ls as [|l ls IH]; [reflexivity|].
  intros H. cbn [forallb] in H. apply andb_prop in H. destruct H as [Hl Hls].
  destruct ls as [|l' ls']; [exact Hl|].
  change (join [LFc] (l :: l' :: ls')) with (l ++ [LFc] ++ join [LFc] (l' :: ls')).
  rewrite !forallb_app, Hl, (IH Hls). reflexivity.
Qed.

Lemma formatPart_noCR indent st part :
  noCR indent = true -> noCR part = true ->
  forallb noCR (snd st) = true ->
  forallb noCR (snd (formatPart indent st part)) = true.
Proof.
  intros Hi Hp Hout. destruct st as [level out]. simpl in Hout.
  assert (Ht : noCR (trim part) = true) by (apply trim_forallb; exact Hp).
  assert (Hline : forall n, forallb noCR (out ++ [repeat_text indent n ++ trim part]) = true).
  { intros n. rewrite forallb_app. simpl. rewrite Hout. unfold noCR at 1.
    rewrite forallb_app. fold (noCR (repeat_text indent n)). fold (noCR (trim part)).
    rewrite (noCR_repeat _ n Hi), Ht. reflexivity. }
  assert (Hbare : forallb noCR (out ++ [trim part]) = true).
  { rewrite forallb_app. simpl. rewrite Hout, Ht. reflexivity. }
  unfold formatPart.
  repeat match goal with
         | |- context [if ?b then _ else _] => destruct b
         end; simpl; auto.
Qed.

Lemma endsWith_snoc (c : ascii) s : endsWith [c] (s ++ [c]) = true.
Proof.
  unfold endsWith. rewrite rev_app_distr. simpl.
  destruct (ascii_dec c c); [reflexivity | congruence].
Qed.

Lemma formatXml_props (xml : text) (options : FormattingOptions) :
  exists formatted,
    formatXml xml options = Ok formatted /\
    endsWith [LFc] formatted = true /\
    noCR formatted = true.
Proof.
  destruct (formatXml_ends xml options) as [formatted H].
  exists formatted. split; [exact H|].
  unfold formatXml in H.
  destruct (tokenize (normalizeEol xml)) as [ts|] eqn:Et; [|discriminate].
  cbn [bind] in H.
  assert (Hts : forallb noCR ts = true).
  { unfold tokenize in Et.
    apply (tokenizeLoop_invariant (fun c => negb (is_char CRc c)) (normalizeEol xml))
      in Et; try reflexivity; [tauto|].
    apply normalizeEol_noCR. }
  assert (Hindent : noCR (indentOf options) = true).
  { unfold indentOf. destruct (insertSpaces options); [|reflexivity].
    apply noCR_repeat. reflexivity. }
  assert (Hfold : forall parts st,
            forallb noCR parts = true -> forallb noCR (snd st) = true ->
            forallb noCR (snd (fold_left (formatPart (indentOf options)) parts st)) = true).
  { induction parts as [|part parts IH]; intros st Hp Hs; [exact Hs|].
    simpl in Hp. apply andb_prop in Hp. destruct Hp as [Hp1 Hp2].
    simpl. apply IH; [exact Hp2|]. apply formatPart_noCR; assumption. }
  specialize (Hfold ts (0, []) Hts eq_refl).
  destruct (fold_left (formatPart (indentOf options)) ts (0, [])) as [level out].
  simpl in Hfold. apply noCR_join in Hfold.
  injection H as <-.
  destruct (endsWith [LFc] (join [LFc] out)) eqn:Ee.
  - split; assumption.
  - split; [apply endsWith_snoc|].
    unfold noCR in *. rewrite forallb_app, Hfold. reflexivity.
Qed.

(** Every text has a formatted form; it ends with a line feed and holds
    no carriage return. *)
Theorem formatXml_result (xml : text) (options : FormattingOptions) :
  exists formatted,
    formatXml xml options = Ok formatted /\
    endsWith [LFc] formatted = true /\
    noCR formatted = true.
Proof. apply formatXml_props. Qed.

(** Text that holds a carriage return is never taken as formatted: the
    range formatter answers with one edit, whose text has none. *)
Theorem formatRange_rewrites_carriage_returns (txt : text) (options : FormattingOptions) :
  existsb (is_char CRc) txt = true ->
  exists formatted,
    formatRange txt options = Ok [formatted] /\ noCR formatted = true.
Proof.
  intros Hcr. destruct (formatXml_props txt options) as (formatted & Hf & _ & Hn).
  exists formatted. split; [|exact Hn].
  unfold formatRange. rewrite Hf. cbn [bind].
  destruct (text_eqb formatted txt) eqn:E; [|reflexivity].
  apply text_eqb_eq in E. subst formatted. exfalso.
  apply existsb_exists in Hcr. destruct Hcr as (c & Hin & Hc).
  unfold noCR in Hn. rewrite forallb_forall in Hn. specialize (Hn c Hin).
  rewrite Hc in Hn. discriminate.
Qed.

Lemma formatRange_rewrites_carriage_returns_witness :
  exists formatted,
    formatRange (T "<a/>" ++ [CRc; LFc]) fourSpaces = Ok [formatted] /\
    noCR formatted = true.
Proof. apply formatRange_rewrites_carriage_returns. reflexivity. Defined.

Lemma tokenizeLoop_blank xml : forallb is_space xml = true ->
  forall fuel i current inTag,
    forallb is_space current = true ->
    length xml <= fuel + i ->
    tokenizeLoop (S fuel) xml i current inTag [] = Ok [].
Proof.
  intros Hxml. induction fuel as [|fuel IH]; intros i current inTag Hc Hf;
    cbn [tokenizeLoop];
    (destruct (nth_error xml i) as [char|] eqn:Ec;
     [| unfold pushIf, nonBlank; rewrite (trim_spaces _ Hc); reflexivity]);
    assert (Hi : i < length xml) by (apply nth_error_Some; congruence);
    [lia|].
  assert (Hsp : is_space char = true) by (apply (forallb_nth _ _ _ _ Hxml Ec)).
  assert (Hskip : exists tl, skipn i xml = char :: tl).
  { destruct (skipn i xml) as [|y tl] eqn:Es.
    - apply (f_equal (@length ascii)) in Es. rewrite length_skipn in Es. simpl in Es. lia.
    - rewrite <- hd_error_skipn, Es in Ec. injection Ec as ->. eauto. }
  destruct Hskip as [tl Hskip]. rewrite Hskip.
  assert (Hnot : forall k, is_space k = false -> is_char k char = false).
  { intros k Hk. unfold is_char. destruct (ascii_dec k char); [subst; congruence|].
    reflexivity. }
  assert (Hno : forall k p, is_space k = false -> startsWith (k :: p) (char :: tl) = false).
  { intros k p Hk. simpl. destruct (ascii_dec k char); [subst; congruence | reflexivity]. }
  unfold CDATA_open, comment_open.
  change (T "<![CDATA[") with ("<"%char :: T "![CDATA[").
  change (T "<!--") with ("<"%char :: T "!--").
  rewrite !Hno by reflexivity. cbn [andb pushIf].
  unfold charStep. rewrite (Hnot "<"%char eq_refl), (Hnot ">"%char eq_refl). cbn [andb].
  apply IH; [|lia].
  rewrite forallb_app. simpl. rewrite Hc, Hsp. reflexivity.
Qed.

Lemma crlfToLf_spaces_le : forall n s, length s <= n ->
  forallb is_space s = true -> forallb is_space (crlfToLf s) = true.
Proof.
  induction n as [|n IH]; intros s Hn H.
  - destruct s; [reflexivity | simpl in Hn; lia].
  - destruct s as [|c [|c' s]]; [reflexivity | exact H |].
    cbn [crlfToLf]. simpl in H, Hn.
    apply andb_prop in H. destruct H as [Hc H].
    destruct (is_char CRc c && is_char LFc c').
    + apply andb_prop in H. destruct H as [_ H].
      cbn [forallb]. rewrite (IH s) by (assumption || lia). reflexivity.
    + cbn [forallb]. rewrite Hc. apply (IH (c' :: s)); [simpl; lia | exact H].
Qed.

Lemma crlfToLf_spaces s :
  forallb is_space s = true -> forallb is_space (crlfToLf s) = true.
Proof. apply (crlfToLf_spaces_le (length s)). lia. Qed.

(** Blank text, the empty text included, is formatted to a single line
    feed. *)
Theorem formatXml_blank (xml : text) (options : FormattingOptions) :
  forallb is_space xml = true -> formatXml xml options = Ok [LFc].
Proof.
  intros H. unfold formatXml, tokenize.
  rewrite tokenizeLoop_blank; try reflexivity; [|lia].
  unfold normalizeEol, replaceChar.
  apply (forallb_map_text _ is_space); [|apply crlfToLf_spaces; exact H].
  intros c Hc. destruct (ascii_dec CRc c); [reflexivity | exact Hc].
Qed.

Lemma formatXml_blank_witness :
  formatXml [] fourSpaces = Ok [LFc] /\
  formatXml (T "  " ++ [CRc; LFc; TABc]) fourSpaces = Ok [LFc].
Proof. split; apply formatXml_blank; reflexivity. Defined.

End FormatterFacts.

(** ** When resolution throws *)

Section Throwing.

(** Each direction of resolution throws exactly when the cursor line is
    outside the document, and then with the illegal-line error of
    [lineAt]; no loop runs on for ever. *)
Theorem resolution_throws_only_outside (ws : Workspace) (document : Document)
    (pos : Position) :
  match FxmlDefinitionProvider.provideDefinition ws document pos with
  | Ok _ => line pos < lineCount document
  | Err e => e = IllegalLine /\ lineCount document <= line pos
  end /\
  match ControllerDefinitionProvider.provideDefinition ws document pos with
  | Ok _ => line pos < lineCount document
  | Err e => e = IllegalLine /\ lineCount document <= line pos
  end.
Proof.
  destruct (Nat.lt_ge_cases (line pos) (lineCount document)) as [Hin|Hout].
  - destruct (markup_side_ends ws document pos Hin) as [r1 ->].
    destruct (source_side_ends ws document pos Hin) as [r2 ->].
    split; assumption.
  - assert (Hnone : nth_error (lines document) (line pos) = None)
      by (apply nth_error_None; exact Hout).
    unfold FxmlDefinitionProvider.provideDefinition,
      ControllerDefinitionProvider.provideDefinition, lineAt.
    rewrite Hnone. cbn [bind]. split; split; (reflexivity || assumption).
Qed.

End Throwing.

(** ** Scene Builder *)

Section SceneBuilderFacts.

Import SceneBuilder.

Lemma firstExisting_spec h : forall cs,
  match firstExisting h cs with
  | Some c =>
      exists pre post,
        cs = pre ++ c :: post /\ existsSync h c = true /\
        forallb (fun x => negb (existsSync h x)) pre = true
  | None => forallb (fun x => negb (existsSync h x)) cs = true
  end.
Proof.
  induction cs as [|c cs IH]; simpl; [reflexivity|].
  destruct (existsSync h c) eqn:E.
  - exists [], cs. auto.
  - destruct (firstExisting h cs) as [c'|].
    + destruct IH as (pre & post & -> & He & Hpre).
      exists (c :: pre), post. simpl. rewrite E. auto.
    + simpl. exact IH.
Qed.

(** Detection answers with the first candidate of the platform that
    exists, and with none exactly when no candidate exists. *)
Theorem detectSceneBuilder_first_existing (h : Host) :
  match detectSceneBuilder h with
  | Some c =>
      exists pre post,
        candidates h = pre ++ c :: post /\ existsSync h c = true /\
        forallb (fun x => negb (existsSync h x)) pre = true
  | None => forallb (fun x => negb (existsSync h x)) (candidates h) = true
  end.
Proof. apply firstExisting_spec. Qed.

Lemma truthy_some v s : truthy v = Some s -> v = Some s /\ s <> [].
Proof.
  destruct v as [[|c t]|]; simpl; try discriminate.
  intros [= <-]. split; [reflexivity | discriminate].
Qed.

(** Scene Builder is started only on a file whose path ends with [.fxml],
    taken from the argument or else from the active editor, and only with
    an executable that exists: the configured path when it is not blank,
    else a candidate of the platform. *)
Theorem openInSceneBuilder_spawns_safely (h : Host) (uriPath : option text)
    (command : text) (args : list text) :
  openInSceneBuilder h uriPath = Spawn command args ->
  exists fsPath,
    args = [fsPath] /\
    (uriPath = Some fsPath \/ (uriPath = None /\ activeDocumentPath h = Some fsPath)) /\
    endsWith (T ".fxml") fsPath = true /\
    existsSync h command = true /\
    ((configuredPath h = Some command /\ trim command <> []) \/
     In command (candidates h)).
Proof.
  unfold openInSceneBuilder. intros H.
  set (fileUri := match uriPath with Some u => Some u | None => activeDocumentPath h end)
    in H.
  assert (Hfile : forall f, fileUri = Some f ->
            uriPath = Some f \/ (uriPath = None /\ activeDocumentPath h = Some f)).
  { unfold fileUri. destruct uriPath; intros f E; [left; exact E | right; auto]. }
  destruct fileUri as [fsPath|]; [|discriminate].
  destruct (endsWith (T ".fxml") fsPath) eqn:Efx; cbn [negb] in H; [|discriminate].
  destruct (truthy (getSceneBuilderPath h)) as [p|] eqn:Ep; [|discriminate].
  destruct (existsSync h p) eqn:Eex; cbn [negb] in H; [|discriminate].
  injection H as <- <-.
  exists fsPath. repeat split; auto.
  apply truthy_some in Ep. destruct Ep as [Ep _].
  unfold getSceneBuilderPath in Ep.
  assert (Hdetect : detectSceneBuilder h = Some p -> In p (candidates h)).
  { intros Hd. pose proof (firstExisting_spec h (candidates h)) as Hs.
    unfold detectSceneBuilder in Hd. rewrite Hd in Hs. destruct Hs as (pre & post & -> & _).
    apply in_or_app. right. left. reflexivity. }
  destruct (truthy (configuredPath h)) as [cp|] eqn:Ec; [|right; auto].
  destruct (text_eqb (trim cp) []) eqn:Et; cbn [negb] in Ep; [right; auto|].
  injection Ep as ->. left. apply truthy_some in Ec. destruct Ec as [Ec _].
  split; [exact Ec|]. intros E. rewrite E in Et. discriminate.
Qed.

Lemma openInSceneBuilder_spawns_safely_witness :
  exists fsPath,
    [T "view.fxml"] = [fsPath] /\
    (@None text = Some fsPath \/
     (@None text = None /\ activeDocumentPath detectingHost = Some fsPath)) /\
    endsWith (T ".fxml") fsPath = true /\
    existsSync detectingHost (T "/usr/bin/scenebuilder") = true /\
    ((configuredPath detectingHost = Some (T "/usr/bin/scenebuilder") /\
      trim (T "/usr/bin/scenebuilder") <> []) \/
     In (T "/usr/bin/scenebuilder") (candidates detectingHost)).
Proof.
  apply (openInSceneBuilder_spawns_safely detectingHost None). reflexivity.
Defined.

(** A configured path that is not blank is final: when it does not exist
    the command reports it and does not fall back to detection. *)
Theorem stale_configured_path_is_reported (h : Host) (fsPath p : text) :
  endsWith (T ".fxml") fsPath = true ->
  configuredPath h = Some p ->
  trim p <> [] ->
  existsSync h p = false ->
  openInSceneBuilder h (Some fsPath)
  = ShowErrorMessage (T "Scene Builder not found at: " ++ p).
Proof.
  intros Hfx Hc Ht He. unfold openInSceneBuilder, getSceneBuilderPath.
  rewrite Hfx, Hc. cbn [negb].
  assert (Hne : p <> []) by (intros ->; apply Ht; reflexivity).
  destruct p as [|c t]; [contradiction|]. cbn [truthy].
  destruct (text_eqb (trim (c :: t)) []) eqn:E;
    [apply text_eqb_eq in E; contradiction|].
  cbn [negb truthy]. rewrite He. reflexivity.
Qed.

Lemma stale_configured_path_is_reported_witness :
  detectSceneBuilder staleConfigHost = Some (T "/usr/bin/scenebuilder") /\
  openInSceneBuilder staleConfigHost (Some (T "view.fxml"))
  = ShowErrorMessage (T "Scene Builder not found at: " ++ T "/old/SceneBuilder").
Proof.
  split; [reflexivity|].
  apply stale_configured_path_is_reported; try reflexivity. discriminate.
Defined.

End SceneBuilderFacts.

(** ** The controller reference, seen from both sides *)

Section ControllerReference.

Import FxmlDefinitionProvider.

Lemma skipn_length_app {A} (l s : list A) : skipn (length l) (l ++ s) = s.
Proof. induction l as [|x l IH]; [reflexivity | exact IH]. Qed.

Lemma matchAt_lit_exists l re p s cap :
  (forall p', exists r, matchAt re p' s cap = Some r) ->
  exists r, matchAt (Lit l :: re) p (l ++ s) cap = Some r.
Proof.
  intros H. cbn [matchAt]. rewrite startsWith_app, skipn_length_app.
  destruct (H (prevWord p (l ++ s) (length l))) as [[n c] ->]. cbn [advance]. eauto.
Qed.

Lemma matchAt_star_exists c re p s cap :
  (forall p', exists r, matchAt re p' s cap = Some r) ->
  exists r, matchAt (Star c :: re) p s cap = Some r.
Proof.
  intros H. cbn [matchAt].
  destruct (H (prevWord p s 0)) as [[n g] Hr].
  destruct (backtrack_exists 0 (run c s)
              (fun k => advance k (matchAt re (prevWord p s k) (skipn k s) cap))
              0 (0 + n, g)) as [r' Hr'].
  - lia.
  - change (skipn 0 s) with s. rewrite Hr. reflexivity.
  - eauto.
Qed.

Lemma run_stops c : forall s x,
  In x s -> c x = false ->
  exists y tl, skipn (run c s) s = y :: tl /\ c y = false.
Proof.
  induction s as [|z s IH]; intros x Hin Hx; [contradiction|].
  simpl. destruct (c z) eqn:Ez.
  - destruct Hin as [-> | Hin]; [congruence|]. apply (IH x Hin Hx).
  - exists z, s. auto.
Qed.

(** The controller pattern matches the attribute text that source-side
    resolution looks for, when the class name does not begin with a
    double quote. *)
Lemma controllerPattern_on_attribute c cls rest p :
  is_char dq c = false ->
  exists r, matchAt controllerPattern p (controllerAttr (c :: cls) ++ rest) None = Some r.
Proof.
  intros Hc. unfold controllerPattern, controllerAttr.
  change (T "fx:controller=") with (T "fx:controller" ++ T "=").
  rewrite <- !app_assoc.
  apply matchAt_lit_exists. intros p1.
  apply matchAt_star_exists. intros p2.
  apply matchAt_lit_exists. intros p3.
  apply matchAt_star_exists. intros p4.
  apply matchAt_lit_exists. intros p5.
  set (notDq := fun x => negb (is_char dq x)).
  set (s3 := (c :: cls) ++ [dq] ++ rest).
  cbn [matchAt].
  destruct (run_stops notDq s3 dq) as (y & tl & Hskip & Hy).
  { unfold s3. apply in_or_app. right. left. reflexivity. }
  { unfold notDq. rewrite is_char_refl. reflexivity. }
  assert (Hy' : y = dq).
  { unfold notDq in Hy. apply negb_false_iff in Hy. unfold is_char in Hy.
    destruct (ascii_dec dq y); [symmetry; assumption | discriminate]. }
  subst y.
  assert (Hrun : 1 <= run notDq s3).
  { unfold s3. simpl. unfold notDq at 1. rewrite Hc. simpl. lia. }
  destruct (backtrack_exists 1 (run notDq s3)
              (fun k => advance k
                 (if startsWith [dq] (skipn k s3)
                  then advance (length [dq])
                         (Some (0, Some (firstn k s3)))
                  else None))
              (run notDq s3)
              (run notDq s3 + (1 + 0), Some (firstn (run notDq s3) s3)))
    as [r' Hr'].
  - lia.
  - rewrite Hskip. cbn [startsWith].
    destruct (ascii_dec dq dq); [reflexivity | congruence].
  - exists r'. exact Hr'.
Qed.

(** A markup document that source-side resolution takes as a view of a
    controller, because its text holds the exact attribute, also has a
    controller name for markup-side resolution. *)
Theorem referenced_controller_is_declared (document : Document) (c : ascii) (cls : text) :
  is_char dq c = false ->
  includes (controllerAttr (c :: cls)) (getText document) = true ->
  exists name, findControllerInDocument document = Some name.
Proof.
  intros Hc Hinc. unfold includes in Hinc.
  destruct (indexOf (controllerAttr (c :: cls)) (getText document)) as [k|] eqn:Ek;
    [|discriminate].
  apply indexOf_sound in Ek. destruct Ek as [Hs _].
  assert (Hk : k <= length (getText document)).
  { destruct (Nat.le_gt_cases k (length (getText document))) as [|Hgt]; [assumption|].
    rewrite skipn_all2 in Hs by lia. discriminate. }
  apply startsWith_split in Hs.
  destruct (controllerPattern_on_attribute c cls
              (skipn (length (controllerAttr (c :: cls))) (skipn k (getText document)))
              (prevWord false (getText document) k) Hc) as [r Hr].
  rewrite <- Hs in Hr.
  destruct (search_complete controllerPattern (getText document) false 0 k r Hk Hr)
    as (m & Hm & _).
  assert (Hexec : exec controllerPattern (getText document) = Some m).
  { unfold exec, execFrom. simpl. exact Hm. }
  unfold findControllerInDocument. rewrite Hexec.
  cbn [ControllerDefinitionProvider.capture].
  destruct (group1 m) as [name|] eqn:Eg; [eauto|].
  exfalso. apply (exec_group_set controllerPattern _ _ ltac:(discriminate) Hexec Eg).
Qed.

Lemma referenced_controller_is_declared_witness :
  exists name, findControllerInDocument viewWithMembers = Some name.
Proof.
  apply (referenced_controller_is_declared viewWithMembers "p" (T "kg.C"));
    reflexivity.
Defined.

(** The converse fails: blanks around the equals sign are read by the
    markup side only. *)
Example spaced_controller_attribute :
  let view := mkDocument [T "<VBox fx:controller = " ++ quoted "pkg.C" ++ T ">"] LF in
  findControllerInDocument view = Some (T "pkg.C") /\
  includes (controllerAttr (T "pkg.C")) (getText view) = false.
Proof. split; reflexivity. Qed.

End ControllerReference.

(** ** Where a successful resolution leads *)

Section ResolutionTargets.

Import ControllerDefinitionProvider.

Lemma findInFxmlLoop_sound ws cls name isMethod : forall files loc,
  findInFxmlLoop ws files cls name isMethod = Some loc ->
  exists u,
    In u files /\ referencesController ws cls u = true /\
    findInDocument (openTextDocument ws u) u name isMethod = Some loc.
Proof.
  induction files as [|v files IH]; intros loc H; cbn [findInFxmlLoop] in H;
    [discriminate|].
  destruct (includes (controllerAttr cls) (getText (openTextDocument ws v))) eqn:Er;
    cbn [negb] in H.
  - fold (findInDocument (openTextDocument ws v) v name isMethod) in H.
    destruct (findInDocument (openTextDocument ws v) v name isMethod) as [l0|] eqn:Ef.
    + injection H as <-. exists v. split; [left; reflexivity|]. split; [exact Er | exact Ef].
    + apply IH in H. destruct H as (u & Hin & Hr & Hf). exists u. auto using in_cons.
  - apply IH in H. destruct H as (u & Hin & Hr & Hf). exists u. auto using in_cons.
Qed.

Lemma goToFxmlLoop_sound ws cls name isMethod : forall files,
  match FxmlCodeLensProvider.goToFxmlLoop ws files cls name isMethod with
  | FxmlCodeLensProvider.ShowTextDocument u pos =>
      In u files /\ referencesController ws cls u = true /\
      FxmlCodeLensProvider.targetInDocument (openTextDocument ws u) name isMethod
        = Some pos
  | FxmlCodeLensProvider.ShowInformationMessage m =>
      m = name /\
      forall v, In v files ->
        referencesController ws cls v = false \/
        FxmlCodeLensProvider.targetInDocument (openTextDocument ws v) name isMethod
          = None
  end.
Proof.
  induction files as [|v files IH]; cbn [FxmlCodeLensProvider.goToFxmlLoop].
  - split; [reflexivity | intros v []].
  - destruct (includes (controllerAttr cls) (getText (openTextDocument ws v))) eqn:Er;
      cbn [negb].
    + destruct (FxmlCodeLensProvider.targetInDocument (openTextDocument ws v) name isMethod)
        as [pos|] eqn:Et.
      * split; [left; reflexivity|]. split; [exact Er | exact Et].
      * destruct (FxmlCodeLensProvider.goToFxmlLoop ws files cls name isMethod).
        -- destruct IH as (Hin & Hr & Ht). split; [right; exact Hin | auto].
        -- destruct IH as (Hm & Hall). split; [exact Hm|].
           intros w [<- | Hw]; [right; exact Et | apply Hall; exact Hw].
    + destruct (FxmlCodeLensProvider.goToFxmlLoop ws files cls name isMethod).
      * destruct IH as (Hin & Hr & Ht). split; [right; exact Hin | auto].
      * destruct IH as (Hm & Hall). split; [exact Hm|].
        intros w [<- | Hw]; [left; exact Er | apply Hall; exact Hw].
Qed.

(** A result of source-side resolution lies in a discovered markup
    document that holds the controller reference, on a line that matches
    the attribute of the member; the command behind the lenses opens such
    a document too, and shows its message only when no discovered
    document has both. *)
Theorem source_side_target (ws : Workspace) (cls name : text) (isMethod : bool) :
  (forall loc,
     findInFxmlFiles ws cls name isMethod = Some loc ->
     In (uri loc) (findFiles ws fxmlGlob excludeGlob) /\
     referencesController ws cls (uri loc) = true /\
     exists l,
       nth_error (lines (openTextDocument ws (uri loc))) (line (position loc)) = Some l /\
       exec (attributePattern name isMethod) l <> None) /\
  match FxmlCodeLensProvider.goToFxmlCommand ws cls name isMethod with
  | FxmlCodeLensProvider.ShowTextDocument u pos =>
      In u (findFiles ws fxmlGlob excludeGlob) /\
      referencesController ws cls u = true /\
      FxmlCodeLensProvider.targetInDocument (openTextDocument ws u) name isMethod
        = Some pos
  | FxmlCodeLensProvider.ShowInformationMessage m =>
      m = name /\
      forall v, In v (findFiles ws fxmlGlob excludeGlob) ->
        referencesController ws cls v = false \/
        FxmlCodeLensProvider.targetInDocument (openTextDocument ws v) name isMethod
          = None
  end.
Proof.
  split.
  - intros loc H. unfold findInFxmlFiles in H. apply findInFxmlLoop_sound in H.
    destruct H as (u & Hin & Hr & Hf).
    apply findInDocument_first_line in Hf. destruct Hf as (Hu & Hl & _).
    rewrite Hu. auto.
  - apply goToFxmlLoop_sound.
Qed.

Lemma source_side_target_witness :
  In viewUri (findFiles sampleWorkspace fxmlGlob excludeGlob) /\
  referencesController sampleWorkspace (T "pkg.C") viewUri = true /\
  exists l,
    nth_error (lines (openTextDocument sampleWorkspace viewUri)) 1 = Some l /\
    exec (attributePattern (T "myButton") false) l <> None.
Proof.
  destruct (source_side_target sampleWorkspace (T "pkg.C") (T "myButton") false)
    as [H _].
  apply (H (mkLocation viewUri (mkPosition 1 8))). reflexivity.
Defined.

Lemma getMemberName_nonempty ln charPos w :
  getMemberNameAtPosition ln charPos = Ok (Some w) -> w <> [].
Proof.
  unfold getMemberNameAtPosition. intros H.
  apply memberNameLoop_sound in H. destruct H as (i & n & c & Hm & Hcov & Hw & _).
  pose proof (matchAt_bounds _ _ _ _ _ _ Hm) as [Hmin Hmax]. simpl in Hmin.
  rewrite length_skipn in Hmax.
  intros ->. apply (f_equal (@length ascii)) in Hw.
  unfold substring in Hw. rewrite length_firstn, length_skipn in Hw. simpl in Hw. lia.
Qed.

Lemma attribute_nonempty ln charPos pattern v :
  FxmlDefinitionProvider.getAttributeValueAtPosition ln charPos pattern = Ok (Some v) ->
  v <> [].
Proof.
  unfold FxmlDefinitionProvider.getAttributeValueAtPosition. intros H.
  apply attributeLoop_sound in H. destruct H as (i & n & Hm & _).
  apply matchAt_group in Hm.
  destruct Hm as [Hm | (v' & _ & _ & _ & Hr & _ & Hv & _)]; [discriminate|].
  injection Hr as <-. exact Hv.
Qed.

Lemma controller_name_nonempty document cls :
  FxmlDefinitionProvider.findControllerInDocument document = Some cls -> cls <> [].
Proof.
  unfold FxmlDefinitionProvider.findControllerInDocument.
  destruct (exec FxmlDefinitionProvider.controllerPattern (getText document))
    as [m|] eqn:Ec; [|discriminate].
  cbn [capture]. intros Hg.
  destruct (exec_group _ _ _ _ Ec Hg) as (c & _ & Hne & _). exact Hne.
Qed.

Lemma qualified_name_nonempty document q :
  getFullyQualifiedClassName document = Some q -> q <> [].
Proof.
  unfold getFullyQualifiedClassName.
  destruct (exec classPattern (getText document)) as [m|] eqn:Ec; cbn [capture];
    [|discriminate].
  destruct (group1 m) as [cls|] eqn:Eg; [|discriminate].
  destruct (exec_group _ _ _ _ Ec Eg) as (c & _ & Hne & _).
  destruct (match capture (exec packagePattern (getText document)) with
            | Some p => p | None => [] end) as [|x pkg].
  - intros [= <-]. exact Hne.
  - intros [= <-]. discriminate.
Qed.

(** What each direction resolves to once the cursor is on a reference:
    the controller attribute goes first, then the handler attribute, then
    the identifier attribute; a field or method under the cursor goes to
    the markup search with the kind that the method test gives on its
    line.  No value that was read is dropped as empty. *)
Theorem resolution_dispatch
    (ws : Workspace) (document : Document) (pos : Position) (lineText : text) :
  nth_error (lines document) (line pos) = Some lineText ->
  let attributeAt :=
    FxmlDefinitionProvider.getAttributeValueAtPosition lineText (character pos) in
  let markup := FxmlDefinitionProvider.provideDefinition ws document pos in
  (forall cls,
     attributeAt FxmlDefinitionProvider.controllerPattern = Ok (Some cls) ->
     markup = Ok (FxmlDefinitionProvider.findControllerClass ws cls)) /\
  (forall name cls,
     attributeAt FxmlDefinitionProvider.controllerPattern = Ok None ->
     attributeAt FxmlDefinitionProvider.eventHandlerPattern = Ok (Some name) ->
     FxmlDefinitionProvider.findControllerInDocument document = Some cls ->
     markup = Ok (FxmlDefinitionProvider.findMethodInController ws cls name)) /\
  (forall name cls,
     attributeAt FxmlDefinitionProvider.controllerPattern = Ok None ->
     attributeAt FxmlDefinitionProvider.eventHandlerPattern = Ok None ->
     attributeAt FxmlDefinitionProvider.fxIdPattern = Ok (Some name) ->
     FxmlDefinitionProvider.findControllerInDocument document = Some cls ->
     markup = Ok (FxmlDefinitionProvider.findFieldInController ws cls name)) /\
  (forall name cls,
     getMemberNameAtPosition lineText (character pos) = Ok (Some name) ->
     isFxmlAnnotated document (line pos) = Ok true ->
     getFullyQualifiedClassName document = Some cls ->
     provideDefinition ws document pos
     = Ok (findInFxmlFiles ws cls name (isMethodDeclaration lineText name))).
Proof.
  intros Hline attributeAt markup.
  unfold markup, FxmlDefinitionProvider.provideDefinition, provideDefinition, lineAt.
  rewrite Hline. cbn [bind]. fold attributeAt. repeat split.
  - intros cls H. rewrite H. cbn [bind].
    pose proof (attribute_nonempty _ _ _ _ H) as Hne.
    destruct cls; [contradiction | reflexivity].
  - intros name cls H1 H2 Hc. rewrite H1, H2. cbn [bind truthy]. rewrite Hc.
    pose proof (attribute_nonempty _ _ _ _ H2) as Hne.
    pose proof (controller_name_nonempty _ _ Hc) as Hnc.
    destruct name; [contradiction|]. destruct cls; [contradiction | reflexivity].
  - intros name cls H1 H2 H3 Hc. rewrite H1, H2. cbn [bind truthy].
    unfold FxmlDefinitionProvider.fxIdCheck. fold attributeAt. rewrite H3, Hc. cbn [bind].
    pose proof (attribute_nonempty _ _ _ _ H3) as Hne.
    pose proof (controller_name_nonempty _ _ Hc) as Hnc.
    destruct name; [contradiction|]. destruct cls; [contradiction | reflexivity].
  - intros name cls Hn Ha Hq. rewrite Hn, Ha, Hq. cbn [bind negb].
    pose proof (getMemberName_nonempty _ _ _ Hn) as Hne.
    pose proof (qualified_name_nonempty _ _ Hq) as Hnq.
    destruct name; [contradiction|]. destruct cls; [contradiction | reflexivity].
Qed.

Lemma resolution_dispatch_witness :
  FxmlDefinitionProvider.provideDefinition sampleWorkspace viewWithMembers
    onControllerAttribute
    = Ok (FxmlDefinitionProvider.findControllerClass sampleWorkspace (T "pkg.C")) /\
  FxmlDefinitionProvider.provideDefinition sampleWorkspace viewWithMembers
    onHandlerAttribute
    = Ok (FxmlDefinitionProvider.findMethodInController sampleWorkspace
            (T "pkg.C") (T "handleClick")) /\
  FxmlDefinitionProvider.provideDefinition sampleWorkspace viewWithMembers
    (mkPosition 1 12)
    = Ok (FxmlDefinitionProvider.findFieldInController sampleWorkspace
            (T "pkg.C") (T "myButton")) /\
  provideDefinition sampleWorkspace controllerC onMyButton
    = Ok (findInFxmlFiles sampleWorkspace (T "pkg.C") (T "myButton") false).
Proof.
  split; [|split; [|split]].
  - destruct (resolution_dispatch sampleWorkspace viewWithMembers onControllerAttribute
                controllerLine eq_refl) as (H & _).
    apply H. reflexivity.
  - destruct (resolution_dispatch sampleWorkspace viewWithMembers onHandlerAttribute
                buttonLine eq_refl) as (_ & H & _).
    apply H; reflexivity.
  - destruct (resolution_dispatch sampleWorkspace viewWithMembers (mkPosition 1 12)
                buttonLine eq_refl) as (_ & _ & H & _).
    apply H; reflexivity.
  - destruct (resolution_dispatch sampleWorkspace controllerC onMyButton
                (T "    private Button myButton;") eq_refl) as (_ & _ & _ & H).
    apply (H (T "myButton") (T "pkg.C")); reflexivity.
Defined.

End ResolutionTargets.
